(** * MediScan Pro (ADR-Reporter-Pro): the resolution core of [app.js]

    A shallow embedding of the drug-resolution and report-submission code
    of [src/app.js], and the properties of it that the specification
    states.

    Conventions of the embedding.

    - Strings are sequences of characters with code points 0..255 (the
      Latin-1 range of a JavaScript string); [toLowerCase] and [trim]
      follow ECMAScript on that range.
    - The dataset file and the service responses are read through the
      typed view of the specification's data model: a field that the
      code only reads through [||] or a truthiness test is a plain value
      whose empty form ([""], [[]]) stands for an absent one.
    - A plain object used as a map ([drapIndex], [freq]) is the ordered
      list of its own properties; property order is the ECMAScript one
      (array-index keys in ascending order, then the other keys by
      insertion).
    - The browser (JSON decoding of a payload, the three [fetch]
      requests) is a value of type [Platform]; code that can throw runs
      in the monad [M], in which [try]/[catch] is a combinator, and what
      the code does to the outside is logged in the state.
    - Data that is not typed as the data model says is the subject of
      the module [Untyped], which follows the parser, the loader, the
      quick card and the local lookup on any JSON value, with the
      exceptions they then throw; on typed data it is the typed view
      (the lemmas named [_typed]). *)

From Stdlib Require Import String Ascii List Bool Arith NArith QArith.
From Stdlib Require Import DecimalString DecimalN DecimalPos Sorted Permutation Lia.
Import ListNotations.
Local Close Scope Q_scope.
Local Open Scope string_scope.
Local Open Scope list_scope.
Local Open Scope nat_scope.

Set Implicit Arguments.
Set Warnings "-register-all".

(* ===================================================================== *)
(** * Strings *)
(* ===================================================================== *)

Module JSString.

(** [String.prototype.toLowerCase] on code points 0..255: [A-Z] and the
    accented capitals U+00C0..U+00DE (U+00D7 is the multiplication sign)
    move up by 32. *)
Definition toLowerCase_char (c : ascii) : ascii :=
  let n := nat_of_ascii c in
  if ((65 <=? n) && (n <=? 90))
     || ((192 <=? n) && (n <=? 222) && negb (n =? 215))
  then ascii_of_nat (n + 32) else c.

Fixpoint toLowerCase (s : string) : string :=
  match s with
  | EmptyString => EmptyString
  | String c r => String (toLowerCase_char c) (toLowerCase r)
  end.

(** White space and line terminators of ECMAScript below U+0100:
    TAB, LF, VT, FF, CR, SP and NBSP. *)
Definition isWhiteSpace (c : ascii) : bool :=
  let n := nat_of_ascii c in
  ((9 <=? n) && (n <=? 13)) || (n =? 32) || (n =? 160).

Fixpoint trimStart (s : string) : string :=
  match s with
  | EmptyString => EmptyString
  | String c r => if isWhiteSpace c then trimStart r else s
  end.

Fixpoint trimEnd (s : string) : string :=
  match s with
  | EmptyString => EmptyString
  | String c r =>
      match trimEnd r with
      | EmptyString => if isWhiteSpace c then EmptyString
                       else String c EmptyString
      | r' => String c r'
      end
  end.

(** [String.prototype.trim]. *)
Definition trim (s : string) : string := trimEnd (trimStart s).

(** [h.startsWith(n)]. *)
Fixpoint startsWith (h n : string) {struct n} : bool :=
  match n, h with
  | EmptyString, _ => true
  | String _ _, EmptyString => false
  | String a n', String b h' => Ascii.eqb a b && startsWith h' n'
  end.

(** [h.includes(n)]: [n] occurs in [h] at some position. *)
Fixpoint includes (h n : string) : bool :=
  if startsWith h n then true
  else match h with
       | EmptyString => false
       | String _ r => includes r n
       end.

(** [l.join(sep)] on an array of strings. *)
Definition join (sep : string) (l : list string) : string := String.concat sep l.

(** JavaScript truthiness of a string. *)
Definition truthy (s : string) : bool := negb (s =? "")%string.

(** [a || b] on strings. *)
Definition or_else (a b : string) : string := if truthy a then a else b.

End JSString.

Import JSString.
Infix "|||" := or_else (at level 50, left associativity).

(* ===================================================================== *)
(** * Plain objects used as maps *)
(* ===================================================================== *)

Module JSObject.

Definition isDigit (c : ascii) : bool :=
  let n := nat_of_ascii c in (48 <=? n) && (n <=? 57).

Fixpoint allDigits (s : string) : bool :=
  match s with
  | EmptyString => true
  | String c r => isDigit c && allDigits r
  end.

Fixpoint decimalValue (acc : N) (s : string) : N :=
  match s with
  | EmptyString => acc
  | String c r => decimalValue (10 * acc + (N_of_ascii c - 48)) r
  end.

(** A property key is an array index when it is the canonical decimal
    form of an integer below 2^32 - 1. *)
Definition arrayIndex (k : string) : option N :=
  match k with
  | EmptyString => None
  | String c r =>
      if allDigits k && (String.length k <=? 10)
         && (negb (nat_of_ascii c =? 48) || (r =? "")%string) then
        let v := decimalValue 0 k in
        if (v <? 4294967295)%N then Some v else None
      else None
  end.

Section Props.
Variable V : Type.

(** Own properties, in the order of their creation. *)
Definition t := list (string * V).

Definition empty : t := [].

Fixpoint getOwn (o : t) (k : string) : option V :=
  match o with
  | [] => None
  | (k', v) :: r => if (k' =? k)%string then Some v else getOwn r k
  end.

(** [o[k] = v]: an existing property keeps its place. *)
Fixpoint set (o : t) (k : string) (v : V) : t :=
  match o with
  | [] => [(k, v)]
  | (k', v') :: r =>
      if (k' =? k)%string then (k', v) :: r else (k', v') :: set r k v
  end.

Fixpoint insertIndex (n : N) (k : string) (l : list (N * string))
  : list (N * string) :=
  match l with
  | [] => [(n, k)]
  | (m, k') :: r =>
      if (n <? m)%N then (n, k) :: l else (m, k') :: insertIndex n k r
  end.

Fixpoint indexKeys (o : t) : list (N * string) :=
  match o with
  | [] => []
  | (k, _) :: r =>
      match arrayIndex k with
      | Some n => insertIndex n k (indexKeys r)
      | None => indexKeys r
      end
  end.

Fixpoint nameKeys (o : t) : list string :=
  match o with
  | [] => []
  | (k, _) :: r =>
      match arrayIndex k with
      | Some _ => nameKeys r
      | None => k :: nameKeys r
      end
  end.

(** The keys as [for (k in o)], [Object.keys] and [Object.entries]
    visit them. *)
Definition ownKeys (o : t) : list string :=
  map snd (indexKeys o) ++ nameKeys o.

Definition entries (o : t) : list (string * V) :=
  flat_map (fun k => match getOwn o k with
                     | Some v => [(k, v)]
                     | None => []
                     end) (ownKeys o).
End Props.

End JSObject.

(* ===================================================================== *)
(** * Data model *)
(* ===================================================================== *)

(** [lastParsed] and the result of [parsePayload]. *)
Record Candidate : Type := mkCandidate {
  c_name : string;
  c_batch : string;
  c_expiry : string
}.

(** An entry of [drap_drugs.json], typed as the data model types it.  A
    string property that is absent is the empty string and an absent list
    is the empty list (the code reads them through [||] only);
    [d_maxDoseMg] is [None] when the entry has no maximum, and
    [d_synonyms] is [None] when it has no property [synonyms].  (An entry
    whose [synonyms] is neither absent nor an array is not a typed entry:
    see [Untyped.synonymsMatch].) *)
Record DrugRecord : Type := mkDrug {
  d_name : string;
  d_manufacturer : string;
  d_batch : string;
  d_expiry : string;
  d_uses : list string;
  d_adrs : list string;
  d_dosage : string;
  d_maxDoseMg : option Q;
  d_synonyms : option (list string)
}.

(** The object literal [merged] of [fetchAndRenderDrug]. *)
Record MergedRecord : Type := mkMerged {
  m_name : string;
  m_manufacturer : string;
  m_batch : string;
  m_expiry : string;
  m_uses_local : list string;
  m_adrs_local : list string;
  m_uses_official : list string;
  m_adrs_reported : list string;
  m_dosage_official : string;
  m_maxDoseMg : option Q
}.

(* ===================================================================== *)
(** * The local index *)
(* ===================================================================== *)

Definition Index : Type := JSObject.t DrugRecord.

(** What [Object.prototype] answers for the two all-lowercase names a
    plain object inherits, seen through the properties the code reads:
    [constructor] is the function [Object], whose [name] is ["Object"];
    [__proto__] is [Object.prototype] itself.  Neither has any other
    property of a record. *)
Definition blankRecord (n : string) : DrugRecord :=
  mkDrug n "" "" "" [] [] "" None None.

Definition inherited (k : string) : option DrugRecord :=
  if (k =? "constructor")%string then Some (blankRecord "Object")
  else if (k =? "__proto__")%string then Some (blankRecord "")
  else None.

(** [drapIndex[k]]. *)
Definition drapIndex_get (idx : Index) (k : string) : option DrugRecord :=
  match JSObject.getOwn idx k with
  | Some d => Some d
  | None => inherited k
  end.

(** The body of [arr.forEach] in [loadDrapLocal] for one record (a key
    [__proto__], which would rebind the prototype of the index instead of
    adding a property, is not a key of a dataset in this model). *)
Definition addRecord (idx : Index) (d : DrugRecord) : Index :=
  let idx1 := if truthy (d_name d)
              then JSObject.set idx (toLowerCase (d_name d)) d else idx in
  match d_synonyms d with
  | Some syns =>
      fold_left (fun i s => JSObject.set i (toLowerCase s) d) syns idx1
  | None => idx1
  end.

Definition buildIndex (arr : list DrugRecord) : Index :=
  fold_left addRecord arr (JSObject.empty DrugRecord).

(** The test of the [for (const k in drapIndex)] loop, lines 221-225, on
    typed records; [lc] is [name.toLowerCase()].  ([Untyped.containsMatch]
    is the test on any record.) *)
Definition containsMatch (idx : Index) (lc k : string) : bool :=
  includes k lc
  || match drapIndex_get idx k with
     | Some d =>
         match d_synonyms d with
         | Some syns => includes (toLowerCase (join " " syns)) lc
         | None => false
         end
     | None => false
     end.

(** Lines 219-226 of [fetchAndRenderDrug]: exact key, then the loop. *)
Definition lookupLocal (idx : Index) (name : string) : option DrugRecord :=
  let lc := toLowerCase name in
  match drapIndex_get idx lc with
  | Some d => Some d
  | None =>
      match find (containsMatch idx lc) (JSObject.ownKeys idx) with
      | Some k => drapIndex_get idx k
      | None => None
      end
  end.

(* ===================================================================== *)
(** * The payload parser *)
(* ===================================================================== *)

(** The six properties lines 170-172 read from [JSON.parse(raw)], each
    typed as the string the data model expects; an absent property is the
    empty string.  ([Untyped.parsePayload] reads them as any value.) *)
Record PayloadObject : Type := mkPayload {
  o_drugName : string;
  o_name : string;
  o_productName : string;
  o_batch : string;
  o_lot : string;
  o_expiry : string
}.

Module Regex.

(** [s] without the prefix [p], when it has it. *)
Fixpoint stripPrefix (p s : string) : option string :=
  match p, s with
  | EmptyString, _ => Some s
  | String a p', String b s' =>
      if Ascii.eqb a b then stripPrefix p' s' else None
  | String _ _, EmptyString => None
  end.

(** [String.prototype.match] without the [g] flag: the match at the
    leftmost position where the pattern matches. *)
Fixpoint search (A : Type) (here : string -> option A) (s : string)
  : option A :=
  match here s with
  | Some r => Some r
  | None =>
      match s with
      | EmptyString => None
      | String _ r => search here r
      end
  end.

(** The class [[A-Z0-9\-]]. *)
Definition batchChar (c : ascii) : bool :=
  let n := nat_of_ascii c in
  ((65 <=? n) && (n <=? 90)) || ((48 <=? n) && (n <=? 57)) || (n =? 45).

(** The longest prefix of class characters, and what follows it. *)
Fixpoint span (p : ascii -> bool) (s : string) : string * string :=
  match s with
  | EmptyString => (EmptyString, EmptyString)
  | String c r =>
      if p c then let (a, b) := span p r in (String c a, b)
      else (EmptyString, s)
  end.

(** [/\(10\)([A-Z0-9\-]+?)(?=\(|$)/] at one position.  No character of
    the class is an opening parenthesis, so the lazy group can only end
    where the run of class characters ends; the look-ahead then asks for
    an opening parenthesis or the end of the input. *)
Definition m10_here (s : string) : option string :=
  match stripPrefix "(10)" s with
  | Some rest =>
      let (run, tail) := span batchChar rest in
      match run, tail with
      | EmptyString, _ => None
      | _, EmptyString => Some run
      | _, String c _ => if Ascii.eqb c "("%char then Some run else None
      end
  | None => None
  end.

(** [/\(17\)(\d{6})/] at one position. *)
Definition m17_here (s : string) : option string :=
  match stripPrefix "(17)" s with
  | Some rest =>
      let d := substring 0 6 rest in
      if (String.length d =? 6) && JSObject.allDigits d then Some d
      else None
  | None => None
  end.

(** Capture group 1 of the two patterns of lines 178 and 180. *)
Definition m10 (raw : string) : option string := search m10_here raw.
Definition m17 (raw : string) : option string := search m17_here raw.

End Regex.

(** A JSON text denotes an object only when its first character after
    JSON white space (space, TAB, LF, CR) is an opening brace. *)
Fixpoint startsWithBrace (s : string) : bool :=
  match s with
  | EmptyString => false
  | String c r =>
      let n := nat_of_ascii c in
      if (n =? 32) || (n =? 9) || (n =? 10) || (n =? 13)
      then startsWithBrace r
      else n =? 123
  end.

(* ===================================================================== *)
(** * The browser *)
(* ===================================================================== *)

(** A label property of openFDA: absent, a string, or an array. *)
Inductive LabelField : Type :=
| Absent
| Str (s : string)
| Arr (l : list string).

(** [j.results?.[0]] of the label response, through the properties read
    on lines 236 and 238. *)
Record LabelDoc : Type := mkLabel {
  l_indications_and_usage : LabelField;
  l_purpose : LabelField;
  l_description : LabelField;
  l_dosage_and_administration : LabelField;
  l_how_supplied : LabelField
}.

(** A [fetch] response: [r.ok], and what [await r.json()] gives ([None]
    when it rejects, or gives a value on which the next property read
    throws). *)
Record Response (B : Type) : Type := mkResponse {
  r_ok : bool;
  r_json : option B
}.

(** The collaborators of the core.  [decodeObject raw] is the object
    [JSON.parse(raw)] returns, when it returns one; [fetchDrap],
    [fetchLabel] and [fetchEvents] are the three requests ([None] when
    [fetch] rejects).  The body of the label response is [results?.[0]];
    the body of the events response is [results || []], each event
    given by the [reactionmeddrapt] of [patient?.reaction || []]. *)
Record Platform : Type := mkPlatform {
  decodeObject : string -> option PayloadObject;
  fetchDrap : option (Response (list DrugRecord));
  fetchLabel : string -> option (Response (option LabelDoc));
  fetchEvents : string -> option (Response (list (list string)))
}.

(** [JSON.parse(raw)] as lines 169-172 see it: [None] when it throws or
    returns a value with none of the six properties (a text that does
    not denote an object). *)
Definition JSON_parse (P : Platform) (raw : string) : option PayloadObject :=
  if startsWithBrace raw then decodeObject P raw else None.

(** [parsePayload], lines 166-186, on a payload with string
    properties. *)
Definition parsePayload (P : Platform) (raw : string) : Candidate :=
  let out :=
    match JSON_parse P raw with
    | Some o =>
        mkCandidate (o_drugName o ||| o_name o ||| o_productName o ||| "")
                    (o_batch o ||| o_lot o ||| "")
                    (o_expiry o ||| "")
    | None => mkCandidate "" "" ""
    end in
  if truthy (c_name out) then out
  else
    let batch := match Regex.m10 raw with
                 | Some b => b
                 | None => c_batch out
                 end in
    let expiry := match Regex.m17 raw with
                  | Some e => e
                  | None => c_expiry out
                  end in
    mkCandidate raw batch expiry.

(* ===================================================================== *)
(** * The page: card, report log, state *)
(* ===================================================================== *)

(** The content of an element after an assignment to [innerHTML].  Every
    interpolated string goes through [escapeHtml], so it arrives as text
    holding the string; [style] attributes and the white space between
    tags are left out, and the fixed text of a template is written as in
    the source file. *)
Inductive Html : Type :=
| Text (s : string)
| Elem (tag : string) (classes : list string) (kids : list Html).

Fixpoint textContent (h : Html) : string :=
  match h with
  | Text s => s
  | Elem _ _ kids =>
      (fix all (l : list Html) : string :=
         match l with
         | [] => ""
         | k :: r => (textContent k ++ all r)%string
         end) kids
  end.

(** The first element, in document order, carrying class [c]. *)
Fixpoint findClass (c : string) (h : Html) : option Html :=
  match h with
  | Text _ => None
  | Elem _ cls kids =>
      if existsb (String.eqb c) cls then Some h
      else (fix first (l : list Html) : option Html :=
              match l with
              | [] => None
              | k :: r => match findClass c k with
                          | Some e => Some e
                          | None => first r
                          end
              end) kids
  end.

(** [el.querySelector('.' + c)] on an element with content [kids]. *)
Fixpoint querySelector (c : string) (kids : list Html) : option Html :=
  match kids with
  | [] => None
  | k :: r => match findClass c k with
              | Some e => Some e
              | None => querySelector c r
              end
  end.

(** A JavaScript number: a finite value (zero being the positive zero),
    the negative zero ([Number("-0")]), one of the two infinities
    ([Number("1e999")] is [Infinity]), or [NaN]. *)
Inductive jsnumber : Type :=
| Num (q : Q)
| NegZero
| PosInfinity
| NegInfinity
| NaN.

Definition Qgt_bool (a b : Q) : bool := negb (Qle_bool a b).

(** Truthiness of a number: both zeros and [NaN] are falsy. *)
Definition num_truthy (n : jsnumber) : bool :=
  match n with
  | Num q => negb (Qeq_bool q 0%Q)
  | NegZero => false
  | PosInfinity | NegInfinity => true
  | NaN => false
  end.

(** [a > b] on numbers: false when an operand is [NaN]; the negative zero
    compares as zero. *)
Definition num_gt (a b : jsnumber) : bool :=
  match a, b with
  | Num x, Num y => Qgt_bool x y
  | Num x, NegZero => Qgt_bool x 0%Q
  | NegZero, Num y => Qgt_bool 0%Q y
  | PosInfinity, (Num _ | NegZero | NegInfinity) => true
  | (Num _ | NegZero), NegInfinity => true
  | _, _ => false
  end.

(** The object literal [report] of the submit handler; [amountMg] is
    [None] for a [null] read back from storage. *)
Record Report : Type := mkReport {
  rep_id : string;
  rep_drug : string;
  rep_batch : string;
  rep_patientName : string;
  rep_age : string;
  rep_gender : string;
  rep_phone : string;
  rep_condition : string;
  rep_severity : string;
  rep_amountMg : option jsnumber;
  rep_description : string;
  rep_date : string;
  rep_highDose : bool
}.

(** The values of the form fields when the submit event fires;
    [p_amount_mg] is [Number(value || 0)] of line 306. *)
Record Form : Type := mkForm {
  p_amount_mg : jsnumber;
  p_batch : string;
  p_name : string;
  p_age : string;
  p_gender : string;
  p_phone : string;
  p_condition : string;
  p_severity : string;
  p_desc : string
}.

(** [Date.now()] and [new Date().toISOString()]. *)
Record Clock : Type := mkClock {
  now : N;
  toISOString : string
}.

Inductive Query : Type :=
| DrapFile
| LabelQuery (name : string)
| EventQuery (name : string).

(** What the code does to the outside, in order. *)
Inductive Effect : Type :=
| Fetched (q : Query)
| Warned (msg : string)
| Alerted (msg : string)
| StorageGet
| StorageSet (arr : list Report)
| StorageRemove.

(** The globals of [app.js] and the parts of the page it writes.
    [localStorage] is the value the text stored under [STORAGE_KEY]
    parses to, [None] when the key is not set. *)
Record State : Type := mkState {
  drapIndex : Index;
  lastParsed : Candidate;
  drugCard : list Html;
  doseWarning : option Q;
  historyList : list Report;
  localStorage : option (list Report);
  effects : list Effect
}.

Definition with_drapIndex (st : State) (i : Index) : State :=
  mkState i (lastParsed st) (drugCard st) (doseWarning st) (historyList st)
          (localStorage st) (effects st).
Definition with_lastParsed (st : State) (c : Candidate) : State :=
  mkState (drapIndex st) c (drugCard st) (doseWarning st) (historyList st)
          (localStorage st) (effects st).
Definition with_drugCard (st : State) (h : list Html) : State :=
  mkState (drapIndex st) (lastParsed st) h (doseWarning st) (historyList st)
          (localStorage st) (effects st).
Definition with_doseWarning (st : State) (w : option Q) : State :=
  mkState (drapIndex st) (lastParsed st) (drugCard st) w (historyList st)
          (localStorage st) (effects st).
Definition with_historyList (st : State) (h : list Report) : State :=
  mkState (drapIndex st) (lastParsed st) (drugCard st) (doseWarning st) h
          (localStorage st) (effects st).
Definition with_localStorage (st : State) (s : option (list Report)) : State :=
  mkState (drapIndex st) (lastParsed st) (drugCard st) (doseWarning st)
          (historyList st) s (effects st).
Definition with_effect (st : State) (e : Effect) : State :=
  mkState (drapIndex st) (lastParsed st) (drugCard st) (doseWarning st)
          (historyList st) (localStorage st) (effects st ++ [e]).

(* ===================================================================== *)
(** * Computations that can throw *)
(* ===================================================================== *)

Inductive Outcome (A : Type) : Type :=
| Ret (a : A)
| Throw.
Arguments Throw {A}.

(** A computation reads and writes the state and returns or throws; what
    it wrote before a throw stays written. *)
Definition M (A : Type) : Type := State -> Outcome A * State.

Definition ret (A : Type) (a : A) : M A := fun st => (Ret a, st).

Definition bind (A B : Type) (m : M A) (k : A -> M B) : M B :=
  fun st => match m st with
            | (Ret a, st') => k a st'
            | (Throw, st') => (Throw, st')
            end.

Definition throw (A : Type) : M A := fun st => (Throw, st).

(** [try { body } catch (e) { handler }]. *)
Definition tryCatch (A : Type) (body handler : M A) : M A :=
  fun st => match body st with
            | (Ret a, st') => (Ret a, st')
            | (Throw, st') => handler st'
            end.

Definition get : M State := fun st => (Ret st, st).
Definition modify (f : State -> State) : M unit := fun st => (Ret tt, f st).
Definition emit (e : Effect) : M unit := modify (fun st => with_effect st e).

Notation "x <- m ;; k" := (bind m (fun x => k))
  (at level 61, m at next level, right associativity).
Notation "m ;; k" := (bind m (fun _ => k))
  (at level 61, right associativity).

(** [await fetch(...)]: the response, or a rejection thrown at the
    [await]. *)
Definition fetch (B : Type) (q : Query) (r : option (Response B))
  : M (Response B) :=
  emit (Fetched q) ;;
  match r with
  | Some resp => ret resp
  | None => throw _
  end.

(** [await r.json()]. *)
Definition json (B : Type) (r : Response B) : M B :=
  match r_json r with
  | Some b => ret b
  | None => throw _
  end.

(* ===================================================================== *)
(** * Loading the dataset *)
(* ===================================================================== *)

(** [loadDrapLocal], lines 37-49. *)
Definition loadDrapLocal (P : Platform) : M unit :=
  tryCatch
    (r <- fetch DrapFile (fetchDrap P) ;;
     if negb (r_ok r) then
       modify (fun st => with_drapIndex st (JSObject.empty DrugRecord)) ;;
       emit (Warned "DRAP file not found")
     else
       arr <- json r ;;
       modify (fun st => with_drapIndex st (JSObject.empty DrugRecord)) ;;
       modify (fun st => with_drapIndex st
                           (fold_left addRecord arr (drapIndex st))))
    (emit (Warned "Failed load drap") ;;
     modify (fun st => with_drapIndex st (JSObject.empty DrugRecord))).

(* ===================================================================== *)
(** * The openFDA fallback *)
(* ===================================================================== *)

Definition field_truthy (f : LabelField) : bool :=
  match f with
  | Absent => false
  | Str s => truthy s
  | Arr _ => true
  end.

(** [a || b] on label properties. *)
Definition field_or (a b : LabelField) : LabelField :=
  if field_truthy a then a else b.

(** Lines 236-237: [usesFDA] from [results?.[0]]. *)
Definition usesOf (doc : option LabelDoc) : list string :=
  let ind :=
    match doc with
    | Some d => field_or (l_indications_and_usage d)
                  (field_or (l_purpose d) (field_or (l_description d) (Arr [])))
    | None => Arr []
    end in
  match ind with
  | Arr l => firstn 6 l
  | Str s => [s]
  | Absent => []
  end.

(** Lines 238-239: [doseFDA] from [results?.[0]]. *)
Definition doseOf (doc : option LabelDoc) : string :=
  let dosage :=
    match doc with
    | Some d => field_or (l_dosage_and_administration d)
                  (field_or (l_how_supplied d) (Str ""))
    | None => Str ""
    end in
  match dosage with
  | Arr l => join " " (firstn 2 l)
  | Str s => s ||| ""
  | Absent => ""
  end.

(** Lines 231-241. *)
Definition labelBlock (P : Platform) (name : string)
  : M (list string * string) :=
  tryCatch
    (r <- fetch (LabelQuery name) (fetchLabel P name) ;;
     if r_ok r then
       j <- json r ;;
       ret (usesOf j, doseOf j)
     else ret ([], ""))
    (emit (Warned "openFDA label error") ;; ret ([], "")).

(** Line 249: one reaction term counted in [freq].  The line reads
    [freq[term]] through the prototype chain, so for a term that names a
    property of [Object.prototype] ([inheritedName] below) it finds a
    function or an object instead of [undefined] and the count becomes a
    string; here terms are counted under own keys, which is what the line
    does for every other term. *)
Definition countTerm (freq : JSObject.t nat) (term : string)
  : JSObject.t nat :=
  if truthy term then
    JSObject.set freq term
      (match JSObject.getOwn freq term with
       | Some n => n
       | None => 0
       end + 1)
  else freq.

Definition countEvent (freq : JSObject.t nat) (reactions : list string)
  : JSObject.t nat :=
  fold_left countTerm reactions freq.

(** [sort((a,b) => b[1] - a[1])]: a stable sort by descending count. *)
Fixpoint insertDesc (x : string * nat) (l : list (string * nat))
  : list (string * nat) :=
  match l with
  | [] => [x]
  | y :: r => if snd x <? snd y then y :: insertDesc x r else x :: l
  end.

Definition sortDesc (l : list (string * nat)) : list (string * nat) :=
  fold_right insertDesc [] l.

(** Lines 248-250: [adrsFDA] from [results || []]. *)
Definition adrsOf (events : list (list string)) : list string :=
  let freq := fold_left countEvent events (JSObject.empty nat) in
  map fst (firstn 12 (sortDesc (JSObject.entries freq))).

(** Lines 243-252. *)
Definition eventsBlock (P : Platform) (name : string) : M (list string) :=
  tryCatch
    (rE <- fetch (EventQuery name) (fetchEvents P name) ;;
     if r_ok rE then
       je <- json rE ;;
       ret (adrsOf je)
     else ret [])
    (emit (Warned "openFDA events error") ;; ret []).

(* ===================================================================== *)
(** * Merge *)
(* ===================================================================== *)

(** [local?.f] for a string property: [undefined] is as falsy as [""]. *)
Definition localStr (f : DrugRecord -> string) (local : option DrugRecord)
  : string :=
  match local with
  | Some d => f d
  | None => ""
  end.

(** [local?.f || []]. *)
Definition localList (f : DrugRecord -> list string)
  (local : option DrugRecord) : list string :=
  match local with
  | Some d => f d
  | None => []
  end.

(** [local?.maxDoseMg || null]: a zero maximum is falsy. *)
Definition localMax (local : option DrugRecord) : option Q :=
  match local with
  | Some d =>
      match d_maxDoseMg d with
      | Some m => if num_truthy (Num m) then Some m else None
      | None => None
      end
  | None => None
  end.

(** The object literal [merged], lines 255-266; [name] is the variable
    of line 215. *)
Definition merge (name : string) (parsed : Candidate)
  (local : option DrugRecord)
  (usesFDA adrsFDA : list string) (doseFDA : string) : MergedRecord :=
  mkMerged
    (localStr d_name local ||| name)
    (localStr d_manufacturer local ||| "Unknown")
    (c_batch parsed ||| localStr d_batch local ||| "")
    (c_expiry parsed ||| localStr d_expiry local ||| "")
    (localList d_uses local)
    (localList d_adrs local)
    usesFDA
    adrsFDA
    (localStr d_dosage local ||| doseFDA ||| "")
    (localMax local).

(* ===================================================================== *)
(** * Rendering the card *)
(* ===================================================================== *)

Definition div (kids : list Html) : Html := Elem "div" [] kids.
Definition bold (s : string) : Html := Elem "b" [] [Text s].
Definition section (kids : list Html) : Html := Elem "div" ["section"] kids.
Definition ul (items : list string) : Html :=
  Elem "ul" [] (map (fun x => Elem "li" [] [Text x]) items).

(** [renderQuickCard], lines 199-211, on a typed candidate and index:
    every interpolated value is a string, on which [String] does not
    throw.  ([Untyped.quickCard] is the function on any candidate.) *)
Definition quickCard (idx : Index) (parsed : Candidate) : list Html :=
  let lc := toLowerCase (c_name parsed) in
  match drapIndex_get idx lc with
  | Some local =>
      [ div [Text (d_name local)];
        div [bold "Manufacturer:";
             Text (" " ++ (d_manufacturer local ||| "—") ++ " • ")%string;
             bold "Batch:";
             Text (" " ++ (c_batch parsed ||| d_batch local ||| "N/A"))%string] ]
  | None =>
      [ div [Text (c_name parsed)];
        div ((if truthy (c_batch parsed)
              then [bold "Batch:";
                    Text (" " ++ c_batch parsed ++ " • ")%string]
              else [])
             ++ (if truthy (c_expiry parsed)
                 then [bold "EXP:";
                       Text (" " ++ c_expiry parsed ++ " ")%string]
                 else [])) ]
  end.

Definition renderQuickCard (parsed : Candidate) : M unit :=
  modify (fun st => with_drugCard st (quickCard (drapIndex st) parsed)).

(** The markup of [renderDrug], lines 273-292. *)
Definition drugHtml (d : MergedRecord) : list Html :=
  let usesLocalHtml :=
    match m_uses_local d with
    | [] => [section [Elem "i" [] [Text "No local DRAP entry."]]]
    | l => [section [bold "DRAP / Local Uses:"; ul l]]
    end in
  let usesOffHtml :=
    match m_uses_official d with
    | [] => []
    | l => [section [bold "OpenFDA Uses:"; ul l]]
    end in
  let adrsLocalHtml :=
    match m_adrs_local d with
    | [] => []
    | l => [section [bold "Local ADRs (DRAP):"; ul l]]
    end in
  let adrsRepHtml :=
    match m_adrs_reported d with
    | [] => []
    | l => [section [bold "Reported ADRs (OpenFDA events):"; ul l]]
    end in
  let doseHtml :=
    if truthy (m_dosage_official d)
    then [section [bold "Dosage & Administration (official):";
                   div [Text (m_dosage_official d)]]]
    else [] in
  [ div [div [div [Text (m_name d)];
              div [bold "Manufacturer:";
                   Text (" " ++ m_manufacturer d ++ " • ")%string;
                   bold "Batch:";
                   Text (" " ++ (m_batch d ||| "N/A") ++ " • ")%string;
                   bold "EXP:";
                   Text (" " ++ (m_expiry d ||| "—"))%string]]] ]
  ++ doseHtml ++ usesLocalHtml ++ usesOffHtml ++ adrsLocalHtml ++ adrsRepHtml
  ++ [ div [Text "Note: DRAP local entries are authoritative for demo. OpenFDA is fallback (US data)."] ].

(** [renderDrug], lines 272-301 (the pre-fill of the batch field is part
    of the form the submit handler receives). *)
Definition renderDrug (d : MergedRecord) : M unit :=
  modify (fun st => with_drugCard st (drugHtml d)) ;;
  modify (fun st => with_doseWarning st (m_maxDoseMg d)).

(* ===================================================================== *)
(** * Resolution *)
(* ===================================================================== *)

(** [fetchAndRenderDrug], lines 214-269.  The value returned is the
    record handed to [renderDrug]; [None] is the early return of
    line 216. *)
Definition fetchAndRenderDrug (P : Platform) (parsed : Candidate)
  : M (option MergedRecord) :=
  let name := trim (c_name parsed ||| "") in
  if negb (truthy name) then
    modify (fun st => with_drugCard st [div [Text "No drug name detected."]]) ;;
    ret None
  else
    st <- get ;;
    let local := lookupLocal (drapIndex st) name in
    fb <- match local with
          | None =>
              label <- labelBlock P name ;;
              adrs <- eventsBlock P name ;;
              ret (fst label, adrs, snd label)
          | Some _ => ret ([], [], "")
          end ;;
    let '(usesFDA, adrsFDA, doseFDA) := fb in
    let merged := merge name parsed local usesFDA adrsFDA doseFDA in
    renderDrug merged ;;
    ret (Some merged).

(** [handleScanned], lines 189-196, up to the [await]. *)
Definition beginScan (P : Platform) (raw : string) : M Candidate :=
  let parsed := parsePayload P raw in
  modify (fun st => with_lastParsed st parsed) ;;
  renderQuickCard parsed ;;
  ret parsed.

(** [handleScanned]: the specification's [resolve]. *)
Definition handleScanned (P : Platform) (raw : string)
  : M (option MergedRecord) :=
  parsed <- beginScan P raw ;;
  fetchAndRenderDrug P parsed.

(* ===================================================================== *)
(** * Reports *)
(* ===================================================================== *)

(** [JSON.parse(localStorage.getItem(STORAGE_KEY) || '[]')]. *)
Definition readAllReports (st : State) : list Report :=
  match localStorage st with
  | Some arr => arr
  | None => []
  end.

(** What [JSON.parse(JSON.stringify(r))] is: strings, booleans and finite
    numbers come back as they were, but for the negative zero, which is
    written as [0]; [NaN] and the infinities are written as [null] and
    come back so. *)
Definition jsonValue (r : Report) : Report :=
  mkReport (rep_id r) (rep_drug r) (rep_batch r) (rep_patientName r)
    (rep_age r) (rep_gender r) (rep_phone r) (rep_condition r)
    (rep_severity r)
    (match rep_amountMg r with
     | Some (Num q) => Some (Num q)
     | Some NegZero => Some (Num 0%Q)
     | Some (PosInfinity | NegInfinity | NaN) => None
     | None => None
     end)
    (rep_description r) (rep_date r) (rep_highDose r).

(** [renderHistory], lines 354-374: the entries shown, newest first. *)
Definition renderHistory : M unit :=
  emit StorageGet ;;
  modify (fun st => with_historyList st (rev (readAllReports st))).

(** Lines 328-331: the high-dose flag for a drug name and an amount. *)
Definition evaluateDose (idx : Index) (drugName : string)
  (amount : jsnumber) : bool :=
  match drapIndex_get idx (toLowerCase drugName) with
  | Some local =>
      match d_maxDoseMg local with
      | Some m =>
          if num_truthy (Num m) && num_truthy amount
          then num_gt amount (Num m) else false
      | None => false
      end
  | None => false
  end.

(** The object literal [report], lines 307-321. *)
Definition newReport (st : State) (f : Form) (c : Clock) : Report :=
  let title := match querySelector "drug-title" (drugCard st) with
               | Some e => textContent e
               | None => ""
               end in
  mkReport
    ("r_" ++ NilZero.string_of_uint (N.to_uint (now c)))%string
    (title ||| c_name (lastParsed st) ||| "Unknown")
    (p_batch f ||| c_batch (lastParsed st) ||| "")
    (trim (p_name f))
    (trim (p_age f))
    (trim (p_gender f))
    (trim (p_phone f))
    (trim (p_condition f))
    (trim (p_severity f))
    (Some (p_amount_mg f))
    (trim (p_desc f))
    (toISOString c)
    false.

(** The test of line 323. *)
Definition missingRequired (r : Report) : bool :=
  negb (truthy (rep_patientName r)) || negb (truthy (rep_age r))
  || negb (truthy (rep_gender r)) || negb (truthy (rep_condition r))
  || negb (truthy (rep_severity r)) || negb (truthy (rep_description r)).

Definition with_highDose (r : Report) (b : bool) : Report :=
  mkReport (rep_id r) (rep_drug r) (rep_batch r) (rep_patientName r)
    (rep_age r) (rep_gender r) (rep_phone r) (rep_condition r)
    (rep_severity r) (rep_amountMg r) (rep_description r) (rep_date r) b.

(** The report as it is pushed on line 334: [highDose] set by lines
    328-331. *)
Definition finalReport (st : State) (f : Form) (c : Clock) : Report :=
  let report := newReport st f c in
  if evaluateDose (drapIndex st) (rep_drug report) (p_amount_mg f)
  then with_highDose report true else report.

(** The submit handler of [reportForm], lines 304-339. *)
Definition submitReport (f : Form) (c : Clock) : M unit :=
  st <- get ;;
  if missingRequired (newReport st f c) then
    emit (Alerted "Please fill required fields.")
  else
    emit StorageGet ;;
    let arr := readAllReports st ++ [finalReport st f c] in
    emit (StorageSet (map jsonValue arr)) ;;
    modify (fun st => with_localStorage st (Some (map jsonValue arr))) ;;
    renderHistory.

(** The click handler of [btnClearAll], lines 348-351; [confirmed] is the
    answer to [confirm]. *)
Definition clearAll (confirmed : bool) : M unit :=
  if negb confirmed then ret tt
  else
    emit StorageRemove ;;
    modify (fun st => with_localStorage st None) ;;
    renderHistory.

(** What can happen on the page once it is loaded.  A resolution is two
    events, because the page stays live while [fetchAndRenderDrug]
    awaits: a form can be submitted, or another scan begun, in between. *)
Inductive Event : Type :=
| ScanBegins (raw : string)
| ScanEnds (parsed : Candidate)
| Submits (f : Form) (c : Clock)
| ClearsAll (confirmed : bool).

Definition handle (P : Platform) (e : Event) (st : State) : State :=
  match e with
  | ScanBegins raw => snd (beginScan P raw st)
  | ScanEnds parsed => snd (fetchAndRenderDrug P parsed st)
  | Submits f c => snd (submitReport f c st)
  | ClearsAll b => snd (clearAll b st)
  end.

Definition run (P : Platform) (es : list Event) (st : State) : State :=
  fold_left (fun s e => handle P e s) es st.

(** The globals as lines 25-30 initialise them, on a page whose card
    holds [card] and whose storage holds [stored]. *)
Definition initialState (card : list Html) (stored : option (list Report))
  : State :=
  mkState (JSObject.empty DrugRecord) (mkCandidate "" "" "") card None []
          stored [].

(** [init], lines 414-417. *)
Definition init (P : Platform) : M unit :=
  loadDrapLocal P ;; renderHistory.

(* ===================================================================== *)
(** * Sample data *)
(* ===================================================================== *)

Module Sample.

Definition quote : string := String "034"%char EmptyString.

Definition member (kv : string * string) : string :=
  (quote ++ fst kv ++ quote ++ ":" ++ quote ++ snd kv ++ quote)%string.

(** The JSON text of an object with string members. *)
Definition objectText (members : list (string * string)) : string :=
  ("{" ++ String.concat "," (map member members) ++ "}")%string.

(** [{"batch":"B1"}] *)
Definition batchOnly : string := objectText [("batch", "B1")].

(** [{"name":"Panadol","gs1":"(10)LOT42(17)261231"}] *)
Definition namedWithSegments : string :=
  objectText [("name", "Panadol"); ("gs1", "(10)LOT42(17)261231")].

(** [{"name":" Amoxil "}] *)
Definition paddedName : string := objectText [("name", " Amoxil ")].

(** [JSON.parse] on the three texts above. *)
Definition decode (raw : string) : option PayloadObject :=
  if (raw =? batchOnly)%string then Some (mkPayload "" "" "" "B1" "" "")
  else if (raw =? namedWithSegments)%string
       then Some (mkPayload "" "Panadol" "" "" "" "")
  else if (raw =? paddedName)%string
       then Some (mkPayload "" " Amoxil " "" "" "" "")
  else None.

(** The dataset of the specification's scenarios. *)
Definition panadol : DrugRecord :=
  mkDrug "Panadol" "" "" "" [] [] "" (Some 4000%Q) (Some ["paracetamol"]).

(** A record with a negative reference maximum. *)
Definition negativeMax : DrugRecord :=
  mkDrug "Testdrug" "" "" "" [] [] "" (Some (-10)%Q) None.

(** A record whose reference maximum is zero. *)
Definition zeroMax : DrugRecord :=
  mkDrug "Placebo" "" "" "" [] [] "" (Some 0%Q) None.

(** No network: every request rejects. *)
Definition offline : Platform :=
  mkPlatform decode None (fun _ => None) (fun _ => None).

(** The dataset loads; openFDA does not answer. *)
Definition localOnly (arr : list DrugRecord) : Platform :=
  mkPlatform decode (Some (mkResponse true (Some arr)))
             (fun _ => None) (fun _ => None).

Definition amoxicillinLabel : LabelDoc :=
  mkLabel (Arr ["For bacterial infections"]) Absent Absent
          (Arr ["250 mg"; "every 8 hours"; "with food"]) Absent.

Definition amoxicillinEvents : list (list string) :=
  [["RASH"; "NAUSEA"]; ["NAUSEA"]; ["DIARRHOEA"; "NAUSEA"; "RASH"]].

(** The dataset file is empty; openFDA answers. *)
Definition online : Platform :=
  mkPlatform decode (Some (mkResponse true (Some [])))
             (fun _ => Some (mkResponse true (Some (Some amoxicillinLabel))))
             (fun _ => Some (mkResponse true (Some amoxicillinEvents))).

(** The label request fails, the events request answers. *)
Definition labelDown : Platform :=
  mkPlatform decode (Some (mkResponse true (Some [])))
             (fun _ => None)
             (fun _ => Some (mkResponse true (Some amoxicillinEvents))).

Definition blankPage : State := initialState [] None.

(** The state after [init]. *)
Definition loaded (P : Platform) : State := snd (init P blankPage).

Definition form (amount : jsnumber) : Form :=
  mkForm amount "" "Ayesha" "34" "F" "" "Fever" "Mild" "Rash after dose".

Definition clock : Clock := mkClock 1700000000000 "2023-11-14T22:13:20.000Z".

End Sample.

(* ===================================================================== *)
(** * The claims in the words of the specification *)
(* ===================================================================== *)

Module Spec.

(** Section 4.2, lookup phase 2: the key is a substring of the lowercased
    input, or the input is a substring of one of the record's synonyms,
    case-insensitively. *)
Definition substringMatch (idx : Index) (name k : string) : bool :=
  includes (toLowerCase name) k
  || match drapIndex_get idx k with
     | Some d =>
         match d_synonyms d with
         | Some syns =>
             existsb (fun s => includes (toLowerCase s) (toLowerCase name))
                     syns
         | None => false
         end
     | None => false
     end.

(** The first record, in index iteration order, that matches so. *)
Definition substringLookup (idx : Index) (name : string)
  : option DrugRecord :=
  match find (substringMatch idx name) (JSObject.ownKeys idx) with
  | Some k => drapIndex_get idx k
  | None => None
  end.

(** Section 4.5: with an exact match and a configured maximum, a positive
    amount is flagged when it exceeds the maximum ([Infinity] is positive
    and exceeds every maximum); anything else is not flagged. *)
Definition check (idx : Index) (drugName : string) (amount : jsnumber)
  : bool :=
  match drapIndex_get idx (toLowerCase drugName), amount with
  | Some local, Num a =>
      match d_maxDoseMg local with
      | Some m => Qgt_bool a 0%Q && Qgt_bool a m
      | None => false
      end
  | Some local, PosInfinity =>
      match d_maxDoseMg local with
      | Some _ => true
      | None => false
      end
  | _, _ => false
  end.

(** Section 4.1, steps 2 and 3, for a payload that is not structured:
    the raw text as name, each segment from its pattern or empty. *)
Definition parseRaw (raw : string) : Candidate :=
  mkCandidate raw
    (match Regex.m10 raw with Some b => b | None => "" end)
    (match Regex.m17 raw with Some e => e | None => "" end).

End Spec.

(* ===================================================================== *)
(** * What a run leaves behind *)
(* ===================================================================== *)

(** The state after the effects [es] were logged. *)
Definition logged (st : State) (es : list Effect) : State :=
  fold_left with_effect es st.

(** What lines 231-241 leave in [usesFDA] and [doseFDA]. *)
Definition labelResult (r : option (Response (option LabelDoc)))
  : list string * string :=
  match r with
  | Some (mkResponse true (Some j)) => (usesOf j, doseOf j)
  | _ => ([], "")
  end.

(** What lines 243-252 leave in [adrsFDA]. *)
Definition eventsResult (r : option (Response (list (list string))))
  : list string :=
  match r with
  | Some (mkResponse true (Some je)) => adrsOf je
  | _ => []
  end.

(** A request failed: [fetch] rejected or [r.json()] did. *)
Definition failed (B : Type) (r : option (Response B)) : bool :=
  match r with
  | None => true
  | Some (mkResponse true None) => true
  | Some _ => false
  end.

(** A request brought no data: it failed, or the status was not ok. *)
Definition noData (B : Type) (r : option (Response B)) : bool :=
  match r with
  | Some (mkResponse true (Some _)) => false
  | _ => true
  end.

(** The state [renderDrug] leaves. *)
Definition rendered (st : State) (m : MergedRecord) : State :=
  with_doseWarning (with_drugCard st (drugHtml m)) (m_maxDoseMg m).

(** The state the submit handler leaves when it accepts the form. *)
Definition accepted (st : State) (f : Form) (c : Clock) : State :=
  let arr := map jsonValue (readAllReports st ++ [finalReport st f c]) in
  with_historyList
    (with_effect
       (with_localStorage (logged st [StorageGet; StorageSet arr]) (Some arr))
       StorageGet)
    (rev arr).

(** The card holds no element of class [drug-title]. *)
Definition noTitle (kids : list Html) : Prop :=
  querySelector "drug-title" kids = None.

Definition scanBegins (e : Event) : bool :=
  match e with
  | ScanBegins _ => true
  | _ => false
  end.

(** [a || 'Unknown'] read as a case distinction. *)
Definition orUnknown (a : string) : string :=
  match a with
  | EmptyString => "Unknown"
  | _ => a
  end.

(* ===================================================================== *)
(** * Escaping *)
(* ===================================================================== *)

(** [s.replaceAll(c, rep)] for a pattern of one character and a
    replacement without [$]. *)
Fixpoint replaceAllChar (c : ascii) (rep s : string) : string :=
  match s with
  | EmptyString => EmptyString
  | String a r =>
      if Ascii.eqb a c then (rep ++ replaceAllChar c rep r)%string
      else String a (replaceAllChar c rep r)
  end.

(** [escapeHtml], line 34; [None] is [null] or [undefined]. *)
Definition escapeHtml (s : option string) : string :=
  match s with
  | None => ""
  | Some s =>
      replaceAllChar ">" "&gt;"
        (replaceAllChar "<" "&lt;" (replaceAllChar "&" "&amp;" s))
  end.

(** The text an HTML parser reads from markup made of ordinary characters
    and the three character references [escapeHtml] writes; [skip]
    characters of a reference are still to be passed over. *)
Fixpoint decodeEntities (skip : nat) (s : string) : string :=
  match s with
  | EmptyString => EmptyString
  | String a r =>
      match skip with
      | S k => decodeEntities k r
      | O =>
          if Ascii.eqb a "&" then
            if startsWith r "amp;" then String "&" (decodeEntities 4 r)
            else if startsWith r "lt;" then String "<" (decodeEntities 3 r)
            else if startsWith r "gt;" then String ">" (decodeEntities 3 r)
            else String a (decodeEntities 0 r)
          else String a (decodeEntities 0 r)
      end
  end.

(** Every character of [s] passes [p]. *)
Fixpoint forallChars (p : ascii -> bool) (s : string) : bool :=
  match s with
  | EmptyString => true
  | String c r => p c && forallChars p r
  end.

(* ===================================================================== *)
(** * Keys, counts, and the other handlers *)
(* ===================================================================== *)

(** The keys lines 44-45 write for one record, in the order they are
    written. *)
Definition keysOf (d : DrugRecord) : list string :=
  (if truthy (d_name d) then [toLowerCase (d_name d)] else [])
  ++ match d_synonyms d with
     | Some syns => map toLowerCase syns
     | None => []
     end.

Definition writesKey (k : string) (d : DrugRecord) : bool :=
  existsb (String.eqb k) (keysOf d).

(** The property names a plain object inherits from [Object.prototype]. *)
Definition objectPrototypeNames : list string :=
  ["constructor"; "__defineGetter__"; "__defineSetter__"; "hasOwnProperty";
   "__lookupGetter__"; "__lookupSetter__"; "isPrototypeOf";
   "propertyIsEnumerable"; "toString"; "valueOf"; "__proto__";
   "toLocaleString"].

Definition inheritedName (k : string) : bool :=
  existsb (String.eqb k) objectPrototypeNames.

(** No reaction term of the events names an inherited property. *)
Definition plainTerms (events : list (list string)) : Prop :=
  forall t, In t (concat events) -> inheritedName t = false.

(** How often a reaction term is reported in the events of a response. *)
Definition occurrences (term : string) (events : list (list string)) : nat :=
  count_occ string_dec (concat events) term.

(** [freq] holds exactly the counts of the non-empty terms of [l]. *)
Definition tableOf (l : list string) (freq : JSObject.t nat) : Prop :=
  NoDup (map fst freq)
  /\ forall t,
       JSObject.getOwn freq t
       = if truthy t && (0 <? count_occ string_dec l t)
         then Some (count_occ string_dec l t) else None.

(** The order [sort((a,b) => b[1] - a[1])] leaves: counts do not grow. *)
Definition countDesc (a b : string * nat) : Prop := snd b <= snd a.

(** [arr.find(x => x.id === id)], line 377. *)
Definition findReport (arr : list Report) (id : string) : option Report :=
  find (fun x => (rep_id x =? id)%string) arr.

Definition newline : string := String "010"%char EmptyString.

(** The text of line 379; [toLocaleString] and the decimal text of a
    finite number are the browser's. *)
Definition detailText (toLocaleString : string -> string)
  (numberText : Q -> string) (r : Report) : string :=
  let amount := match rep_amountMg r with
                | Some (Num q) => if num_truthy (Num q) then numberText q
                                  else "N/A"
                | Some PosInfinity => "Infinity"
                | Some NegInfinity => "-Infinity"
                | Some NegZero | Some NaN | None => "N/A"
                end in
  ("Report for " ++ rep_drug r ++ newline ++ newline
   ++ "Patient: " ++ rep_patientName r ++ " (" ++ rep_age r ++ ", "
   ++ rep_gender r ++ ")" ++ newline
   ++ "Condition: " ++ rep_condition r ++ newline
   ++ "Severity: " ++ rep_severity r ++ newline
   ++ "Amount: " ++ amount ++ " mg" ++ newline
   ++ "Batch: " ++ rep_batch r ++ newline
   ++ "Phone: " ++ (rep_phone r ||| "—") ++ newline ++ newline
   ++ "Description:" ++ newline ++ rep_description r ++ newline ++ newline
   ++ "Reported: " ++ toLocaleString (rep_date r))%string.

(** [window.viewReportDetail], lines 375-381. *)
Definition viewReportDetail (toLocaleString : string -> string)
  (numberText : Q -> string) (id : string) : M unit :=
  emit StorageGet ;;
  st <- get ;;
  match findReport (readAllReports st) id with
  | None => emit (Alerted "Report not found")
  | Some r => emit (Alerted (detailText toLocaleString numberText r))
  end.

(** The click handler of [btnSearch], lines 384-388; [value] is the text
    of the search box. *)
Definition searchClick (P : Platform) (value : string)
  : M (option MergedRecord) :=
  let q := trim value in
  if negb (truthy q) then emit (Alerted "Enter search term") ;; ret None
  else handleScanned P q.

(** All six required fields of the form hold more than white space. *)
Definition requiredFilled (f : Form) : Prop :=
  trim (p_name f) <> "" /\ trim (p_age f) <> "" /\ trim (p_gender f) <> ""
  /\ trim (p_condition f) <> "" /\ trim (p_severity f) <> ""
  /\ trim (p_desc f) <> "".

(** A confirmed click on Clear All. *)
Definition clears (e : Event) : bool :=
  match e with
  | ClearsAll true => true
  | _ => false
  end.

(** The requests in a log. *)
Definition requests (es : list Effect) : list Query :=
  flat_map (fun e => match e with
                     | Fetched q => [q]
                     | _ => []
                     end) es.

(* ===================================================================== *)
(** * The camera *)
(* ===================================================================== *)

Module Camera.

(** The three entries of [tryConstraints], lines 56-60. *)
Inductive Constraints : Type :=
| ExactEnvironment
| IdealEnvironment
| AnyCamera.

Definition tryConstraints : list Constraints :=
  [ExactEnvironment; IdealEnvironment; AnyCamera].

(** A media stream, through what the code asks of it: [torch] is
    [caps && caps.torch] of its first video track, [None] when
    [getVideoTracks()[0].getCapabilities()] throws. *)
Record Stream : Type := mkStream {
  label : string;
  torch : option bool
}.

(** [navigator.mediaDevices.getUserMedia] ([None] when it rejects or is
    not there) and [track.applyConstraints] ([false] when it rejects). *)
Record Devices : Type := mkDevices {
  getUserMedia : Constraints -> option Stream;
  applyConstraints : Stream -> bool -> bool
}.

Inductive Did : Type :=
| Asked (c : Constraints)
| Stopped (s : Stream)
| Torch (s : Stream) (on : bool)
| Alert (msg : string)
| Toast (msg : string).

(** [currentStream], [scanning], which of the three buttons are shown,
    and whether [btnTorch.dataset.on] is ['true']. *)
Record State : Type := mkState {
  currentStream : option Stream;
  scanning : bool;
  startShown : bool;
  stopShown : bool;
  torchShown : bool;
  torchOn : bool;
  did : list Did
}.

Definition note (st : State) (d : Did) : State :=
  mkState (currentStream st) (scanning st) (startShown st) (stopShown st)
          (torchShown st) (torchOn st) (did st ++ [d]).

(** The loop of lines 62-64: the first constraint that is granted. *)
Fixpoint acquire (D : Devices) (cs : list Constraints) (st : State)
  : option Stream * State :=
  match cs with
  | [] => (None, st)
  | c :: rest =>
      match getUserMedia D c with
      | Some s => (Some s, note st (Asked c))
      | None => acquire D rest (note st (Asked c))
      end
  end.

(** [handleStream], lines 73-91, without the frame loop it starts. *)
Definition handleStream (s : Stream) (st : State) : State :=
  note (mkState (Some s) true false true
                (match torch s with
                 | Some true => true
                 | _ => false
                 end)
                (torchOn st) (did st))
       (Toast "Camera started").

(** [startCamera], lines 52-71. *)
Definition startCamera (D : Devices) (st : State) : State :=
  match currentStream st with
  | Some _ => st
  | None =>
      match acquire D tryConstraints st with
      | (Some s, st') => handleStream s st'
      | (None, st') =>
          note st' (Alert "Camera access failed. Ensure site is served over HTTPS and camera permission is allowed.")
      end
  end.

(** [stopCamera], lines 93-102. *)
Definition stopCamera (st : State) : State :=
  let st1 := match currentStream st with
             | Some s => note st (Stopped s)
             | None => st
             end in
  note (mkState None false true false false (torchOn st1) (did st1))
       (Toast "Camera stopped").

(** [toggleTorch], lines 104-115. *)
Definition toggleTorch (D : Devices) (st : State) : State :=
  match currentStream st with
  | None => note st (Alert "Start camera first")
  | Some s =>
      match torch s with
      | None => note st (Alert "Torch control failed")
      | Some false => note st (Alert "Torch not supported on this device")
      | Some true =>
          let isOn := torchOn st in
          if applyConstraints D s (negb isOn) then
            mkState (currentStream st) (scanning st) (startShown st)
                    (stopShown st) (torchShown st) (negb isOn)
                    (did st ++ [Torch s (negb isOn)])
          else note (note st (Torch s (negb isOn)))
                    (Alert "Torch control failed")
      end
  end.

(** The constraints asked for in a record of what was done. *)
Definition asked (ds : list Did) : list Constraints :=
  flat_map (fun d => match d with
                     | Asked c => [c]
                     | _ => []
                     end) ds.

End Camera.

(* ===================================================================== *)
(** * The same code on untyped data *)
(* ===================================================================== *)

(** [JSON.parse] and [r.json()] return whatever the text holds, not what
    the data model promises.  This module follows [escapeHtml], the body
    of [loadDrapLocal], [parsePayload], [renderQuickCard] and the local
    lookup of [fetchAndRenderDrug] on any such value, with the
    [TypeError] that a property read or a method call raises on a value
    of another kind than the code expects.  None of these calls sits in a
    [try] of its caller, except where it is said. *)
Module Untyped.

(** A value [JSON.parse] returns.  An object is the list of its own
    properties, one entry per key. *)
Inductive Value : Type :=
| JNull
| JBool (b : bool)
| JNumber (n : jsnumber)
| JString (s : string)
| JArray (items : list Value)
| JObject (members : list (string * Value)).

Definition Members : Type := JSObject.t Value.

(** A pure computation that returns or throws. *)
Definition andThen (A B : Type) (o : Outcome A) (k : A -> Outcome B)
  : Outcome B :=
  match o with
  | Ret a => k a
  | Throw => Throw
  end.

(** [ToBoolean]. *)
Definition toBoolean (v : Value) : bool :=
  match v with
  | JNull => false
  | JBool b => b
  | JNumber n => num_truthy n
  | JString s => truthy s
  | JArray _ | JObject _ => true
  end.

(** [v[k]] for one of the property names the code reads ([name],
    [synonyms], [batch], ...), none of which a prototype defines: only an
    object has such a property.  [None] is [undefined]. *)
Definition prop (v : Value) (k : string) : option Value :=
  match v with
  | JObject members => JSObject.getOwn members k
  | _ => None
  end.

(** [a || b], where [a] may be [undefined]. *)
Definition or_value (a : option Value) (b : Value) : Value :=
  match a with
  | Some v => if toBoolean v then v else b
  | None => b
  end.

Section Text.

(** [Number.prototype.toString] on a finite number. *)
Variable numberText : Q -> string.

Definition numberToString (n : jsnumber) : string :=
  match n with
  | Num q => numberText q
  | NegZero => "0"
  | PosInfinity => "Infinity"
  | NegInfinity => "-Infinity"
  | NaN => "NaN"
  end.

(** [String(v)], and [v.toString()] for a value other than [null].  An
    array joins the texts of its elements with commas, [null] counting as
    the empty text.  An object answers with [Object.prototype.toString]
    unless it has a property [toString] of its own: a value read from
    JSON is no function, so the call, or the conversion to a primitive,
    throws [TypeError]. *)
Fixpoint toText (v : Value) : Outcome string :=
  match v with
  | JNull => Ret "null"
  | JBool b => Ret (if b then "true" else "false")
  | JNumber n => Ret (numberToString n)
  | JString s => Ret s
  | JArray items =>
      andThen
        ((fix texts (l : list Value) : Outcome (list string) :=
            match l with
            | [] => Ret []
            | x :: r =>
                andThen (match x with
                         | JNull => Ret ""
                         | _ => toText x
                         end)
                  (fun s => andThen (texts r) (fun ss => Ret (s :: ss)))
            end) items)
        (fun ss => Ret (join "," ss))
  | JObject members =>
      match JSObject.getOwn members "toString" with
      | Some _ => Throw
      | None => Ret "[object Object]"
      end
  end.

(** The texts [Array.prototype.join] joins. *)
Fixpoint elementTexts (l : list Value) : Outcome (list string) :=
  match l with
  | [] => Ret []
  | x :: r =>
      andThen (match x with
               | JNull => Ret ""
               | _ => toText x
               end)
        (fun s => andThen (elementTexts r) (fun ss => Ret (s :: ss)))
  end.

(** [items.join(sep)]. *)
Definition joinArray (sep : string) (items : list Value) : Outcome string :=
  andThen (elementTexts items) (fun ss => Ret (join sep ss)).

(** [escapeHtml], line 34; [None] is [undefined]. *)
Definition escapeHtml (s : option Value) : Outcome string :=
  match s with
  | None | Some JNull => Ret ""
  | Some v => andThen (toText v) (fun t => Ret (escapeHtml (Some t)))
  end.

(** The text an element shows for [${escapeHtml(s)}] in markup assigned
    to [innerHTML]. *)
Definition shown (s : option Value) : Outcome string :=
  andThen (escapeHtml s) (fun e => Ret (decodeEntities 0 e)).

(** [out] of [parsePayload]: the name is a string, batch and expiry are
    whatever the payload gave. *)
Record Candidate : Type := mkCandidate {
  c_name : string;
  c_batch : Value;
  c_expiry : Value
}.

(** Line 167. *)
Definition blank : Candidate := mkCandidate "" (JString "") (JString "").

(** The right-hand sides of lines 170 (before [.toString()]), 171 and
    172. *)
Definition nameOf (o : Value) : Value :=
  or_value (prop o "drugName")
    (or_value (prop o "name") (or_value (prop o "productName") (JString ""))).

Definition batchOf (o : Value) : Value :=
  or_value (prop o "batch") (or_value (prop o "lot") (JString "")).

Definition expiryOf (o : Value) : Value :=
  or_value (prop o "expiry") (JString "").

(** [JSON.parse]: [None] when it throws. *)
Variable parse : string -> option Value.

(** [out] when the [try] block of lines 168-174 is left: untouched when
    [JSON.parse] throws, when the value is [null] (the read of
    [o.drugName] throws) and when [.toString()] throws on line 170,
    before lines 171 and 172 run. *)
Definition decoded (raw : string) : Candidate :=
  match parse raw with
  | None | Some JNull => blank
  | Some o =>
      match toText (nameOf o) with
      | Ret name => mkCandidate name (batchOf o) (expiryOf o)
      | Throw => blank
      end
  end.

(** [parsePayload], lines 166-186. *)
Definition parsePayload (raw : string) : Candidate :=
  let out := decoded raw in
  if truthy (c_name out) then out
  else
    let batch := match Regex.m10 raw with
                 | Some b => JString b
                 | None => c_batch out
                 end in
    let expiry := match Regex.m17 raw with
                  | Some e => JString e
                  | None => c_expiry out
                  end in
    mkCandidate raw batch expiry.

(** [drapIndex]: the own properties, each holding the object of the
    dataset that was assigned to it. *)
Definition Index : Type := JSObject.t Members.

(** What [drapIndex[k]] can be for a lowercased [k]: an entry, or what
    [Object.prototype] answers for [constructor] and [__proto__]. *)
Inductive Local : Type :=
| Entry (d : Members)
| TheObjectFunction
| TheObjectPrototype.

Definition drapIndex_get (idx : Index) (k : string) : option Local :=
  match JSObject.getOwn idx k with
  | Some d => Some (Entry d)
  | None =>
      if (k =? "constructor")%string then Some TheObjectFunction
      else if (k =? "__proto__")%string then Some TheObjectPrototype
      else None
  end.

(** [local[k]] for one of the property names of a record. *)
Definition field (local : Local) (k : string) : option Value :=
  match local with
  | Entry d => JSObject.getOwn d k
  | TheObjectFunction =>
      if (k =? "name")%string then Some (JString "Object") else None
  | TheObjectPrototype => None
  end.

(** The body of [arr.forEach], lines 44-45, for one element.  A read of
    [d.name] throws on [null]; [toLowerCase] is a method of strings only.
    (As above, a key [__proto__] is not a key of a dataset here.) *)
Definition addRecord (idx : Index) (d : Value) : Outcome Index :=
  match d with
  | JNull => Throw
  | JObject members =>
      andThen
        (match JSObject.getOwn members "name" with
         | Some v =>
             if toBoolean v then
               match v with
               | JString s => Ret (JSObject.set idx (toLowerCase s) members)
               | _ => Throw
               end
             else Ret idx
         | None => Ret idx
         end)
        (fun idx1 =>
           match JSObject.getOwn members "synonyms" with
           | Some (JArray items) =>
               fold_left
                 (fun acc s =>
                    andThen acc (fun i =>
                      match s with
                      | JString t =>
                          Ret (JSObject.set i (toLowerCase t) members)
                      | _ => Throw
                      end))
                 items (Ret idx1)
           | _ => Ret idx1
           end)
  | _ => Ret idx
  end.

(** Lines 41-48 once [r.json()] has returned [arr]: [forEach] is a method
    of arrays only, and whatever is thrown is caught on line 48, which
    leaves the index empty. *)
Definition buildIndex (arr : Value) : Index :=
  match arr with
  | JArray ds =>
      match fold_left (fun acc d => andThen acc (fun i => addRecord i d))
                      ds (Ret (JSObject.empty Members)) with
      | Ret idx => idx
      | Throw => JSObject.empty Members
      end
  | _ => JSObject.empty Members
  end.

(** The second operand of [||] on line 222:
    [drapIndex[k].synonyms && drapIndex[k].synonyms.join(' ')
    .toLowerCase().includes(lc)].  [join] is a method of arrays only, and
    line 222 does not ask whether [synonyms] is one. *)
Definition synonymsMatch (local : Local) (lc : string) : Outcome bool :=
  match field local "synonyms" with
  | None => Ret false
  | Some v =>
      if toBoolean v then
        match v with
        | JArray items =>
            andThen (joinArray " " items)
                    (fun joined => Ret (includes (toLowerCase joined) lc))
        | _ => Throw
        end
      else Ret false
  end.

(** The test of the loop, lines 221-225. *)
Definition containsMatch (idx : Index) (lc k : string) : Outcome bool :=
  if includes k lc then Ret true
  else match drapIndex_get idx k with
       | Some local => synonymsMatch local lc
       | None => Throw
       end.

(** The loop of lines 221-225 over the keys still to visit. *)
Fixpoint firstMatch (idx : Index) (lc : string) (keys : list string)
  : Outcome (option string) :=
  match keys with
  | [] => Ret None
  | k :: rest =>
      andThen (containsMatch idx lc k)
              (fun hit => if hit then Ret (Some k) else firstMatch idx lc rest)
  end.

(** Lines 219-226 of [fetchAndRenderDrug]. *)
Definition lookupLocal (idx : Index) (name : string)
  : Outcome (option Local) :=
  let lc := toLowerCase name in
  match drapIndex_get idx lc with
  | Some local => Ret (Some local)
  | None =>
      andThen (firstMatch idx lc (JSObject.ownKeys idx))
              (fun found => match found with
                            | Some k => Ret (drapIndex_get idx k)
                            | None => Ret None
                            end)
  end.

(** The markup [renderQuickCard] assigns on lines 199-211, or the
    exception an interpolation throws before anything is assigned. *)
Definition quickCard (idx : Index) (parsed : Candidate)
  : Outcome (list Html) :=
  let lc := toLowerCase (c_name parsed) in
  match drapIndex_get idx lc with
  | Some local =>
      andThen (shown (field local "name")) (fun name =>
      andThen (shown (Some (or_value (field local "manufacturer")
                                     (JString "—")))) (fun manufacturer =>
      andThen (shown (Some (or_value (Some (c_batch parsed))
                              (or_value (field local "batch")
                                        (JString "N/A"))))) (fun batch =>
      Ret [ div [Text name];
            div [bold "Manufacturer:";
                 Text (" " ++ manufacturer ++ " • ")%string;
                 bold "Batch:";
                 Text (" " ++ batch)%string] ])))
  | None =>
      andThen (shown (Some (JString (c_name parsed)))) (fun name =>
      andThen (if toBoolean (c_batch parsed)
               then andThen (shown (Some (c_batch parsed)))
                      (fun b => Ret [bold "Batch:";
                                     Text (" " ++ b ++ " • ")%string])
               else Ret []) (fun batch =>
      andThen (if toBoolean (c_expiry parsed)
               then andThen (shown (Some (c_expiry parsed)))
                      (fun e => Ret [bold "EXP:";
                                     Text (" " ++ e ++ " ")%string])
               else Ret []) (fun expiry =>
      Ret [ div [Text name]; div (batch ++ expiry) ])))
  end.

(** [handleScanned] from line 192 to the end of the local lookup on
    line 226: the candidate, and the record found for it ([None] also
    for the early return of line 216), or the exception that ends the
    resolution. *)
Definition resolveLocally (idx : Index) (raw : string)
  : Outcome (Candidate * option Local) :=
  let parsed := parsePayload raw in
  andThen (quickCard idx parsed) (fun _ =>
    let name := trim (c_name parsed ||| "") in
    if negb (truthy name) then Ret (parsed, None)
    else andThen (lookupLocal idx name) (fun local => Ret (parsed, local))).

End Text.

End Untyped.

(* ===================================================================== *)
(** * Typed data as untyped values *)
(* ===================================================================== *)

(** An array of strings. *)
Definition stringsValue (l : list string) : Untyped.Value :=
  Untyped.JArray (map Untyped.JString l).

(** A typed record of the dataset as the object it stands for: a string
    or a list is a property holding it, an absent maximum or an absent
    array of synonyms is no property. *)
Definition recordMembers (d : DrugRecord) : Untyped.Members :=
  [("name", Untyped.JString (d_name d));
   ("manufacturer", Untyped.JString (d_manufacturer d));
   ("batch", Untyped.JString (d_batch d));
   ("expiry", Untyped.JString (d_expiry d));
   ("uses", stringsValue (d_uses d));
   ("adrs", stringsValue (d_adrs d));
   ("dosage", Untyped.JString (d_dosage d))]
  ++ match d_maxDoseMg d with
     | Some m => [("maxDoseMg", Untyped.JNumber (Num m))]
     | None => []
     end
  ++ match d_synonyms d with
     | Some syns => [("synonyms", stringsValue syns)]
     | None => []
     end.

Definition recordValue (d : DrugRecord) : Untyped.Value :=
  Untyped.JObject (recordMembers d).

(** A typed index as the object it stands for. *)
Definition indexEntries (idx : Index) : Untyped.Index :=
  map (fun kv => (fst kv, recordMembers (snd kv))) idx.

Definition candidateValue (c : Candidate) : Untyped.Candidate :=
  Untyped.mkCandidate (c_name c) (Untyped.JString (c_batch c))
                      (Untyped.JString (c_expiry c)).

(** A property holds the string [s], or is absent and [s] is empty. *)
Definition holdsString (a : option Untyped.Value) (s : string) : Prop :=
  a = Some (Untyped.JString s) \/ (a = None /\ s = "").

(** [o] is the typed view of the decoded value [v]: the six properties
    hold the strings of [o]. *)
Definition payloadView (v : Untyped.Value) (o : PayloadObject) : Prop :=
  holdsString (Untyped.prop v "drugName") (o_drugName o)
  /\ holdsString (Untyped.prop v "name") (o_name o)
  /\ holdsString (Untyped.prop v "productName") (o_productName o)
  /\ holdsString (Untyped.prop v "batch") (o_batch o)
  /\ holdsString (Untyped.prop v "lot") (o_lot o)
  /\ holdsString (Untyped.prop v "expiry") (o_expiry o).

(** The strings of an array. *)
Definition stringsOf (items : list Untyped.Value) : list string :=
  flat_map (fun v => match v with
                     | Untyped.JString s => [s]
                     | _ => []
                     end) items.

(** The typed view of an object of the dataset: each property read as
    the kind of value the data model gives it. *)
Definition recordView (members : Untyped.Members) : DrugRecord :=
  let str k := match JSObject.getOwn members k with
               | Some (Untyped.JString s) => s
               | _ => ""
               end in
  let strs k := match JSObject.getOwn members k with
                | Some (Untyped.JArray items) => stringsOf items
                | _ => []
                end in
  mkDrug (str "name") (str "manufacturer") (str "batch") (str "expiry")
         (strs "uses") (strs "adrs") (str "dosage")
         (match JSObject.getOwn members "maxDoseMg" with
          | Some (Untyped.JNumber (Num m)) => Some m
          | _ => None
          end)
         (match JSObject.getOwn members "synonyms" with
          | Some (Untyped.JArray items) => Some (stringsOf items)
          | _ => None
          end).

(** The typed view of what a lookup found (see [inherited]). *)
Definition localView (local : Untyped.Local) : DrugRecord :=
  match local with
  | Untyped.Entry members => recordView members
  | Untyped.TheObjectFunction => blankRecord "Object"
  | Untyped.TheObjectPrototype => blankRecord ""
  end.

(** [parse] decodes [raw] as the typed decoder of [P] does: to a value
    of which the typed object is the view, or to no object at all. *)
Definition decodesAlike (P : Platform) (parse : string -> option Untyped.Value)
  (raw : string) : Prop :=
  match JSON_parse P raw with
  | Some o => exists v, parse raw = Some v /\ payloadView v o
  | None => forall members, parse raw <> Some (Untyped.JObject members)
  end.

(** A property is absent or falsy. *)
Definition falsy (a : option Untyped.Value) : bool :=
  match a with
  | Some v => negb (Untyped.toBoolean v)
  | None => true
  end.

Module RawSample.

Definition q : string := Sample.quote.

(** [{"drugName":[],"name":"Panadol"}] *)
Definition emptyArrayName : string :=
  ("{" ++ q ++ "drugName" ++ q ++ ":[]," ++ q ++ "name" ++ q ++ ":"
   ++ q ++ "Panadol" ++ q ++ "}")%string.

(** [{"batch":{"toString":1}}] *)
Definition objectBatch : string :=
  ("{" ++ q ++ "batch" ++ q ++ ":{" ++ q ++ "toString" ++ q ++ ":1}}")%string.

(** [JSON.parse] on these two texts and on the texts of [Sample]; every
    other text stands for one that is no JSON. *)
Definition parse (raw : string) : option Untyped.Value :=
  if (raw =? emptyArrayName)%string then
    Some (Untyped.JObject [("drugName", Untyped.JArray []);
                           ("name", Untyped.JString "Panadol")])
  else if (raw =? objectBatch)%string then
    Some (Untyped.JObject
            [("batch",
              Untyped.JObject [("toString", Untyped.JNumber (Num 1))])])
  else if (raw =? Sample.batchOnly)%string then
    Some (Untyped.JObject [("batch", Untyped.JString "B1")])
  else if (raw =? Sample.namedWithSegments)%string then
    Some (Untyped.JObject [("name", Untyped.JString "Panadol");
                           ("gs1", Untyped.JString "(10)LOT42(17)261231")])
  else if (raw =? Sample.paddedName)%string then
    Some (Untyped.JObject [("name", Untyped.JString " Amoxil ")])
  else None.

(** The dataset of the scenarios:
    [[{"name":"Panadol","maxDoseMg":4000,"synonyms":["paracetamol"]}]]. *)
Definition arraySynonyms : Untyped.Value :=
  Untyped.JArray
    [Untyped.JObject [("name", Untyped.JString "Panadol");
                      ("maxDoseMg", Untyped.JNumber (Num 4000));
                      ("synonyms",
                       Untyped.JArray [Untyped.JString "paracetamol"])]].

(** The same with the synonym written as a string, not as an array of
    one string:
    [[{"name":"Panadol","maxDoseMg":4000,"synonyms":"paracetamol"}]]. *)
Definition stringSynonyms : Untyped.Value :=
  Untyped.JArray
    [Untyped.JObject [("name", Untyped.JString "Panadol");
                      ("maxDoseMg", Untyped.JNumber (Num 4000));
                      ("synonyms", Untyped.JString "paracetamol")]].

End RawSample.

(* ===================================================================== *)
(** * Strings and objects: basic facts *)
(* ===================================================================== *)

Lemma truthy_true (s : string) : truthy s = true <-> s <> "".
Proof.
  unfold truthy. destruct (String.eqb_spec s ""); simpl; split; intros;
    congruence.
Qed.

Lemma truthy_false (s : string) : truthy s = false <-> s = "".
Proof.
  unfold truthy. destruct (String.eqb_spec s ""); simpl; split; intros;
    congruence.
Qed.

Lemma or_else_left (a b : string) : a <> "" -> a ||| b = a.
Proof.
  intros H. unfold or_else. apply truthy_true in H. now rewrite H.
Qed.

Lemma or_else_empty_left (b : string) : "" ||| b = b.
Proof. reflexivity. Qed.

Lemma or_else_empty_right (a : string) : a ||| "" = a.
Proof.
  unfold or_else. destruct (truthy a) eqn:E; [reflexivity|].
  apply truthy_false in E. now subst.
Qed.

Lemma startsWith_append (h n : string) :
  startsWith h n = true <-> exists b, h = (n ++ b)%string.
Proof.
  revert h. induction n as [|c n IH]; intros h; simpl.
  - split; [intros _; now exists h | reflexivity].
  - destruct h as [|d h].
    + split; [discriminate | intros [b Hb]; discriminate].
    + destruct (Ascii.eqb_spec c d) as [->|Hne]; simpl.
      * rewrite IH. split; intros [b Hb]; exists b; congruence.
      * split; [discriminate | intros [b Hb]; congruence].
Qed.

(** [includes] is the substring test. *)
Lemma includes_substring (h n : string) :
  includes h n = true <-> exists a b, h = (a ++ n ++ b)%string.
Proof.
  induction h as [|c h IH]; simpl.
  - destruct (startsWith "" n) eqn:E.
    + split; [intros _|reflexivity].
      apply startsWith_append in E. destruct E as [b Hb]. now exists "", b.
    + split; [discriminate|]. intros [a [b Hab]].
      destruct a; [|discriminate]. simpl in Hab.
      assert (startsWith "" n = true)
        by (apply startsWith_append; now exists b).
      congruence.
  - destruct (startsWith (String c h) n) eqn:E.
    + split; [intros _|reflexivity].
      apply startsWith_append in E. destruct E as [b Hb]. now exists "", b.
    + rewrite IH. split.
      * intros [a [b Hab]]. exists (String c a), b. simpl. now rewrite Hab.
      * intros [a [b Hab]]. destruct a as [|c' a].
        -- simpl in Hab.
           assert (startsWith (String c h) n = true)
             by (apply startsWith_append; now exists b).
           congruence.
        -- exists a, b. simpl in Hab. congruence.
Qed.

Lemma find_first (A : Type) (f : A -> bool) (l : list A) (x : A) :
  find f l = Some x ->
  exists pre post, l = pre ++ x :: post /\ f x = true
                   /\ forall y, In y pre -> f y = false.
Proof.
  induction l as [|a l IH]; simpl; [discriminate|].
  destruct (f a) eqn:E.
  - intros [= ->]. exists [], l. repeat split; [assumption|].
    intros y [].
  - intros H. destruct (IH H) as [pre [post [-> [Hx Hpre]]]].
    exists (a :: pre), post. repeat split; [assumption|].
    intros y [<-|Hy]; [assumption | now apply Hpre].
Qed.

Lemma In_insertIndex (n : N) (k : string) (l : list (N * string))
  (x : N * string) :
  In x (JSObject.insertIndex n k l) <-> x = (n, k) \/ In x l.
Proof.
  induction l as [|[m k'] l IH]; simpl.
  - intuition.
  - destruct (n <? m)%N; simpl; [intuition|].
    rewrite IH. intuition.
Qed.

Lemma getOwn_In (V : Type) (o : JSObject.t V) (k : string) :
  In k (map fst o) -> exists v, JSObject.getOwn o k = Some v.
Proof.
  induction o as [|[k' v'] o IH]; simpl; [intros []|].
  intros H. destruct (String.eqb_spec k' k) as [->|Hne].
  - now exists v'.
  - destruct H as [H|H]; [congruence | now apply IH].
Qed.

(** Every key the loop visits is an own property. *)
Lemma ownKeys_own (V : Type) (o : JSObject.t V) (k : string) :
  In k (JSObject.ownKeys o) -> exists v, JSObject.getOwn o k = Some v.
Proof.
  intros H. apply getOwn_In. unfold JSObject.ownKeys in H.
  apply in_app_or in H. destruct H as [H|H].
  - apply in_map_iff in H. destruct H as [[n k'] [Hk Hin]]. simpl in Hk.
    subst k'. revert Hin. induction o as [|[k1 v1] o IH]; simpl; [intros []|].
    destruct (JSObject.arrayIndex k1).
    + intros Hin. apply In_insertIndex in Hin. destruct Hin as [Hin|Hin].
      * left. congruence.
      * right. now apply IH.
    + intros Hin. right. now apply IH.
  - revert H. induction o as [|[k1 v1] o IH]; simpl; [intros []|].
    destruct (JSObject.arrayIndex k1); simpl.
    + intros Hin. right. now apply IH.
    + intros [Hin|Hin]; [now left | right; now apply IH].
Qed.

Lemma drapIndex_get_own (idx : Index) (k : string) :
  In k (JSObject.ownKeys idx) -> exists d, drapIndex_get idx k = Some d.
Proof.
  intros H. destruct (ownKeys_own idx k H) as [d Hd].
  exists d. unfold drapIndex_get. now rewrite Hd.
Qed.

(* ===================================================================== *)
(** * Running the blocks *)
(* ===================================================================== *)

Ltac run_M :=
  unfold tryCatch, bind, fetch, json, emit, modify, ret, throw, get; simpl.

Lemma logged_app (st : State) (a b : list Effect) :
  logged st (a ++ b) = logged (logged st a) b.
Proof. unfold logged. apply fold_left_app. Qed.

Lemma effects_logged (st : State) (es : list Effect) :
  effects (logged st es) = effects st ++ es.
Proof.
  revert st. induction es as [|e es IH]; intros st; simpl.
  - now rewrite app_nil_r.
  - unfold logged in *. simpl. rewrite IH. simpl.
    now rewrite <- app_assoc.
Qed.

Lemma drapIndex_logged (st : State) (es : list Effect) :
  drapIndex (logged st es) = drapIndex st.
Proof.
  revert st. induction es as [|e es IH]; intros st; [reflexivity|].
  unfold logged in *. simpl. now rewrite IH.
Qed.

Lemma lastParsed_logged (st : State) (es : list Effect) :
  lastParsed (logged st es) = lastParsed st.
Proof.
  revert st. induction es as [|e es IH]; intros st; [reflexivity|].
  unfold logged in *. simpl. now rewrite IH.
Qed.

Lemma localStorage_logged (st : State) (es : list Effect) :
  localStorage (logged st es) = localStorage st.
Proof.
  revert st. induction es as [|e es IH]; intros st; [reflexivity|].
  unfold logged in *. simpl. now rewrite IH.
Qed.

Lemma labelBlock_run (P : Platform) (name : string) (st : State) :
  labelBlock P name st
  = (Ret (labelResult (fetchLabel P name)),
     logged st (Fetched (LabelQuery name)
                :: if failed (fetchLabel P name)
                   then [Warned "openFDA label error"] else [])).
Proof.
  unfold labelBlock. run_M.
  destruct (fetchLabel P name) as [[[|] [j|]]|]; reflexivity.
Qed.

Lemma eventsBlock_run (P : Platform) (name : string) (st : State) :
  eventsBlock P name st
  = (Ret (eventsResult (fetchEvents P name)),
     logged st (Fetched (EventQuery name)
                :: if failed (fetchEvents P name)
                   then [Warned "openFDA events error"] else [])).
Proof.
  unfold eventsBlock. run_M.
  destruct (fetchEvents P name) as [[[|] [j|]]|]; reflexivity.
Qed.

Lemma fetchAndRenderDrug_noName (P : Platform) (parsed : Candidate)
  (st : State) :
  trim (c_name parsed) = "" ->
  fetchAndRenderDrug P parsed st
  = (Ret None, with_drugCard st [div [Text "No drug name detected."]]).
Proof.
  intros H. unfold fetchAndRenderDrug.
  rewrite or_else_empty_right, H. reflexivity.
Qed.

Lemma fetchAndRenderDrug_local (P : Platform) (parsed : Candidate)
  (st : State) (d : DrugRecord) :
  trim (c_name parsed) <> "" ->
  lookupLocal (drapIndex st) (trim (c_name parsed)) = Some d ->
  fetchAndRenderDrug P parsed st
  = let m := merge (trim (c_name parsed)) parsed (Some d) [] [] "" in
    (Ret (Some m), rendered st m).
Proof.
  intros Hn Hl. unfold fetchAndRenderDrug.
  rewrite or_else_empty_right.
  apply truthy_true in Hn. rewrite Hn. simpl.
  run_M. rewrite Hl. reflexivity.
Qed.

Lemma fetchAndRenderDrug_fallback (P : Platform) (parsed : Candidate)
  (st : State) :
  let name := trim (c_name parsed) in
  name <> "" ->
  lookupLocal (drapIndex st) name = None ->
  fetchAndRenderDrug P parsed st
  = let lab := labelResult (fetchLabel P name) in
    let m := merge name parsed None (fst lab)
                   (eventsResult (fetchEvents P name)) (snd lab) in
    (Ret (Some m),
     rendered
       (logged st
          ((Fetched (LabelQuery name)
            :: if failed (fetchLabel P name)
               then [Warned "openFDA label error"] else [])
           ++ (Fetched (EventQuery name)
               :: if failed (fetchEvents P name)
                  then [Warned "openFDA events error"] else []))) m).
Proof.
  intros name Hn Hl. unfold fetchAndRenderDrug.
  rewrite or_else_empty_right. fold name.
  apply truthy_true in Hn. rewrite Hn. simpl.
  unfold bind at 1. unfold get at 1. rewrite Hl.
  unfold bind at 1. unfold bind at 1.
  rewrite labelBlock_run. unfold bind at 1. rewrite eventsBlock_run.
  rewrite logged_app. reflexivity.
Qed.

Lemma beginScan_run (P : Platform) (raw : string) (st : State) :
  beginScan P raw st
  = (Ret (parsePayload P raw),
     with_drugCard (with_lastParsed st (parsePayload P raw))
       (quickCard (drapIndex st) (parsePayload P raw))).
Proof. reflexivity. Qed.

Lemma handleScanned_run (P : Platform) (raw : string) (st : State) :
  handleScanned P raw st
  = fetchAndRenderDrug P (parsePayload P raw) (snd (beginScan P raw st)).
Proof. reflexivity. Qed.

(* ===================================================================== *)
(** * Local lookup *)
(* ===================================================================== *)

Lemma parsePayload_plain (P : Platform) (raw : string) :
  startsWithBrace raw = false -> parsePayload P raw = Spec.parseRaw raw.
Proof.
  intros H. unfold parsePayload, JSON_parse, Spec.parseRaw. rewrite H.
  reflexivity.
Qed.

Lemma containsMatch_substring (idx : Index) (lc k : string) :
  containsMatch idx lc k = true <->
  (exists a b, k = (a ++ lc ++ b)%string)
  \/ (exists d syns a b,
        drapIndex_get idx k = Some d /\ d_synonyms d = Some syns
        /\ toLowerCase (join " " syns) = (a ++ lc ++ b)%string).
Proof.
  unfold containsMatch. rewrite orb_true_iff, includes_substring.
  split.
  - intros [H|H]; [now left|right].
    destruct (drapIndex_get idx k) as [d|]; [|discriminate].
    destruct (d_synonyms d) as [syns|] eqn:Es; [|discriminate].
    apply includes_substring in H. destruct H as [a [b Hab]].
    now exists d, syns, a, b.
  - intros [H|[d [syns [a [b [Hd [Hs Hab]]]]]]]; [now left|right].
    rewrite Hd, Hs. apply includes_substring. now exists a, b.
Qed.

(** The loop of lines 221-225 stops at the first key that passes its
    test. *)
Lemma lookupLocal_loop (idx : Index) (name : string) :
  drapIndex_get idx (toLowerCase name) = None ->
  match lookupLocal idx name with
  | Some d =>
      exists pre k post,
        JSObject.ownKeys idx = pre ++ k :: post
        /\ drapIndex_get idx k = Some d
        /\ containsMatch idx (toLowerCase name) k = true
        /\ forall k', In k' pre ->
                      containsMatch idx (toLowerCase name) k' = false
  | None =>
      forall k, In k (JSObject.ownKeys idx) ->
                containsMatch idx (toLowerCase name) k = false
  end.
Proof.
  intros Hexact. unfold lookupLocal. rewrite Hexact.
  destruct (find (containsMatch idx (toLowerCase name)) (JSObject.ownKeys idx))
    as [k|] eqn:Hfind.
  - destruct (find_first _ _ Hfind) as [pre [post [Hsplit [Hk Hpre]]]].
    assert (Hin : In k (JSObject.ownKeys idx))
      by (rewrite Hsplit; apply in_or_app; right; now left).
    destruct (drapIndex_get_own idx k Hin) as [d Hd]. rewrite Hd.
    now exists pre, k, post.
  - intros k Hin. exact (find_none _ _ Hfind k Hin).
Qed.

Lemma panadol_index :
  buildIndex [Sample.panadol]
  = [("panadol", Sample.panadol); ("paracetamol", Sample.panadol)].
Proof. reflexivity. Qed.

(** C1, as stated, fails: with the dataset of the scenario the key
    ["paracetamol"] is a substring of the input ["paracetamol 500mg tab"],
    so the lookup of the specification finds Panadol, but the loop of
    [fetchAndRenderDrug] asks for the input to occur in the key (or in
    the joined synonyms), finds nothing, and the record rendered carries
    the raw input as its name and no maximum dose. *)
Lemma substring_lookup_counterexample :
  let P := Sample.localOnly [Sample.panadol] in
  let st := Sample.loaded P in
  let input := "paracetamol 500mg tab" in
  drapIndex_get (drapIndex st) (toLowerCase input) = None
  /\ Spec.substringLookup (drapIndex st) input = Some Sample.panadol
  /\ lookupLocal (drapIndex st) input = None
  /\ exists m,
       fst (handleScanned P input st) = Ret (Some m)
       /\ m_name m = input
       /\ m_name m <> "Panadol"
       /\ m_maxDoseMg m = None.
Proof.
  repeat split; try reflexivity.
  eexists. repeat split; try reflexivity. discriminate.
Qed.

(** C1, amended.  When the lowercased input is no key of the index, the
    lookup returns the first record, in the iteration order of the index,
    whose key contains the lowercased input or whose synonyms, joined by
    single spaces and lowercased, contain it; it returns nothing when no
    key passes.  Against the dataset holding Panadol (maximum 4000,
    synonym paracetamol), resolving ["paracetamol 500mg tab"] finds no
    local record: the record is named after the input, has no maximum
    dose, and carries what the fallback returned; resolving ["paracet"]
    finds Panadol, with no official uses and maximum dose 4000. *)
Theorem lookupLocal_first_containing :
  (forall (idx : Index) (name : string),
      drapIndex_get idx (toLowerCase name) = None ->
      match lookupLocal idx name with
      | Some d =>
          exists pre k post,
            JSObject.ownKeys idx = pre ++ k :: post
            /\ drapIndex_get idx k = Some d
            /\ containsMatch idx (toLowerCase name) k = true
            /\ forall k', In k' pre ->
                          containsMatch idx (toLowerCase name) k' = false
      | None =>
          forall k, In k (JSObject.ownKeys idx) ->
                    containsMatch idx (toLowerCase name) k = false
      end)
  /\ (forall (idx : Index) (lc k : string),
         containsMatch idx lc k = true <->
         (exists a b, k = (a ++ lc ++ b)%string)
         \/ (exists d syns a b,
               drapIndex_get idx k = Some d /\ d_synonyms d = Some syns
               /\ toLowerCase (join " " syns) = (a ++ lc ++ b)%string))
  /\ (forall (P : Platform) (st : State),
         drapIndex st = buildIndex [Sample.panadol] ->
         let input := "paracetamol 500mg tab" in
         lookupLocal (drapIndex st) input = None
         /\ exists m,
              fst (handleScanned P input st) = Ret (Some m)
              /\ m_name m = input
              /\ m_maxDoseMg m = None
              /\ m_uses_official m = fst (labelResult (fetchLabel P input))
              /\ m_adrs_reported m = eventsResult (fetchEvents P input))
  /\ (forall (P : Platform) (st : State),
         drapIndex st = buildIndex [Sample.panadol] ->
         exists m,
           fst (handleScanned P "paracet" st) = Ret (Some m)
           /\ m_name m = "Panadol"
           /\ m_uses_official m = []
           /\ m_maxDoseMg m = Some 4000%Q).
Proof.
  split; [exact lookupLocal_loop|].
  split; [exact containsMatch_substring|].
  split.
  - intros P st Hidx input.
    assert (Hl : lookupLocal (drapIndex st) input = None)
      by (rewrite Hidx; reflexivity).
    split; [exact Hl|].
    rewrite handleScanned_run, beginScan_run.
    rewrite (parsePayload_plain P input eq_refl). simpl snd.
    rewrite fetchAndRenderDrug_fallback; [|discriminate|exact Hl].
    eexists. repeat split; reflexivity.
  - intros P st Hidx.
    rewrite handleScanned_run, beginScan_run.
    rewrite (parsePayload_plain P "paracet" eq_refl). simpl snd.
    erewrite fetchAndRenderDrug_local;
      [|discriminate|simpl; rewrite Hidx; reflexivity].
    eexists. repeat split; reflexivity.
Qed.

Lemma lookupLocal_first_containing_witness :
  let idx := buildIndex [Sample.panadol] in
  drapIndex_get idx (toLowerCase "Parace") = None
  /\ match lookupLocal idx "Parace" with
     | Some d =>
         exists pre k post,
           JSObject.ownKeys idx = pre ++ k :: post
           /\ drapIndex_get idx k = Some d
           /\ containsMatch idx (toLowerCase "Parace") k = true
           /\ forall k', In k' pre ->
                         containsMatch idx (toLowerCase "Parace") k' = false
     | None =>
         forall k, In k (JSObject.ownKeys idx) ->
                   containsMatch idx (toLowerCase "Parace") k = false
     end.
Proof.
  split; [reflexivity|].
  apply (proj1 lookupLocal_first_containing (buildIndex [Sample.panadol])
               "Parace").
  reflexivity.
Defined.

(* ===================================================================== *)
(** * The high-dose flag *)
(* ===================================================================== *)

Lemma Qgt_bool_lt (a b : Q) : Qgt_bool a b = true <-> (b < a)%Q.
Proof.
  unfold Qgt_bool. rewrite negb_true_iff.
  split.
  - intros H. apply Qnot_le_lt. intros Hle.
    apply Qle_bool_iff in Hle. congruence.
  - intros H. destruct (Qle_bool a b) eqn:E; [|reflexivity].
    apply Qle_bool_iff in E. exfalso. exact (Qlt_not_le _ _ H E).
Qed.

Lemma num_truthy_Num (q : Q) : num_truthy (Num q) = true <-> ~ (q == 0)%Q.
Proof.
  simpl. rewrite negb_true_iff. split.
  - intros H E. apply Qeq_bool_iff in E. congruence.
  - intros H. destruct (Qeq_bool q 0) eqn:E; [|reflexivity].
    apply Qeq_bool_iff in E. contradiction.
Qed.

(** Lines 328-331 flag a report exactly when the lowercased name is a key
    of the index, the record under it has a non-zero maximum, and the
    amount is [Infinity] or a non-zero finite number that exceeds the
    maximum. *)
Lemma evaluateDose_true (idx : Index) (drugName : string)
  (amount : jsnumber) :
  evaluateDose idx drugName amount = true <->
  exists local m,
    drapIndex_get idx (toLowerCase drugName) = Some local
    /\ d_maxDoseMg local = Some m /\ ~ (m == 0)%Q
    /\ (amount = PosInfinity
        \/ exists a, amount = Num a /\ ~ (a == 0)%Q /\ (m < a)%Q).
Proof.
  unfold evaluateDose. split.
  - destruct (drapIndex_get idx (toLowerCase drugName)) as [local|];
      [|discriminate].
    destruct (d_maxDoseMg local) as [m|] eqn:Hmax; [|discriminate].
    destruct (num_truthy (Num m)) eqn:Em; [|discriminate].
    apply num_truthy_Num in Em.
    destruct amount as [a| | | |]; try discriminate.
    + destruct (num_truthy (Num a)) eqn:Ea; [|discriminate].
      cbn [andb num_gt]. intros H.
      exists local, m. repeat split; trivial.
      right. exists a. split; [reflexivity|].
      split; [now apply num_truthy_Num | now apply Qgt_bool_lt].
    + intros _. exists local, m. repeat split; trivial. now left.
  - intros [local [m [-> [-> [Hm [->|[a [-> [Ha Hlt]]]]]]]]];
      apply num_truthy_Num in Hm; rewrite Hm; [reflexivity|].
    apply num_truthy_Num in Ha. rewrite Ha.
    cbn [andb num_gt]. now apply Qgt_bool_lt.
Qed.

Lemma evaluateDose_positive_max (idx : Index) (drugName : string)
  (amount : jsnumber) :
  (forall local m,
      drapIndex_get idx (toLowerCase drugName) = Some local ->
      d_maxDoseMg local = Some m -> (0 < m)%Q) ->
  evaluateDose idx drugName amount = Spec.check idx drugName amount.
Proof.
  intros Hpos.
  destruct (evaluateDose idx drugName amount) eqn:E.
  - apply evaluateDose_true in E.
    destruct E as [local [m [Hl [Hm [Hm0 [->|[a [-> [Ha0 Hlt]]]]]]]]];
      unfold Spec.check; rewrite Hl, Hm; [reflexivity|]. symmetry.
    apply andb_true_iff. split; apply Qgt_bool_lt; [|assumption].
    apply Qlt_trans with m; [exact (Hpos _ _ Hl Hm) | assumption].
  - symmetry. destruct (Spec.check idx drugName amount) eqn:C;
      [|reflexivity].
    unfold Spec.check in C.
    destruct (drapIndex_get idx (toLowerCase drugName)) as [local|] eqn:Hl;
      [|discriminate].
    assert (Hnz : forall m, d_maxDoseMg local = Some m -> ~ (m == 0)%Q).
    { intros m Hm Hz. specialize (Hpos _ _ eq_refl Hm). rewrite Hz in Hpos.
      exact (Qlt_irrefl _ Hpos). }
    assert (T : evaluateDose idx drugName amount = true); [|congruence].
    apply evaluateDose_true.
    destruct amount as [a| | | |]; try discriminate;
      destruct (d_maxDoseMg local) as [m|] eqn:Hm; try discriminate;
      exists local, m; repeat split; auto.
    right. exists a.
    apply andb_true_iff in C. destruct C as [C0 C1].
    apply Qgt_bool_lt in C0, C1.
    split; [reflexivity|]. split; [|exact C1].
    intros Hz. rewrite Hz in C0. exact (Qlt_irrefl _ C0).
Qed.

(** C2, as stated, fails: a record with maximum -10 mg and a submitted
    amount of -5 mg.  The amount is not positive, so the rule of the
    specification gives no flag; the handler only asks for a non-zero
    amount, compares, and stores the report flagged. *)
Lemma nonpositive_amount_counterexample :
  let P := Sample.localOnly [Sample.negativeMax] in
  let st := snd (handleScanned P "Testdrug" (Sample.loaded P)) in
  let amount := Num (-5) in
  (-5 <= 0)%Q
  /\ Spec.check (drapIndex st) "Testdrug" amount = false
  /\ evaluateDose (drapIndex st) "Testdrug" amount = true
  /\ map rep_highDose
         (readAllReports
            (snd (submitReport (Sample.form amount) Sample.clock st)))
     = [true].
Proof.
  repeat split; try reflexivity. discriminate.
Qed.

(** C2, amended.  The flag of a submitted report is computed from the
    record found under the lowercased drug name as a key of the index,
    and from nothing else.  It is set exactly when that record exists,
    its maximum dose is present and not zero, the amount is a number
    other than zero, and the amount exceeds the maximum (as a finite
    amount above it, or as [Infinity]); so it is not set when the amount
    is a zero, [-Infinity] or not a number, when the record has no maximum,
    or when the amount is at most zero and the maximum is not negative.
    When the maximum is positive this is the rule of the
    specification. *)
Theorem evaluateDose_exact_key_nonzero :
  forall (idx : Index) (drugName : string) (amount : jsnumber),
    (evaluateDose idx drugName amount = true <->
     exists local m,
       drapIndex_get idx (toLowerCase drugName) = Some local
       /\ d_maxDoseMg local = Some m /\ ~ (m == 0)%Q
       /\ (amount = PosInfinity
           \/ exists a, amount = Num a /\ ~ (a == 0)%Q /\ (m < a)%Q))
    /\ (forall st f c,
           drapIndex st = idx -> p_amount_mg f = amount ->
           rep_drug (newReport st f c) = drugName ->
           rep_highDose (finalReport st f c)
           = evaluateDose idx drugName amount)
    /\ (amount = NaN \/ amount = NegInfinity \/ amount = NegZero
        \/ (exists a, amount = Num a /\ (a == 0)%Q) ->
        evaluateDose idx drugName amount = false)
    /\ ((forall local,
            drapIndex_get idx (toLowerCase drugName) = Some local ->
            d_maxDoseMg local = None) ->
        evaluateDose idx drugName amount = false)
    /\ (forall local m a,
           drapIndex_get idx (toLowerCase drugName) = Some local ->
           d_maxDoseMg local = Some m -> (0 <= m)%Q ->
           amount = Num a -> (a <= 0)%Q ->
           evaluateDose idx drugName amount = false)
    /\ ((forall local m,
            drapIndex_get idx (toLowerCase drugName) = Some local ->
            d_maxDoseMg local = Some m -> (0 < m)%Q) ->
        evaluateDose idx drugName amount = Spec.check idx drugName amount).
Proof.
  intros idx drugName amount.
  split; [apply evaluateDose_true|].
  split.
  { intros st f c Hi Ha Hd. unfold finalReport.
    rewrite Hi, Ha, Hd.
    destruct (evaluateDose idx drugName amount); reflexivity. }
  split.
  { intros H. destruct (evaluateDose idx drugName amount) eqn:E;
      [|reflexivity].
    apply evaluateDose_true in E.
    destruct E as [local [m [_ [_ [_ [->|[a [-> [Ha0 _]]]]]]]]].
    - destruct H as [H|[H|[H|[a [H _]]]]]; discriminate H.
    - destruct H as [H|[H|[H|[a' [[= <-] Hz]]]]];
        [discriminate | discriminate | discriminate | contradiction]. }
  split.
  { intros H. destruct (evaluateDose idx drugName amount) eqn:E;
      [|reflexivity].
    apply evaluateDose_true in E.
    destruct E as [local [m [Hl [Hm _]]]].
    rewrite (H _ Hl) in Hm. discriminate. }
  split.
  { intros local m a Hl Hm Hm0 -> Ha.
    destruct (evaluateDose idx drugName (Num a)) eqn:E; [|reflexivity].
    apply evaluateDose_true in E.
    destruct E as [local' [m' [Hl' [Hm' [_ [H|[a' [[= <-] [_ Hlt]]]]]]]]];
      [discriminate H|].
    rewrite Hl in Hl'. injection Hl' as <-.
    rewrite Hm in Hm'. injection Hm' as <-.
    exfalso. apply (Qlt_not_le _ _ Hlt).
    apply Qle_trans with 0%Q; assumption. }
  apply evaluateDose_positive_max.
Qed.

Lemma evaluateDose_exact_key_nonzero_witness :
  let idx := buildIndex [Sample.panadol] in
  evaluateDose idx "Panadol" (Num 5000) = true
  /\ evaluateDose idx "Panadol" (Num 3000) = false
  /\ evaluateDose idx "Panadol" (Num 5000)
     = Spec.check idx "Panadol" (Num 5000).
Proof.
  split; [reflexivity|]. split; [reflexivity|].
  apply (evaluateDose_exact_key_nonzero (buildIndex [Sample.panadol])
           "Panadol" (Num 5000)).
  intros local m Hl Hm. injection Hl as <-. injection Hm as <-.
  reflexivity.
Defined.

(* ===================================================================== *)
(** * Merge precedence *)
(* ===================================================================== *)

Section MergeFields.

Variables (parsed : Candidate) (local : option DrugRecord).
Variables (usesFDA adrsFDA : list string) (doseFDA : string).

Let name := trim (c_name parsed).
Let m := merge name parsed local usesFDA adrsFDA doseFDA.

(** A property of the local record wins over the default when it is not
    empty. *)
Lemma localStr_wins (f : DrugRecord -> string) (dflt : string) :
  (forall d, local = Some d -> f d <> "" -> localStr f local ||| dflt = f d)
  /\ (local = None \/ (exists d, local = Some d /\ f d = "") ->
      localStr f local ||| dflt = dflt).
Proof.
  split.
  - intros d -> Hd. simpl. now apply or_else_left.
  - intros [->|[d [-> Hd]]]; simpl; [reflexivity|]. now rewrite Hd.
Qed.

(** A segment scanned from the payload wins over the local record. *)
Lemma scanned_wins (g : Candidate -> string) (f : DrugRecord -> string) :
  (g parsed <> "" -> g parsed ||| localStr f local ||| "" = g parsed)
  /\ (g parsed = "" -> forall d, local = Some d ->
      g parsed ||| localStr f local ||| "" = f d)
  /\ (g parsed = "" -> local = None ->
      g parsed ||| localStr f local ||| "" = "").
Proof.
  split; [|split].
  - intros H. rewrite (or_else_left _ H). now apply or_else_left.
  - intros H d ->. rewrite H. simpl. apply or_else_empty_right.
  - intros H ->. now rewrite H.
Qed.

Lemma merge_fields :
  ((forall d, local = Some d -> d_name d <> "" -> m_name m = d_name d)
   /\ (local = None \/ (exists d, local = Some d /\ d_name d = "") ->
       m_name m = name))
  /\ ((forall d, local = Some d -> d_manufacturer d <> "" ->
                 m_manufacturer m = d_manufacturer d)
      /\ (local = None
          \/ (exists d, local = Some d /\ d_manufacturer d = "") ->
          m_manufacturer m = "Unknown"))
  /\ ((c_batch parsed <> "" -> m_batch m = c_batch parsed)
      /\ (c_batch parsed = "" -> forall d, local = Some d ->
          m_batch m = d_batch d)
      /\ (c_batch parsed = "" -> local = None -> m_batch m = ""))
  /\ ((c_expiry parsed <> "" -> m_expiry m = c_expiry parsed)
      /\ (c_expiry parsed = "" -> forall d, local = Some d ->
          m_expiry m = d_expiry d)
      /\ (c_expiry parsed = "" -> local = None -> m_expiry m = ""))
  /\ ((forall d, local = Some d -> d_dosage d <> "" ->
                 m_dosage_official m = d_dosage d)
      /\ (local = None \/ (exists d, local = Some d /\ d_dosage d = "") ->
          m_dosage_official m = doseFDA))
  /\ ((forall d mx, local = Some d -> d_maxDoseMg d = Some mx ->
                    ~ (mx == 0)%Q -> m_maxDoseMg m = Some mx)
      /\ (forall d mx, local = Some d -> d_maxDoseMg d = Some mx ->
                       (mx == 0)%Q -> m_maxDoseMg m = None)
      /\ (local = None \/ (exists d, local = Some d /\ d_maxDoseMg d = None)
          -> m_maxDoseMg m = None))
  /\ m_uses_local m = match local with Some d => d_uses d | None => [] end
  /\ m_adrs_local m = match local with Some d => d_adrs d | None => [] end
  /\ m_uses_official m = usesFDA
  /\ m_adrs_reported m = adrsFDA.
Proof.
  split; [exact (localStr_wins d_name name)|].
  split; [exact (localStr_wins d_manufacturer "Unknown")|].
  split; [exact (scanned_wins c_batch d_batch)|].
  split; [exact (scanned_wins c_expiry d_expiry)|].
  split.
  { subst m. unfold merge. cbn [m_dosage_official].
    rewrite or_else_empty_right. exact (localStr_wins d_dosage doseFDA). }
  split.
  { subst m. unfold merge. cbn [m_maxDoseMg]. split; [|split].
    - intros d mx -> Hmx Hnz. simpl. rewrite Hmx.
      apply num_truthy_Num in Hnz. simpl in Hnz. now rewrite Hnz.
    - intros d mx -> Hmx Hz. simpl. rewrite Hmx.
      apply Qeq_bool_iff in Hz. now rewrite Hz.
    - intros [->|[d [-> Hd]]]; simpl; [reflexivity|]. now rewrite Hd. }
  repeat split; reflexivity.
Qed.

(** No field taken from the local record or the payload changes with the
    fallback values, and a local dosage is kept whatever the fallback
    says. *)
Lemma merge_local_kept (uses' adrs' : list string) (dose' : string) :
  let m' := merge name parsed local uses' adrs' dose' in
  m_name m' = m_name m /\ m_manufacturer m' = m_manufacturer m
  /\ m_batch m' = m_batch m /\ m_expiry m' = m_expiry m
  /\ m_uses_local m' = m_uses_local m /\ m_adrs_local m' = m_adrs_local m
  /\ m_maxDoseMg m' = m_maxDoseMg m
  /\ (forall d, local = Some d -> d_dosage d <> "" ->
      m_dosage_official m' = m_dosage_official m).
Proof.
  simpl. repeat split.
  intros d -> Hd. subst m. unfold merge. simpl.
  now rewrite !(or_else_left _ Hd).
Qed.

End MergeFields.

(** What [fetchAndRenderDrug] renders is [merge] at the trimmed name, the
    record the lookup found, and the values the fallback left. *)
Lemma fetchAndRenderDrug_merges (P : Platform) (parsed : Candidate)
  (st : State) :
  let name := trim (c_name parsed) in
  name <> "" ->
  exists usesFDA adrsFDA doseFDA,
    fst (fetchAndRenderDrug P parsed st)
    = Ret (Some (merge name parsed (lookupLocal (drapIndex st) name)
                       usesFDA adrsFDA doseFDA)).
Proof.
  intros name Hn.
  destruct (lookupLocal (drapIndex st) name) as [d|] eqn:Hl.
  - exists [], [], "". subst name.
    now rewrite (fetchAndRenderDrug_local P parsed st Hn Hl).
  - subst name. rewrite (fetchAndRenderDrug_fallback P parsed st Hn Hl).
    simpl. eauto.
Qed.

(** C3, as stated, fails: the payload [{"name":" Amoxil "}] parses to a
    candidate whose name keeps its spaces; with no local record the merged
    name is the trimmed ["Amoxil"], not the candidate's name. *)
Lemma merged_name_counterexample :
  let parsed := parsePayload Sample.offline Sample.paddedName in
  c_name parsed = " Amoxil "
  /\ lookupLocal (drapIndex Sample.blankPage) (trim (c_name parsed)) = None
  /\ exists m,
       fst (fetchAndRenderDrug Sample.offline parsed Sample.blankPage)
       = Ret (Some m)
       /\ m_name m = "Amoxil"
       /\ m_name m <> c_name parsed.
Proof.
  repeat split; try reflexivity.
  eexists. repeat split; try reflexivity. discriminate.
Qed.

(** C3, amended.  [merge] is a function of the candidate, the local
    record and the fallback values, and for a candidate whose trimmed
    name is not empty it is what [fetchAndRenderDrug] renders.  Its
    fields: name is the local name, else the candidate's name with the
    white space around it removed; manufacturer is the local one, else
    "Unknown"; batch and expiry are the candidate's, else the local
    record's, else empty; dosage_official is the local dosage, else the
    fallback's, else empty; maxDoseMg is the local maximum when it is
    not zero, and absent when the local maximum is zero, when the local
    record has none, and when there is no local record ("else" when the
    value before it is absent or empty).  No field taken from the local
    record changes with the fallback values. *)
Theorem merge_precedence :
  forall (parsed : Candidate) (local : option DrugRecord)
         (usesFDA adrsFDA : list string) (doseFDA : string),
    let name := trim (c_name parsed) in
    let m := merge name parsed local usesFDA adrsFDA doseFDA in
    ((forall d, local = Some d -> d_name d <> "" -> m_name m = d_name d)
     /\ (local = None \/ (exists d, local = Some d /\ d_name d = "") ->
         m_name m = name))
    /\ ((forall d, local = Some d -> d_manufacturer d <> "" ->
                   m_manufacturer m = d_manufacturer d)
        /\ (local = None
            \/ (exists d, local = Some d /\ d_manufacturer d = "") ->
            m_manufacturer m = "Unknown"))
    /\ ((c_batch parsed <> "" -> m_batch m = c_batch parsed)
        /\ (c_batch parsed = "" -> forall d, local = Some d ->
            m_batch m = d_batch d)
        /\ (c_batch parsed = "" -> local = None -> m_batch m = ""))
    /\ ((c_expiry parsed <> "" -> m_expiry m = c_expiry parsed)
        /\ (c_expiry parsed = "" -> forall d, local = Some d ->
            m_expiry m = d_expiry d)
        /\ (c_expiry parsed = "" -> local = None -> m_expiry m = ""))
    /\ ((forall d, local = Some d -> d_dosage d <> "" ->
                   m_dosage_official m = d_dosage d)
        /\ (local = None \/ (exists d, local = Some d /\ d_dosage d = "") ->
            m_dosage_official m = doseFDA))
    /\ ((forall d mx, local = Some d -> d_maxDoseMg d = Some mx ->
                      ~ (mx == 0)%Q -> m_maxDoseMg m = Some mx)
        /\ (forall d mx, local = Some d -> d_maxDoseMg d = Some mx ->
                         (mx == 0)%Q -> m_maxDoseMg m = None)
        /\ (local = None
            \/ (exists d, local = Some d /\ d_maxDoseMg d = None) ->
            m_maxDoseMg m = None))
    /\ (forall uses' adrs' dose',
           let m' := merge name parsed local uses' adrs' dose' in
           m_name m' = m_name m /\ m_manufacturer m' = m_manufacturer m
           /\ m_batch m' = m_batch m /\ m_expiry m' = m_expiry m
           /\ m_uses_local m' = m_uses_local m
           /\ m_adrs_local m' = m_adrs_local m
           /\ m_maxDoseMg m' = m_maxDoseMg m
           /\ (forall d, local = Some d -> d_dosage d <> "" ->
               m_dosage_official m' = m_dosage_official m))
    /\ (forall (P : Platform) (st : State),
           name <> "" ->
           exists u a d,
             fst (fetchAndRenderDrug P parsed st)
             = Ret (Some (merge name parsed
                                (lookupLocal (drapIndex st) name) u a d))).
Proof.
  intros parsed local usesFDA adrsFDA doseFDA name m.
  pose proof (merge_fields parsed local usesFDA adrsFDA doseFDA) as F.
  destruct F as [F1 [F2 [F3 [F4 [F5 [F6 _]]]]]].
  repeat (split; [assumption|]).
  split.
  - intros uses' adrs' dose'.
    exact (merge_local_kept parsed local usesFDA adrsFDA doseFDA
                            uses' adrs' dose').
  - intros P st Hn. exact (fetchAndRenderDrug_merges P parsed st Hn).
Qed.

Lemma merge_precedence_witness :
  let parsed := mkCandidate "paracet" "LOT42" "" in
  let m := merge (trim (c_name parsed)) parsed (Some Sample.panadol)
                 [] [] "" in
  let m0 := merge (trim (c_name parsed)) parsed (Some Sample.zeroMax)
                  [] [] "" in
  m_name m = "Panadol" /\ m_batch m = "LOT42"
  /\ m_maxDoseMg m = Some 4000%Q /\ m_maxDoseMg m0 = None.
Proof.
  pose proof (merge_precedence (mkCandidate "paracet" "LOT42" "")
                (Some Sample.panadol) [] [] "") as H.
  pose proof (merge_precedence (mkCandidate "paracet" "LOT42" "")
                (Some Sample.zeroMax) [] [] "") as H0.
  cbv zeta in H, H0.
  destruct H as [[Hname _] [_ [[Hbatch _] [_ [_ [[Hmax _] _]]]]]].
  destruct H0 as [_ [_ [_ [_ [_ [[_ [Hzero _]] _]]]]]].
  split; [|split; [|split]].
  - apply (Hname Sample.panadol eq_refl). discriminate.
  - apply Hbatch. discriminate.
  - apply (Hmax Sample.panadol 4000%Q eq_refl eq_refl). discriminate.
  - apply (Hzero Sample.zeroMax 0%Q eq_refl eq_refl). reflexivity.
Defined.

(* ===================================================================== *)
(** * The submit handler *)
(* ===================================================================== *)

Lemma submitReport_run (f : Form) (c : Clock) (st : State) :
  submitReport f c st
  = (Ret tt,
     if missingRequired (newReport st f c)
     then with_effect st (Alerted "Please fill required fields.")
     else accepted st f c).
Proof.
  unfold submitReport, accepted. run_M.
  destruct (missingRequired (newReport st f c)); reflexivity.
Qed.

Lemma clearAll_run (b : bool) (st : State) :
  clearAll b st
  = (Ret tt,
     if b
     then with_historyList
            (with_effect (with_localStorage (with_effect st StorageRemove) None)
                         StorageGet) []
     else st).
Proof. destruct b; reflexivity. Qed.

(* ===================================================================== *)
(** * The card never holds a [.drug-title] element *)
(* ===================================================================== *)

Lemma querySelector_app (c : string) (a b : list Html) :
  querySelector c (a ++ b)
  = match querySelector c a with
    | Some e => Some e
    | None => querySelector c b
    end.
Proof.
  induction a as [|k a IH]; simpl; [reflexivity|].
  destruct (findClass c k); [reflexivity | exact IH].
Qed.

Lemma noTitle_app (a b : list Html) :
  noTitle a -> noTitle b -> noTitle (a ++ b).
Proof.
  unfold noTitle. intros Ha Hb. now rewrite querySelector_app, Ha.
Qed.

Lemma items_noTitle (items : list string) :
  noTitle (map (fun x => Elem "li" [] [Text x]) items).
Proof.
  unfold noTitle. induction items as [|x items IH]; simpl; [reflexivity|].
  exact IH.
Qed.

Lemma findClass_kids (c tag : string) (cls : list string)
  (kids : list Html) :
  existsb (String.eqb c) cls = false ->
  findClass c (Elem tag cls kids) = querySelector c kids.
Proof.
  intros H. simpl. rewrite H.
  induction kids as [|k kids IH]; simpl; [reflexivity|].
  destruct (findClass c k); [reflexivity | exact IH].
Qed.

Lemma querySelector_cons (c : string) (k : Html) (r : list Html) :
  querySelector c (k :: r)
  = match findClass c k with
    | Some e => Some e
    | None => querySelector c r
    end.
Proof. reflexivity. Qed.

Lemma bold_noTitle (t : string) : findClass "drug-title" (bold t) = None.
Proof. reflexivity. Qed.

Lemma ul_noTitle (items : list string) :
  findClass "drug-title" (ul items) = None.
Proof.
  unfold ul. rewrite findClass_kids by reflexivity. apply items_noTitle.
Qed.

Lemma listSection_noTitle (title : string) (items : list string) :
  noTitle [section [bold title; ul items]].
Proof.
  unfold noTitle, section.
  rewrite querySelector_cons, findClass_kids by reflexivity.
  rewrite querySelector_cons, bold_noTitle.
  rewrite querySelector_cons, ul_noTitle.
  reflexivity.
Qed.

(** No element [renderDrug] writes carries the class [drug-title]. *)
Lemma drugHtml_noTitle (d : MergedRecord) : noTitle (drugHtml d).
Proof.
  unfold drugHtml.
  repeat apply noTitle_app; try reflexivity.
  - destruct (truthy (m_dosage_official d)); reflexivity.
  - destruct (m_uses_local d); [reflexivity | apply listSection_noTitle].
  - destruct (m_uses_official d); [reflexivity | apply listSection_noTitle].
  - destruct (m_adrs_local d); [reflexivity | apply listSection_noTitle].
  - destruct (m_adrs_reported d); [reflexivity | apply listSection_noTitle].
Qed.

(** Nor does any element [renderQuickCard] writes. *)
Lemma quickCard_noTitle (idx : Index) (parsed : Candidate) :
  noTitle (quickCard idx parsed).
Proof.
  unfold quickCard.
  destruct (drapIndex_get idx (toLowerCase (c_name parsed)));
    [reflexivity|].
  destruct (truthy (c_batch parsed)), (truthy (c_expiry parsed));
    reflexivity.
Qed.

Lemma fetchAndRenderDrug_card (P : Platform) (parsed : Candidate)
  (st : State) :
  let st' := snd (fetchAndRenderDrug P parsed st) in
  noTitle (drugCard st') /\ lastParsed st' = lastParsed st
  /\ drapIndex st' = drapIndex st.
Proof.
  destruct (string_dec (trim (c_name parsed)) "") as [He|Hn].
  - rewrite (fetchAndRenderDrug_noName P parsed st He).
    repeat split.
  - destruct (lookupLocal (drapIndex st) (trim (c_name parsed)))
      as [d|] eqn:Hl.
    + rewrite (fetchAndRenderDrug_local P parsed st Hn Hl). simpl.
      repeat split. apply drugHtml_noTitle.
    + rewrite (fetchAndRenderDrug_fallback P parsed st Hn Hl).
      cbv zeta. unfold rendered.
      cbn [snd drugCard lastParsed drapIndex with_doseWarning with_drugCard].
      repeat split.
      * apply drugHtml_noTitle.
      * apply lastParsed_logged.
      * apply drapIndex_logged.
Qed.

(* ===================================================================== *)
(** * The drug named by a report *)
(* ===================================================================== *)

Lemma run_app (P : Platform) (a b : list Event) (st : State) :
  run P (a ++ b) st = run P b (run P a st).
Proof. unfold run. apply fold_left_app. Qed.

Lemma handle_noTitle (P : Platform) (e : Event) (st : State) :
  noTitle (drugCard st) -> noTitle (drugCard (handle P e st)).
Proof.
  intros H. destruct e as [raw|parsed|f c|b]; simpl.
  - apply quickCard_noTitle.
  - apply fetchAndRenderDrug_card.
  - rewrite submitReport_run. simpl.
    destruct (missingRequired (newReport st f c)); exact H.
  - rewrite clearAll_run. destruct b; exact H.
Qed.

Lemma handle_lastParsed (P : Platform) (e : Event) (st : State) :
  scanBegins e = false -> lastParsed (handle P e st) = lastParsed st.
Proof.
  destruct e as [raw|parsed|f c|b]; simpl; [discriminate| | |]; intros _.
  - apply fetchAndRenderDrug_card.
  - rewrite submitReport_run. simpl.
    destruct (missingRequired (newReport st f c)); reflexivity.
  - rewrite clearAll_run. destruct b; reflexivity.
Qed.

Lemma run_between_scans (P : Platform) (es : list Event) (st : State) :
  forallb (fun e => negb (scanBegins e)) es = true ->
  noTitle (drugCard st) ->
  noTitle (drugCard (run P es st)) /\ lastParsed (run P es st) = lastParsed st.
Proof.
  revert st. induction es as [|e es IH]; intros st Hes Hst; simpl.
  - now split.
  - simpl in Hes. apply andb_true_iff in Hes. destruct Hes as [He Hes].
    apply negb_true_iff in He.
    destruct (IH (handle P e st) Hes (handle_noTitle P e st Hst))
      as [Hcard Hlast].
    split; [exact Hcard|].
    unfold run in *. simpl. rewrite Hlast. now apply handle_lastParsed.
Qed.

Lemma newReport_drug (st : State) (f : Form) (c : Clock) :
  noTitle (drugCard st) ->
  rep_drug (newReport st f c) = orUnknown (c_name (lastParsed st)).
Proof.
  intros H. unfold newReport. cbn [rep_drug]. unfold noTitle in H.
  rewrite H. rewrite or_else_empty_left.
  destruct (c_name (lastParsed st)); reflexivity.
Qed.

Lemma finalReport_drug (st : State) (f : Form) (c : Clock) :
  rep_drug (finalReport st f c) = rep_drug (newReport st f c).
Proof.
  unfold finalReport.
  destruct (evaluateDose _ _ _); reflexivity.
Qed.

Lemma finalReport_highDose (st : State) (f : Form) (c : Clock) :
  rep_highDose (finalReport st f c)
  = evaluateDose (drapIndex st) (rep_drug (newReport st f c))
                 (p_amount_mg f).
Proof.
  unfold finalReport.
  destruct (evaluateDose _ _ _); reflexivity.
Qed.

Lemma accepted_reports (st : State) (f : Form) (c : Clock) :
  readAllReports (accepted st f c)
  = map jsonValue (readAllReports st) ++ [jsonValue (finalReport st f c)].
Proof.
  unfold accepted, readAllReports at 1. cbn [localStorage with_historyList
    with_effect with_localStorage].
  now rewrite map_app.
Qed.

(** C4.  Once a scan has begun, whatever happened before and whatever
    renders, submissions and clears follow it, the card holds no element
    of class [drug-title]; the report built at a submission names the
    candidate of that last scan (or "Unknown" when its name is empty),
    the high-dose flag is computed for that name, and the stored report
    carries it.  No markup of [renderDrug] holds such an element. *)
Theorem report_names_last_candidate :
  forall (P : Platform) (st0 : State) (before after : list Event)
         (raw : string) (f : Form) (c : Clock),
    forallb (fun e => negb (scanBegins e)) after = true ->
    let st := run P (before ++ ScanBegins raw :: after) st0 in
    let name := c_name (parsePayload P raw) in
    lastParsed st = parsePayload P raw
    /\ querySelector "drug-title" (drugCard st) = None
    /\ rep_drug (newReport st f c) = orUnknown name
    /\ rep_highDose (finalReport st f c)
       = evaluateDose (drapIndex st) (orUnknown name) (p_amount_mg f)
    /\ (missingRequired (newReport st f c) = false ->
        exists r,
          readAllReports (snd (submitReport f c st))
          = map jsonValue (readAllReports st) ++ [r]
          /\ rep_drug r = orUnknown name)
    /\ (forall d, querySelector "drug-title" (drugHtml d) = None).
Proof.
  intros P st0 before after raw f c Hafter st name.
  assert (Hscan : noTitle (drugCard (handle P (ScanBegins raw)
                                            (run P before st0)))
                  /\ lastParsed (handle P (ScanBegins raw) (run P before st0))
                     = parsePayload P raw).
  { simpl. split; [apply quickCard_noTitle | reflexivity]. }
  destruct Hscan as [Hcard Hlast].
  destruct (run_between_scans P after _ Hafter Hcard) as [Hcard' Hlast'].
  assert (Hst : st = run P after (handle P (ScanBegins raw)
                                         (run P before st0))).
  { subst st. now rewrite run_app. }
  rewrite <- Hst in Hcard', Hlast'.
  assert (Hdrug : rep_drug (newReport st f c) = orUnknown name).
  { rewrite (newReport_drug st f c Hcard'), Hlast', Hlast. reflexivity. }
  split; [now rewrite Hlast'|].
  split; [exact Hcard'|].
  split; [exact Hdrug|].
  split; [now rewrite finalReport_highDose, Hdrug|].
  split; [|exact drugHtml_noTitle].
  intros Hvalid. exists (jsonValue (finalReport st f c)).
  rewrite submitReport_run, Hvalid. cbn [snd].
  split; [apply accepted_reports|].
  unfold jsonValue. cbn [rep_drug]. now rewrite finalReport_drug.
Qed.

Lemma report_names_last_candidate_witness :
  let P := Sample.localOnly [Sample.panadol] in
  let parsed := parsePayload P "panadol" in
  let st := run P [ScanBegins "panadol"; ScanEnds parsed] (Sample.loaded P) in
  fst (fetchAndRenderDrug P parsed (Sample.loaded P))
  = Ret (Some (merge "panadol" parsed (Some Sample.panadol) [] [] ""))
  /\ m_name (merge "panadol" parsed (Some Sample.panadol) [] [] "")
     = "Panadol"
  /\ rep_drug (newReport st (Sample.form (Num 5000)) Sample.clock)
     = "panadol".
Proof.
  split; [reflexivity|]. split; [reflexivity|].
  apply (report_names_last_candidate
           (Sample.localOnly [Sample.panadol])
           (Sample.loaded (Sample.localOnly [Sample.panadol])) []
           [ScanEnds (parsePayload (Sample.localOnly [Sample.panadol])
                                   "panadol")] "panadol"
           (Sample.form (Num 5000)) Sample.clock).
  reflexivity.
Defined.

(* ===================================================================== *)
(** * When the fallback runs *)
(* ===================================================================== *)

Lemma effects_rendered (st : State) (m : MergedRecord) :
  effects (rendered st m) = effects st.
Proof. reflexivity. Qed.

(** C5.  A resolution sends a request to openFDA only when the local
    lookup found nothing: with a local match it sends none and the record
    it renders has no official uses and no reported reactions; without
    one (and with a name) it sends the label request and the events
    request. *)
Theorem fallback_only_without_local_match :
  forall (P : Platform) (raw : string) (st : State),
    let name := trim (c_name (parsePayload P raw)) in
    let res := handleScanned P raw st in
    exists new,
      effects (snd res) = effects st ++ new
      /\ (forall d, name <> "" ->
                    lookupLocal (drapIndex st) name = Some d ->
                    new = []
                    /\ exists m, fst res = Ret (Some m)
                                 /\ m_uses_official m = []
                                 /\ m_adrs_reported m = [])
      /\ (name <> "" -> lookupLocal (drapIndex st) name = None ->
          In (Fetched (LabelQuery name)) new
          /\ In (Fetched (EventQuery name)) new)
      /\ (forall q, In (Fetched q) new ->
                    name <> "" /\ lookupLocal (drapIndex st) name = None).
Proof.
  intros P raw st name res. subst res.
  rewrite handleScanned_run, beginScan_run. cbn [snd].
  set (st1 := with_drugCard _ _).
  assert (Hidx : drapIndex st1 = drapIndex st) by reflexivity.
  assert (Heff : effects st1 = effects st) by reflexivity.
  destruct (string_dec name "") as [He|Hn].
  - exists []. rewrite (fetchAndRenderDrug_noName P _ st1 He).
    cbn [snd fst]. rewrite app_nil_r.
    split; [reflexivity|]. split; [intros d Hn; contradiction|].
    split; [intros Hn; contradiction | intros q []].
  - destruct (lookupLocal (drapIndex st) name) as [d|] eqn:Hl.
    + exists [].
      rewrite (@fetchAndRenderDrug_local P _ st1 d Hn);
        [|rewrite Hidx; exact Hl].
      cbv zeta. cbn [snd fst]. rewrite effects_rendered, app_nil_r.
      split; [exact Heff|].
      split; [|split; [discriminate | intros q []]].
      intros d' _ _. split; [reflexivity|].
      eexists. split; [reflexivity|]. split; reflexivity.
    + rewrite (fetchAndRenderDrug_fallback P _ st1 Hn);
        [|rewrite Hidx; exact Hl].
      cbv zeta. cbn [snd fst]. rewrite effects_rendered, effects_logged.
      eexists. split; [rewrite Heff; reflexivity|].
      split; [discriminate|].
      split; [|intros q _; now split].
      intros _ _. fold name. split.
      * now left.
      * apply in_or_app. right. now left.
Qed.

Lemma fallback_only_without_local_match_witness :
  let P := Sample.localOnly [Sample.panadol] in
  let st := Sample.loaded P in
  lookupLocal (drapIndex st) "paracet" = Some Sample.panadol
  /\ exists new,
       effects (snd (handleScanned P "paracet" st)) = effects st ++ new
       /\ new = []
       /\ exists m, fst (handleScanned P "paracet" st) = Ret (Some m)
                    /\ m_uses_official m = [] /\ m_adrs_reported m = [].
Proof.
  split; [reflexivity|].
  destruct (fallback_only_without_local_match
              (Sample.localOnly [Sample.panadol]) "paracet"
              (Sample.loaded (Sample.localOnly [Sample.panadol])))
    as [new [Heff [Hlocal _]]].
  exists new. split; [exact Heff|].
  apply (Hlocal Sample.panadol); [discriminate | reflexivity].
Defined.

(* ===================================================================== *)
(** * The payload parser *)
(* ===================================================================== *)

Lemma or_value_cases (a : option Untyped.Value) (b : Untyped.Value) :
  (forall v, a = Some v -> Untyped.toBoolean v = true ->
             Untyped.or_value a b = v)
  /\ (falsy a = true -> Untyped.or_value a b = b).
Proof.
  split.
  - intros v -> Hv. unfold Untyped.or_value. now rewrite Hv.
  - destruct a as [v|]; [|reflexivity]. simpl. intros H.
    apply negb_true_iff in H. now rewrite H.
Qed.

(** The value line 170 converts: the first of [drugName], [name] and
    [productName] that is truthy, else the empty string. *)
Lemma nameOf_first_truthy (o : Untyped.Value) :
  (forall v, Untyped.prop o "drugName" = Some v ->
             Untyped.toBoolean v = true -> Untyped.nameOf o = v)
  /\ (falsy (Untyped.prop o "drugName") = true ->
      forall v, Untyped.prop o "name" = Some v ->
                Untyped.toBoolean v = true -> Untyped.nameOf o = v)
  /\ (falsy (Untyped.prop o "drugName") = true ->
      falsy (Untyped.prop o "name") = true ->
      forall v, Untyped.prop o "productName" = Some v ->
                Untyped.toBoolean v = true -> Untyped.nameOf o = v)
  /\ (falsy (Untyped.prop o "drugName") = true ->
      falsy (Untyped.prop o "name") = true ->
      falsy (Untyped.prop o "productName") = true ->
      Untyped.nameOf o = Untyped.JString "").
Proof.
  unfold Untyped.nameOf. repeat split.
  - intros v Hv Ht. now apply or_value_cases.
  - intros H1 v Hv Ht. rewrite (proj2 (or_value_cases _ _) H1).
    now apply or_value_cases.
  - intros H1 H2 v Hv Ht. rewrite (proj2 (or_value_cases _ _) H1).
    rewrite (proj2 (or_value_cases _ _) H2). now apply or_value_cases.
  - intros H1 H2 H3. rewrite (proj2 (or_value_cases _ _) H1).
    rewrite (proj2 (or_value_cases _ _) H2).
    now rewrite (proj2 (or_value_cases _ _) H3).
Qed.

(** [parsePayload] on a payload that decodes: by the text of the first
    truthy name. *)
Lemma parsePayload_decoded (nt : Q -> string)
  (parse : string -> option Untyped.Value) (raw : string)
  (o : Untyped.Value) :
  parse raw = Some o ->
  Untyped.parsePayload nt parse raw
  = match Untyped.toText nt (Untyped.nameOf o) with
    | Ret EmptyString =>
        Untyped.mkCandidate raw
          (match Regex.m10 raw with
           | Some b => Untyped.JString b
           | None => Untyped.batchOf o
           end)
          (match Regex.m17 raw with
           | Some e => Untyped.JString e
           | None => Untyped.expiryOf o
           end)
    | Ret name =>
        Untyped.mkCandidate name (Untyped.batchOf o) (Untyped.expiryOf o)
    | Throw =>
        Untyped.mkCandidate raw
          (match Regex.m10 raw with
           | Some b => Untyped.JString b
           | None => Untyped.JString ""
           end)
          (match Regex.m17 raw with
           | Some e => Untyped.JString e
           | None => Untyped.JString ""
           end)
    end.
Proof.
  intros Ho. unfold Untyped.parsePayload, Untyped.decoded. rewrite Ho.
  destruct o as [|b|n|s|items|members]; try reflexivity.
  destruct (Untyped.toText nt (Untyped.nameOf (Untyped.JObject members)))
    as [[|c s]|]; reflexivity.
Qed.

(** C6, as stated, fails: [{"drugName":[],"name":"Panadol"}] decodes to an
    object whose [name] is the non-empty string ["Panadol"], but line 170
    stops at [drugName], an empty array, which is truthy and whose text
    is empty; line 173 does not return, and the candidate is named by the
    raw payload. *)
Lemma empty_array_name_counterexample :
  let raw := RawSample.emptyArrayName in
  let o := Untyped.JObject [("drugName", Untyped.JArray []);
                            ("name", Untyped.JString "Panadol")] in
  RawSample.parse raw = Some o
  /\ Untyped.prop o "name" = Some (Untyped.JString "Panadol")
  /\ (forall nt,
        Untyped.parsePayload nt RawSample.parse raw
        = Untyped.mkCandidate raw (Untyped.JString "") (Untyped.JString ""))
  /\ raw <> "Panadol".
Proof.
  repeat split; try reflexivity. discriminate.
Qed.

(** C6, amended.  When the payload decodes, line 170 takes the first of
    the properties [drugName], [name] and [productName] that is truthy
    and converts it to text.  When that text is not empty, [parsePayload]
    returns it as the name, with batch and expiry as the object gives
    them ([batch], else [lot], else empty; [expiry], else empty): the
    segment patterns are not consulted.  For string properties this is
    the first non-empty of the three names.  When the text is empty or
    the conversion throws, no later name is consulted and the payload is
    handled as an unstructured one: the name is the raw text. *)
Theorem structured_name_is_first_truthy_text :
  forall (numberText : Q -> string) (parse : string -> option Untyped.Value)
         (raw : string) (o : Untyped.Value),
    parse raw = Some o ->
    let c := Untyped.parsePayload numberText parse raw in
    let first := Untyped.nameOf o in
    (forall name, Untyped.toText numberText first = Ret name ->
                  name <> "" ->
                  c = Untyped.mkCandidate name (Untyped.batchOf o)
                                          (Untyped.expiryOf o))
    /\ (forall name, first = Untyped.JString name -> name <> "" ->
                     c = Untyped.mkCandidate name (Untyped.batchOf o)
                                             (Untyped.expiryOf o))
    /\ ((forall v, Untyped.prop o "drugName" = Some v ->
                   Untyped.toBoolean v = true -> first = v)
        /\ (falsy (Untyped.prop o "drugName") = true ->
            forall v, Untyped.prop o "name" = Some v ->
                      Untyped.toBoolean v = true -> first = v)
        /\ (falsy (Untyped.prop o "drugName") = true ->
            falsy (Untyped.prop o "name") = true ->
            forall v, Untyped.prop o "productName" = Some v ->
                      Untyped.toBoolean v = true -> first = v)
        /\ (falsy (Untyped.prop o "drugName") = true ->
            falsy (Untyped.prop o "name") = true ->
            falsy (Untyped.prop o "productName") = true ->
            first = Untyped.JString ""))
    /\ ((forall v, Untyped.prop o "batch" = Some v ->
                   Untyped.toBoolean v = true -> Untyped.batchOf o = v)
        /\ (falsy (Untyped.prop o "batch") = true ->
            forall v, Untyped.prop o "lot" = Some v ->
                      Untyped.toBoolean v = true -> Untyped.batchOf o = v)
        /\ (falsy (Untyped.prop o "batch") = true ->
            falsy (Untyped.prop o "lot") = true ->
            Untyped.batchOf o = Untyped.JString "")
        /\ (forall v, Untyped.prop o "expiry" = Some v ->
                      Untyped.toBoolean v = true -> Untyped.expiryOf o = v)
        /\ (falsy (Untyped.prop o "expiry") = true ->
            Untyped.expiryOf o = Untyped.JString ""))
    /\ (Untyped.toText numberText first = Ret ""
        \/ Untyped.toText numberText first = Throw ->
        Untyped.c_name c = raw).
Proof.
  intros nt parse raw o Ho c first. subst c first.
  rewrite (parsePayload_decoded nt parse raw Ho).
  split; [|split; [|split; [|split]]].
  - intros name -> Hname. destruct name; [contradiction | reflexivity].
  - intros name -> Hname. cbn [Untyped.toText].
    destruct name; [contradiction | reflexivity].
  - apply nameOf_first_truthy.
  - unfold Untyped.batchOf, Untyped.expiryOf. repeat split.
    + intros v Hv Ht. now apply or_value_cases.
    + intros H1 v Hv Ht. rewrite (proj2 (or_value_cases _ _) H1).
      now apply or_value_cases.
    + intros H1 H2. rewrite (proj2 (or_value_cases _ _) H1).
      now rewrite (proj2 (or_value_cases _ _) H2).
    + intros v Hv Ht. now apply or_value_cases.
    + intros H. now rewrite (proj2 (or_value_cases _ _) H).
  - intros [-> | ->]; reflexivity.
Qed.

Lemma structured_name_is_first_truthy_text_witness :
  let raw := Sample.namedWithSegments in
  Regex.m10 raw = Some "LOT42" /\ Regex.m17 raw = Some "261231"
  /\ forall nt,
       Untyped.parsePayload nt RawSample.parse raw
       = Untyped.mkCandidate "Panadol" (Untyped.JString "")
                             (Untyped.JString "").
Proof.
  split; [reflexivity|]. split; [reflexivity|]. intros nt.
  assert (Ho : RawSample.parse Sample.namedWithSegments
               = Some (Untyped.JObject
                         [("name", Untyped.JString "Panadol");
                          ("gs1", Untyped.JString "(10)LOT42(17)261231")]))
    by (vm_compute; reflexivity).
  apply (proj1 (proj2 (structured_name_is_first_truthy_text
                         nt RawSample.parse Sample.namedWithSegments Ho))
               "Panadol"); [reflexivity | discriminate].
Defined.




(* ===================================================================== *)
(** * The report log *)
(* ===================================================================== *)

(** Every stored report is a value JSON can hold. *)
Lemma jsonValue_idempotent (r : Report) : jsonValue (jsonValue r) = jsonValue r.
Proof.
  unfold jsonValue. cbn.
  destruct (rep_amountMg r) as [[q| | | |]|]; reflexivity.
Qed.


Lemma map_jsonValue_stored (l : list Report) :
  Forall (fun r => jsonValue r = r) l -> map jsonValue l = l.
Proof.
  induction 1 as [|r l Hr _ IH]; simpl; [reflexivity|].
  now rewrite Hr, IH.
Qed.




(** The log only ever holds values JSON can hold. *)
Lemma handle_stored (P : Platform) (e : Event) (st : State) :
  Forall (fun r => jsonValue r = r) (readAllReports st) ->
  Forall (fun r => jsonValue r = r) (readAllReports (handle P e st)).
Proof.
  intros H. destruct e as [raw|parsed|f c|b]; simpl.
  - exact H.
  - destruct (string_dec (trim (c_name parsed)) "") as [He|Hn].
    + now rewrite (fetchAndRenderDrug_noName P parsed st He).
    + destruct (lookupLocal (drapIndex st) (trim (c_name parsed)))
        as [d|] eqn:Hl.
      * now rewrite (fetchAndRenderDrug_local P parsed st Hn Hl).
      * rewrite (fetchAndRenderDrug_fallback P parsed st Hn Hl).
        cbv zeta. unfold rendered, readAllReports in *.
        cbn [snd localStorage with_doseWarning with_drugCard].
        now rewrite localStorage_logged.
  - rewrite submitReport_run. cbn [snd].
    destruct (missingRequired (newReport st f c)); [exact H|].
    rewrite accepted_reports, (map_jsonValue_stored H).
    apply Forall_app. split; [exact H|].
    constructor; [apply jsonValue_idempotent | constructor].
  - rewrite clearAll_run. destruct b; [constructor | exact H].
Qed.

(* ===================================================================== *)
(** * Validation *)
(* ===================================================================== *)

Lemma missingRequired_true (st : State) (f : Form) (c : Clock) :
  missingRequired (newReport st f c) = true <->
  trim (p_name f) = "" \/ trim (p_age f) = "" \/ trim (p_gender f) = ""
  \/ trim (p_condition f) = "" \/ trim (p_severity f) = ""
  \/ trim (p_desc f) = "".
Proof.
  unfold missingRequired, newReport.
  cbn [rep_patientName rep_age rep_gender rep_condition rep_severity
       rep_description].
  rewrite !orb_true_iff, !negb_true_iff, !truthy_false. tauto.
Qed.

(** C10.  A submission in which the patient name, age, gender, condition,
    severity or description is empty once trimmed does nothing but raise
    the alert: the handler returns before it reads or writes the stored
    log, and every part of the state other than the record of the alert
    is as it was. *)
Theorem missing_field_rejected :
  forall (st : State) (f : Form) (c : Clock),
    trim (p_name f) = "" \/ trim (p_age f) = "" \/ trim (p_gender f) = ""
    \/ trim (p_condition f) = "" \/ trim (p_severity f) = ""
    \/ trim (p_desc f) = "" ->
    submitReport f c st
    = (Ret tt, with_effect st (Alerted "Please fill required fields."))
    /\ localStorage (snd (submitReport f c st)) = localStorage st
    /\ readAllReports (snd (submitReport f c st)) = readAllReports st
    /\ historyList (snd (submitReport f c st)) = historyList st
    /\ effects (snd (submitReport f c st))
       = effects st ++ [Alerted "Please fill required fields."]
    /\ (forall arr, ~ In (StorageSet arr)
                         [Alerted "Please fill required fields."]).
Proof.
  intros st f c Hmissing.
  apply (missingRequired_true st f c) in Hmissing.
  rewrite submitReport_run, Hmissing. cbn [snd].
  repeat split.
  intros arr [H|[]]. discriminate H.
Qed.

Lemma missing_field_rejected_witness :
  let f := mkForm (Num 500) "" "   " "34" "F" "" "Fever" "Mild" "Rash" in
  localStorage (snd (submitReport f Sample.clock Sample.blankPage))
  = localStorage Sample.blankPage.
Proof.
  apply (missing_field_rejected Sample.blankPage
           (mkForm (Num 500) "" "   " "34" "F" "" "Fever" "Mild" "Rash")
           Sample.clock).
  left. reflexivity.
Defined.

(* ===================================================================== *)
(** * Failures *)
(* ===================================================================== *)

Lemma loadDrapLocal_run (P : Platform) (st : State) :
  exists es,
    loadDrapLocal P st
    = (Ret tt,
       logged (with_drapIndex st
                 match fetchDrap P with
                 | Some (mkResponse true (Some arr)) => buildIndex arr
                 | _ => JSObject.empty DrugRecord
                 end) es).
Proof.
  unfold loadDrapLocal. run_M.
  destruct (fetchDrap P) as [[[|] [arr|]]|]; simpl.
  - now exists [Fetched DrapFile].
  - now exists [Fetched DrapFile; Warned "Failed load drap"].
  - now exists [Fetched DrapFile; Warned "DRAP file not found"].
  - now exists [Fetched DrapFile; Warned "DRAP file not found"].
  - now exists [Fetched DrapFile; Warned "Failed load drap"].
Qed.

Lemma loadDrapLocal_index (P : Platform) (st : State) :
  fst (loadDrapLocal P st) = Ret tt
  /\ drapIndex (snd (loadDrapLocal P st))
     = match fetchDrap P with
       | Some (mkResponse true (Some arr)) => buildIndex arr
       | _ => JSObject.empty DrugRecord
       end.
Proof.
  destruct (loadDrapLocal_run P st) as [es ->]. cbn [fst snd].
  split; [reflexivity|]. now rewrite drapIndex_logged.
Qed.

Lemma noData_labelResult (r : option (Response (option LabelDoc))) :
  noData r = true -> labelResult r = ([], "").
Proof. destruct r as [[[|] [j|]]|]; simpl; congruence. Qed.

Lemma noData_eventsResult (r : option (Response (list (list string)))) :
  noData r = true -> eventsResult r = [].
Proof. destruct r as [[[|] [j|]]|]; simpl; congruence. Qed.

(** A request that fails is recovered from.  [loadDrapLocal] always
    returns, and leaves the index empty when the request for the dataset
    is rejected, is answered with a status that is not ok, or has a body
    that does not parse.  A label request that fails so leaves the uses
    and the dosage empty, an events request that fails so leaves the
    reactions empty, and neither touches what the other brought.  On an
    empty index, resolving ["Amoxicillin"] renders a record named
    ["Amoxicillin"], manufacturer ["Unknown"], carrying what the two
    requests brought, and all empty when both failed. *)
Lemma failed_requests_leave_empty_results :
  (forall (P : Platform) (st : State),
      fst (loadDrapLocal P st) = Ret tt
      /\ (noData (fetchDrap P) = true ->
          drapIndex (snd (loadDrapLocal P st)) = JSObject.empty DrugRecord))
  /\ (forall (P : Platform) (name : string) (st : State),
         (exists v, fst (labelBlock P name st) = Ret v)
         /\ (exists v, fst (eventsBlock P name st) = Ret v)
         /\ (noData (fetchLabel P name) = true ->
             fst (labelBlock P name st) = Ret ([], ""))
         /\ (noData (fetchEvents P name) = true ->
             fst (eventsBlock P name st) = Ret []))
  /\ (forall (P : Platform) (st : State),
         drapIndex st = JSObject.empty DrugRecord ->
         let name := "Amoxicillin" in
         exists m,
           fst (handleScanned P name st) = Ret (Some m)
           /\ m_name m = name
           /\ m_manufacturer m = "Unknown"
           /\ m_uses_official m = fst (labelResult (fetchLabel P name))
           /\ m_dosage_official m = snd (labelResult (fetchLabel P name))
           /\ m_adrs_reported m = eventsResult (fetchEvents P name)
           /\ (noData (fetchLabel P name) = true ->
               m_uses_official m = [] /\ m_dosage_official m = ""
               /\ m_adrs_reported m = eventsResult (fetchEvents P name))
           /\ (noData (fetchEvents P name) = true ->
               m_adrs_reported m = []
               /\ m_uses_official m = fst (labelResult (fetchLabel P name)))
           /\ (noData (fetchLabel P name) = true ->
               noData (fetchEvents P name) = true ->
               m = mkMerged name "Unknown" "" "" [] [] [] [] "" None)).
Proof.
  split.
  { intros P st. destruct (loadDrapLocal_index P st) as [Hret Hidx].
    split; [exact Hret|]. rewrite Hidx. intros Hf.
    destruct (fetchDrap P) as [[[|] [arr|]]|]; simpl in Hf;
      congruence. }
  split.
  { intros P name st. rewrite labelBlock_run, eventsBlock_run. cbn [fst].
    split; [eauto|]. split; [eauto|].
    split; intros Hf;
      [now rewrite (noData_labelResult _ Hf)
      | now rewrite (noData_eventsResult _ Hf)]. }
  intros P st Hidx name.
  rewrite handleScanned_run, beginScan_run.
  rewrite (parsePayload_plain P name eq_refl). cbn [snd].
  rewrite fetchAndRenderDrug_fallback;
    [|discriminate
     |cbn [drapIndex with_drugCard with_lastParsed]; rewrite Hidx;
      reflexivity].
  cbv zeta. cbn [fst].
  change (trim (c_name (Spec.parseRaw name))) with name.
  eexists. split; [reflexivity|].
  unfold merge. cbn [m_name m_manufacturer m_uses_official
                       m_dosage_official m_adrs_reported localStr].
  rewrite !or_else_empty_left, or_else_empty_right.
  split; [reflexivity|]. split; [reflexivity|]. split; [reflexivity|].
  split; [reflexivity|]. split; [reflexivity|].
  split.
  { intros Hf. now rewrite (noData_labelResult _ Hf). }
  split.
  { intros Hf. now rewrite (noData_eventsResult _ Hf). }
  intros Hl He.
  rewrite (noData_labelResult _ Hl), (noData_eventsResult _ He).
  reflexivity.
Qed.

Lemma amoxicillin_without_label :
  let P := Sample.labelDown in
  exists m,
    fst (handleScanned P "Amoxicillin" (Sample.loaded P)) = Ret (Some m)
    /\ m_name m = "Amoxicillin"
    /\ m_uses_official m = []
    /\ m_adrs_reported m = ["NAUSEA"; "RASH"; "DIARRHOEA"].
Proof.
  destruct (proj2 (proj2 failed_requests_leave_empty_results)
              Sample.labelDown (Sample.loaded Sample.labelDown) eq_refl)
    as [m [Hret [Hname [_ [_ [_ [_ [Hlabel _]]]]]]]].
  exists m. split; [exact Hret|]. split; [exact Hname|].
  destruct (Hlabel eq_refl) as [Huses [_ Hadrs]].
  split; [exact Huses|]. rewrite Hadrs. reflexivity.
Qed.

(* ===================================================================== *)
(** * Escaping keeps text as text *)
(* ===================================================================== *)

Lemma append_assoc (a b c : string) :
  ((a ++ b) ++ c = a ++ b ++ c)%string.
Proof. induction a as [|x a IH]; simpl; [reflexivity | now rewrite IH]. Qed.

Lemma replaceAllChar_app (c : ascii) (rep a b : string) :
  replaceAllChar c rep (a ++ b)
  = (replaceAllChar c rep a ++ replaceAllChar c rep b)%string.
Proof.
  induction a as [|x a IH]; simpl; [reflexivity|].
  destruct (Ascii.eqb x c); rewrite IH;
    [symmetry; apply append_assoc | reflexivity].
Qed.

(** The three passes of [escapeHtml] act on each character by itself. *)
Lemma escapeHtml_cons (a : ascii) (r : string) :
  escapeHtml (Some (String a r))
  = ((if Ascii.eqb a "&" then "&amp;"
      else if Ascii.eqb a "<" then "&lt;"
      else if Ascii.eqb a ">" then "&gt;"
      else String a "") ++ escapeHtml (Some r))%string.
Proof.
  unfold escapeHtml. cbn [replaceAllChar].
  destruct (Ascii.eqb_spec a "&") as [->|Hamp].
  - rewrite !replaceAllChar_app. reflexivity.
  - cbn [replaceAllChar]. destruct (Ascii.eqb_spec a "<") as [->|Hlt].
    + rewrite replaceAllChar_app. reflexivity.
    + cbn [replaceAllChar]. destruct (Ascii.eqb_spec a ">") as [->|Hgt];
        reflexivity.
Qed.

Lemma forallChars_app (p : ascii -> bool) (a b : string) :
  forallChars p (a ++ b) = forallChars p a && forallChars p b.
Proof.
  induction a as [|x a IH]; simpl; [reflexivity|].
  now rewrite IH, andb_assoc.
Qed.

Lemma decode_escape (s : string) :
  decodeEntities 0 (escapeHtml (Some s)) = s.
Proof.
  induction s as [|a r IH]; [reflexivity|].
  rewrite escapeHtml_cons. revert IH.
  generalize (escapeHtml (Some r)). intros x IH.
  destruct (Ascii.eqb_spec a "&") as [->|Hamp]; [simpl; now rewrite IH|].
  destruct (Ascii.eqb_spec a "<") as [->|Hlt]; [simpl; now rewrite IH|].
  destruct (Ascii.eqb_spec a ">") as [->|Hgt]; [simpl; now rewrite IH|].
  cbn [append decodeEntities].
  apply Ascii.eqb_neq in Hamp. now rewrite Hamp, IH.
Qed.

(** X1.  Decoding the three character references gives back the string
    that was escaped, so [escapeHtml] loses nothing: two strings with the
    same escaped form are the same string. *)
Theorem escapeHtml_round_trip :
  (forall s : string, decodeEntities 0 (escapeHtml (Some s)) = s)
  /\ (forall a b : string,
         escapeHtml (Some a) = escapeHtml (Some b) -> a = b).
Proof.
  split; [exact decode_escape|].
  intros a b H. rewrite <- (decode_escape a), <- (decode_escape b).
  now rewrite H.
Qed.

(** X2.  Whatever it is given, [escapeHtml] returns a string without an
    angle bracket: an escaped value can open or close no tag. *)
Theorem escapeHtml_no_angle_bracket :
  forall s : option string,
    forallChars (fun c => negb (Ascii.eqb c "<" || Ascii.eqb c ">"))
                (escapeHtml s) = true.
Proof.
  intros [s|]; [|reflexivity].
  induction s as [|a r IH]; [reflexivity|].
  rewrite escapeHtml_cons, forallChars_app, IH, andb_true_r. clear IH.
  destruct (Ascii.eqb_spec a "&") as [->|Hamp]; [reflexivity|].
  destruct (Ascii.eqb_spec a "<") as [->|Hlt]; [reflexivity|].
  destruct (Ascii.eqb_spec a ">") as [->|Hgt]; [reflexivity|].
  cbn [forallChars]. apply Ascii.eqb_neq in Hlt, Hgt.
  now rewrite Hlt, Hgt.
Qed.

(* ===================================================================== *)
(** * The segment patterns *)
(* ===================================================================== *)

Lemma stripPrefix_append (p s rest : string) :
  Regex.stripPrefix p s = Some rest -> s = (p ++ rest)%string.
Proof.
  revert s. induction p as [|a p IH]; intros s; simpl.
  - now intros [= ->].
  - destruct s as [|b s]; [discriminate|].
    destruct (Ascii.eqb_spec a b) as [->|Hne]; [|discriminate].
    intros H. now rewrite (IH s H).
Qed.

Lemma search_found (A : Type) (here : string -> option A) (s : string)
  (r : A) :
  Regex.search here s = Some r ->
  exists pre suf, s = (pre ++ suf)%string /\ here suf = Some r.
Proof.
  induction s as [|c s IH]; simpl.
  - destruct (here "") eqn:E; [|discriminate].
    intros [= ->]. now exists "", "".
  - destruct (here (String c s)) eqn:E.
    + intros [= ->]. now exists "", (String c s).
    + intros H. destruct (IH H) as [pre [suf [-> Hs]]].
      now exists (String c pre), suf.
Qed.

Lemma span_splits (p : ascii -> bool) (s a b : string) :
  Regex.span p s = (a, b) ->
  s = (a ++ b)%string /\ forallChars p a = true.
Proof.
  revert a b. induction s as [|c s IH]; intros a b; simpl.
  - now intros [= <- <-].
  - destruct (p c) eqn:Ec.
    + destruct (Regex.span p s) as [a' b'].
      intros [= <- <-]. destruct (IH a' b' eq_refl) as [-> Ha].
      simpl. now rewrite Ec, Ha.
    + now intros [= <- <-].
Qed.

Lemma substring_prefix (n : nat) (s : string) :
  String.length (substring 0 n s) = n ->
  exists post, s = (substring 0 n s ++ post)%string.
Proof.
  revert s. induction n as [|n IH]; intros s.
  - intros _. exists s. destruct s; reflexivity.
  - destruct s as [|c s]; simpl; [discriminate|].
    intros [= H]. destruct (IH s H) as [post Hp].
    exists post. now rewrite <- Hp.
Qed.

(** X3.  A batch the pattern of line 178 captures is not empty, holds
    only capital letters, digits and hyphens, and stands in the payload
    right after [(10)] and right before an opening parenthesis or the end
    of the payload.  An expiry the pattern of line 180 captures is six
    digits standing right after [(17)]. *)
Theorem segment_patterns_sound :
  forall raw : string,
    (forall b, Regex.m10 raw = Some b ->
               b <> "" /\ forallChars Regex.batchChar b = true
               /\ exists pre post,
                    raw = (pre ++ "(10)" ++ b ++ post)%string
                    /\ (post = "" \/ startsWith post "(" = true))
    /\ (forall e, Regex.m17 raw = Some e ->
                  String.length e = 6
                  /\ forallChars JSObject.isDigit e = true
                  /\ exists pre post,
                       raw = (pre ++ "(17)" ++ e ++ post)%string).
Proof.
  intros raw. split.
  - intros b H. unfold Regex.m10 in H.
    destruct (search_found _ _ H) as [pre [suf [-> Hhere]]].
    unfold Regex.m10_here in Hhere.
    destruct (Regex.stripPrefix "(10)" suf) as [rest|] eqn:Hstrip;
      [|discriminate].
    apply stripPrefix_append in Hstrip. subst suf.
    destruct (Regex.span Regex.batchChar rest) as [run tail] eqn:Hspan.
    destruct (span_splits _ _ Hspan) as [-> Hrun].
    destruct run as [|c run]; [discriminate|].
    destruct tail as [|d tail].
    + injection Hhere as <-. split; [discriminate|]. split; [exact Hrun|].
      exists pre, "". split; [reflexivity | now left].
    + destruct (Ascii.eqb_spec d "(") as [->|Hne]; [|discriminate].
      injection Hhere as <-. split; [discriminate|]. split; [exact Hrun|].
      exists pre, (String "(" tail). split; [reflexivity | now right].
  - intros e H. unfold Regex.m17 in H.
    destruct (search_found _ _ H) as [pre [suf [-> Hhere]]].
    unfold Regex.m17_here in Hhere.
    destruct (Regex.stripPrefix "(17)" suf) as [rest|] eqn:Hstrip;
      [|discriminate].
    apply stripPrefix_append in Hstrip. subst suf.
    destruct (String.length (substring 0 6 rest) =? 6) eqn:Hlen;
      [|discriminate].
    destruct (JSObject.allDigits (substring 0 6 rest)) eqn:Hdig;
      [|discriminate].
    injection Hhere as <-. apply Nat.eqb_eq in Hlen.
    split; [exact Hlen|]. split.
    + clear - Hdig. induction (substring 0 6 rest) as [|c s IH];
        [reflexivity|].
      simpl in *. apply andb_true_iff in Hdig. destruct Hdig as [Hc Hs].
      now rewrite Hc, IH.
    + destruct (@substring_prefix 6 rest Hlen) as [post Hpost].
      exists pre, post. now rewrite Hpost at 1.
Qed.

Lemma segment_patterns_sound_witness :
  let raw := "(01)08901234567890(17)261231(10)LOT-42" in
  Regex.m10 raw = Some "LOT-42"
  /\ exists pre post, raw = (pre ++ "(10)" ++ "LOT-42" ++ post)%string
                      /\ (post = "" \/ startsWith post "(" = true).
Proof.
  split; [reflexivity|].
  apply (proj1 (segment_patterns_sound
                  "(01)08901234567890(17)261231(10)LOT-42") "LOT-42").
  reflexivity.
Defined.

(* ===================================================================== *)
(** * Blank names *)
(* ===================================================================== *)

Lemma startsWithBrace_nonempty (raw : string) :
  startsWithBrace raw = true -> raw <> "".
Proof. destruct raw; [discriminate | discriminate]. Qed.

Lemma parsePayload_name (P : Platform) (raw : string) :
  c_name (parsePayload P raw) = raw
  \/ (startsWithBrace raw = true /\ c_name (parsePayload P raw) <> "").
Proof.
  unfold parsePayload, JSON_parse.
  destruct (startsWithBrace raw) eqn:Hb; [|now left].
  destruct (decodeObject P raw) as [o|]; [|now left].
  cbn [c_name].
  destruct (truthy (o_drugName o ||| o_name o ||| o_productName o ||| ""))
    eqn:Hn; [|now left].
  right. split; [reflexivity|]. cbn [c_name]. now apply truthy_true.
Qed.

(** X4.  Only the empty payload parses to a candidate without a name, and
    a resolution ends without a record ("No drug name detected.") exactly
    when the candidate's name is blank; for a payload that does not open
    with a brace, exactly when the payload is blank. *)
Theorem no_record_only_for_blank_name :
  forall (P : Platform) (raw : string) (st : State),
    (c_name (parsePayload P raw) = "" <-> raw = "")
    /\ (fst (handleScanned P raw st) = Ret None <->
        trim (c_name (parsePayload P raw)) = "")
    /\ (startsWithBrace raw = false ->
        (fst (handleScanned P raw st) = Ret None <-> trim raw = "")).
Proof.
  intros P raw st.
  assert (Hres : fst (handleScanned P raw st) = Ret None <->
                 trim (c_name (parsePayload P raw)) = "").
  { rewrite handleScanned_run, beginScan_run. cbn [snd].
    set (st1 := with_drugCard _ _).
    destruct (string_dec (trim (c_name (parsePayload P raw))) "")
      as [He|Hn].
    - rewrite (fetchAndRenderDrug_noName P _ st1 He). now split.
    - destruct (fetchAndRenderDrug_merges P (parsePayload P raw) st1 Hn)
        as [u [a [d ->]]].
      split; [discriminate | contradiction]. }
  split; [|split; [exact Hres|]].
  - destruct (parsePayload_name P raw) as [->|[Hb Hn]]; [reflexivity|].
    split; [contradiction|]. intros ->. discriminate Hb.
  - intros Hb. rewrite Hres.
    destruct (parsePayload_name P raw) as [->|[Hb' _]]; [reflexivity|].
    congruence.
Qed.

Lemma no_record_only_for_blank_name_witness :
  fst (handleScanned Sample.offline "   " Sample.blankPage) = Ret None.
Proof.
  apply (proj2 (proj2 (no_record_only_for_blank_name
                         Sample.offline "   " Sample.blankPage)));
    reflexivity.
Defined.

(* ===================================================================== *)
(** * Building the index *)
(* ===================================================================== *)

Lemma getOwn_set (V : Type) (o : JSObject.t V) (k k' : string) (v : V) :
  JSObject.getOwn (JSObject.set o k v) k'
  = if (k =? k')%string then Some v else JSObject.getOwn o k'.
Proof.
  induction o as [|[k0 v0] o IH]; simpl.
  - reflexivity.
  - destruct (String.eqb_spec k0 k) as [->|Hne]; simpl.
    + destruct (String.eqb_spec k k'); reflexivity.
    + destruct (String.eqb_spec k0 k') as [->|Hne'].
      * destruct (String.eqb_spec k k'); [congruence | reflexivity].
      * exact IH.
Qed.

Lemma getOwn_synonyms (d : DrugRecord) (syns : list string) (idx : Index)
  (k : string) :
  JSObject.getOwn
    (fold_left (fun i s => JSObject.set i (toLowerCase s) d) syns idx) k
  = if existsb (String.eqb k) (map toLowerCase syns) then Some d
    else JSObject.getOwn idx k.
Proof.
  revert idx. induction syns as [|s syns IH]; intros idx; simpl;
    [reflexivity|].
  rewrite IH, getOwn_set. rewrite (String.eqb_sym k).
  destruct (existsb (String.eqb k) (map toLowerCase syns));
    [now rewrite orb_true_r|].
  now rewrite orb_false_r.
Qed.

Lemma getOwn_addRecord (idx : Index) (d : DrugRecord) (k : string) :
  JSObject.getOwn (addRecord idx d) k
  = if writesKey k d then Some d else JSObject.getOwn idx k.
Proof.
  unfold addRecord, writesKey, keysOf. rewrite existsb_app.
  destruct (d_synonyms d) as [syns|].
  - rewrite getOwn_synonyms.
    destruct (existsb (String.eqb k) (map toLowerCase syns));
      [now rewrite orb_true_r|].
    rewrite orb_false_r.
    destruct (truthy (d_name d)); [|reflexivity].
    rewrite getOwn_set. cbn [existsb]. rewrite (String.eqb_sym k).
    now rewrite orb_false_r.
  - cbn [existsb]. rewrite orb_false_r.
    destruct (truthy (d_name d)); [|reflexivity].
    rewrite getOwn_set. cbn [existsb]. rewrite (String.eqb_sym k).
    now rewrite orb_false_r.
Qed.

Lemma find_append (A : Type) (f : A -> bool) (a b : list A) :
  find f (a ++ b)
  = match find f a with
    | Some x => Some x
    | None => find f b
    end.
Proof.
  induction a as [|x a IH]; simpl; [reflexivity|].
  destruct (f x); [reflexivity | exact IH].
Qed.

Lemma getOwn_addRecords (arr : list DrugRecord) (idx : Index)
  (k : string) :
  JSObject.getOwn (fold_left addRecord arr idx) k
  = match find (writesKey k) (rev arr) with
    | Some d => Some d
    | None => JSObject.getOwn idx k
    end.
Proof.
  revert idx. induction arr as [|d arr IH]; intros idx; [reflexivity|].
  cbn [fold_left rev]. rewrite IH, getOwn_addRecord.
  rewrite find_append.
  destruct (find (writesKey k) (rev arr)); [reflexivity|].
  cbn [find]. destruct (writesKey k d); reflexivity.
Qed.

Lemma last_record_wins_own (arr : list DrugRecord) (k : string) :
  JSObject.getOwn (buildIndex arr) k = find (writesKey k) (rev arr).
Proof.
  unfold buildIndex. rewrite getOwn_addRecords.
  destruct (find (writesKey k) (rev arr)); reflexivity.
Qed.

(** X5.  Take a dataset in which no record writes the key [__proto__]
    (an assignment to that key rebinds the prototype of the index and
    adds no property).  In the index built from it, a key holds the last
    record of the dataset that wrote it, by its lowercased name or by one
    of its lowercased synonyms, and holds nothing when no record wrote
    it: a record found under a key is a record of the dataset that wrote
    the key, and the record that ends the dataset is found under each of
    its keys. *)
Theorem last_record_wins :
  forall (arr : list DrugRecord) (k : string),
    (forall d, In d arr -> writesKey "__proto__" d = false) ->
    JSObject.getOwn (buildIndex arr) k = find (writesKey k) (rev arr)
    /\ (forall d, JSObject.getOwn (buildIndex arr) k = Some d ->
                  In d arr /\ In k (keysOf d))
    /\ (forall d, writesKey "__proto__" d = false -> In k (keysOf d) ->
                  JSObject.getOwn (buildIndex (arr ++ [d])) k = Some d)
    /\ JSObject.getOwn (buildIndex arr) "__proto__" = None.
Proof.
  intros arr k Hplain. split; [apply last_record_wins_own|]. split; [|split].
  - intros d. rewrite last_record_wins_own. intros H.
    apply find_some in H. destruct H as [Hin Hw]. split.
    + now apply in_rev.
    + unfold writesKey in Hw. apply existsb_exists in Hw.
      destruct Hw as [k' [Hk' Heq]]. apply String.eqb_eq in Heq.
      now subst k'.
  - intros d _ Hk. rewrite last_record_wins_own, rev_app_distr. cbn.
    assert (Hw : writesKey k d = true).
    { unfold writesKey. apply existsb_exists. exists k.
      split; [exact Hk | apply String.eqb_refl]. }
    now rewrite Hw.
  - rewrite last_record_wins_own.
    destruct (find (writesKey "__proto__") (rev arr)) as [d|] eqn:Hf;
      [|reflexivity].
    apply find_some in Hf. destruct Hf as [Hin Hw].
    apply in_rev in Hin. rewrite (Hplain d Hin) in Hw. discriminate Hw.
Qed.

Lemma last_record_wins_witness :
  (forall d, In d [Sample.negativeMax] -> writesKey "__proto__" d = false)
  /\ JSObject.getOwn (buildIndex ([Sample.negativeMax] ++ [Sample.panadol]))
                     "paracetamol"
     = Some Sample.panadol.
Proof.
  assert (Hplain : forall d, In d [Sample.negativeMax] ->
                             writesKey "__proto__" d = false)
    by (intros d [<-|[]]; reflexivity).
  split; [exact Hplain|].
  apply (proj1 (proj2 (proj2 (@last_record_wins [Sample.negativeMax]
                                "paracetamol" Hplain)))).
  - reflexivity.
  - simpl. right. now left.
Defined.

Lemma toLowerCase_empty (s : string) : toLowerCase s = "" -> s = "".
Proof. destruct s; [reflexivity | discriminate]. Qed.

(** X6.  A candidate whose trimmed name is, up to letter case, the name
    of a record of the dataset resolves locally: the record rendered is
    merged with the last record of the dataset written under that key,
    and no request is sent. *)
Theorem dataset_name_resolves_locally :
  forall (P : Platform) (arr : list DrugRecord) (d : DrugRecord)
         (parsed : Candidate) (st : State),
    drapIndex st = buildIndex arr ->
    In d arr -> d_name d <> "" ->
    toLowerCase (trim (c_name parsed)) = toLowerCase (d_name d) ->
    let name := trim (c_name parsed) in
    exists d',
      find (writesKey (toLowerCase name)) (rev arr) = Some d'
      /\ fst (fetchAndRenderDrug P parsed st)
         = Ret (Some (merge name parsed (Some d') [] [] ""))
      /\ effects (snd (fetchAndRenderDrug P parsed st)) = effects st.
Proof.
  intros P arr d parsed st Hidx Hd Hname Hlc name.
  assert (Hn : name <> "").
  { intros He. subst name. rewrite He in Hlc. simpl in Hlc.
    symmetry in Hlc. now apply toLowerCase_empty in Hlc. }
  destruct (find (writesKey (toLowerCase name)) (rev arr)) as [d'|] eqn:Hf.
  - exists d'. split; [reflexivity|].
    assert (Hl : lookupLocal (drapIndex st) name = Some d').
    { unfold lookupLocal, drapIndex_get.
      now rewrite Hidx, last_record_wins_own, Hf. }
    subst name. rewrite (fetchAndRenderDrug_local P parsed st Hn Hl).
    split; reflexivity.
  - exfalso.
    assert (Hw : writesKey (toLowerCase name) d = true).
    { unfold writesKey, keysOf. apply truthy_true in Hname.
      rewrite Hname. subst name. rewrite Hlc. simpl.
      now rewrite String.eqb_refl. }
    rewrite (find_none _ _ Hf d) in Hw; [discriminate|].
    apply in_rev in Hd. exact Hd.
Qed.

Lemma dataset_name_resolves_locally_witness :
  let P := Sample.localOnly [Sample.panadol] in
  let parsed := mkCandidate " PANADOL " "" "" in
  exists d',
    fst (fetchAndRenderDrug P parsed (Sample.loaded P))
    = Ret (Some (merge "PANADOL" parsed (Some d') [] [] ""))
    /\ effects (snd (fetchAndRenderDrug P parsed (Sample.loaded P)))
       = effects (Sample.loaded P).
Proof.
  assert (Hname : d_name Sample.panadol <> "") by discriminate.
  destruct (@dataset_name_resolves_locally
              (Sample.localOnly [Sample.panadol]) [Sample.panadol]
              Sample.panadol (mkCandidate " PANADOL " "" "")
              (Sample.loaded (Sample.localOnly [Sample.panadol]))
              eq_refl (or_introl eq_refl) Hname eq_refl)
    as [d' [_ H]].
  exists d'. exact H.
Defined.

(* ===================================================================== *)
(** * The frequency table of reactions *)
(* ===================================================================== *)

Lemma fold_countEvent (events : list (list string)) (o : JSObject.t nat) :
  fold_left countEvent events o = fold_left countTerm (concat events) o.
Proof.
  revert o. induction events as [|e es IH]; intros o; [reflexivity|].
  cbn [fold_left concat]. rewrite IH. unfold countEvent.
  now rewrite fold_left_app.
Qed.

Lemma In_keys_set (V : Type) (o : JSObject.t V) (k x : string) (v : V) :
  In x (map fst (JSObject.set o k v)) <-> In x (map fst o) \/ x = k.
Proof.
  induction o as [|[k0 v0] o IH]; simpl.
  - intuition.
  - destruct (String.eqb_spec k0 k) as [->|Hne]; simpl.
    + intuition.
    + rewrite IH. intuition.
Qed.

Lemma NoDup_keys_set (V : Type) (o : JSObject.t V) (k : string) (v : V) :
  NoDup (map fst o) -> NoDup (map fst (JSObject.set o k v)).
Proof.
  induction o as [|[k0 v0] o IH]; simpl; intros H.
  - constructor; [intros [] | constructor].
  - inversion H as [|? ? Hnot Hrest]; subst.
    destruct (String.eqb_spec k0 k) as [->|Hne]; simpl.
    + now constructor.
    + constructor; [|now apply IH].
      rewrite In_keys_set. intros [Hin|Heq]; [contradiction | congruence].
Qed.

Lemma count_occ_last (l : list string) (t' t : string) :
  count_occ string_dec (l ++ [t']) t
  = count_occ string_dec l t + if string_dec t' t then 1 else 0.
Proof.
  rewrite count_occ_app. simpl. destruct (string_dec t' t); reflexivity.
Qed.

Lemma tableOf_empty : tableOf [] (JSObject.empty nat).
Proof.
  split; [constructor|]. intros t. simpl. now rewrite andb_false_r.
Qed.

(** Line 249 keeps the table right. *)
Lemma tableOf_step (l : list string) (o : JSObject.t nat) (t' : string) :
  tableOf l o -> tableOf (l ++ [t']) (countTerm o t').
Proof.
  intros [Hnd Hget]. unfold countTerm.
  destruct (truthy t') eqn:Ht'.
  - split; [now apply NoDup_keys_set|].
    intros t. rewrite getOwn_set, count_occ_last.
    destruct (String.eqb_spec t' t) as [->|Hne].
    + destruct (string_dec t t) as [_|Hc]; [|contradiction].
      rewrite Hget, Ht'. cbn [andb].
      destruct (count_occ string_dec l t) as [|c]; reflexivity.
    + destruct (string_dec t' t) as [Hc|_]; [contradiction|].
      now rewrite Nat.add_0_r.
  - split; [exact Hnd|].
    intros t. rewrite count_occ_last, Hget.
    destruct (string_dec t' t) as [->|Hne].
    + now rewrite Ht'.
    + now rewrite Nat.add_0_r.
Qed.

Lemma tableOf_fold (l l0 : list string) (o : JSObject.t nat) :
  tableOf l0 o -> tableOf (l0 ++ l) (fold_left countTerm l o).
Proof.
  revert l0 o. induction l as [|t l IH]; intros l0 o H; simpl.
  - now rewrite app_nil_r.
  - replace (l0 ++ t :: l) with ((l0 ++ [t]) ++ l)
      by (now rewrite <- app_assoc).
    apply IH. now apply tableOf_step.
Qed.

Lemma tableOf_events (events : list (list string)) :
  tableOf (concat events)
          (fold_left countEvent events (JSObject.empty nat)).
Proof.
  rewrite fold_countEvent.
  exact (tableOf_fold (concat events) tableOf_empty).
Qed.

Lemma insertIndex_perm (n : N) (k : string) (l : list (N * string)) :
  Permutation (JSObject.insertIndex n k l) ((n, k) :: l).
Proof.
  induction l as [|[m k'] l IH]; simpl; [apply Permutation_refl|].
  destruct (n <? m)%N; [apply Permutation_refl|].
  apply Permutation_trans with ((m, k') :: (n, k) :: l).
  - now apply perm_skip.
  - apply perm_swap.
Qed.

(** The loop order is an order of the own keys. *)
Lemma ownKeys_perm (V : Type) (o : JSObject.t V) :
  Permutation (JSObject.ownKeys o) (map fst o).
Proof.
  unfold JSObject.ownKeys.
  induction o as [|[k v] o IH]; simpl; [apply Permutation_refl|].
  destruct (JSObject.arrayIndex k) as [n|].
  - apply Permutation_trans
      with (map snd ((n, k) :: JSObject.indexKeys o) ++ JSObject.nameKeys o).
    + apply Permutation_app_tail, Permutation_map, insertIndex_perm.
    + simpl. now apply perm_skip.
  - apply Permutation_sym, Permutation_cons_app, Permutation_sym, IH.
Qed.

Lemma entries_keys (V : Type) (o : JSObject.t V) :
  map fst (JSObject.entries o) = JSObject.ownKeys o
  /\ forall k v, In (k, v) (JSObject.entries o) ->
                 JSObject.getOwn o k = Some v.
Proof.
  unfold JSObject.entries.
  assert (Hown : forall k, In k (JSObject.ownKeys o) ->
                           exists v, JSObject.getOwn o k = Some v)
    by (intros k; apply ownKeys_own).
  revert Hown. generalize (JSObject.ownKeys o) as ks.
  induction ks as [|k ks IH]; intros Hown; simpl.
  - split; [reflexivity | intros k v []].
  - destruct (Hown k (or_introl eq_refl)) as [v Hv].
    destruct (IH (fun k' H => Hown k' (or_intror H))) as [Hmap Hin].
    rewrite Hv. simpl. split; [now rewrite Hmap|].
    intros k' v' [[= <- <-]|H]; [exact Hv | now apply Hin].
Qed.

Lemma insertDesc_perm (x : string * nat) (l : list (string * nat)) :
  Permutation (insertDesc x l) (x :: l).
Proof.
  induction l as [|y l IH]; simpl; [apply Permutation_refl|].
  destruct (snd x <? snd y); [|apply Permutation_refl].
  apply Permutation_trans with (y :: x :: l);
    [now apply perm_skip | apply perm_swap].
Qed.

Lemma sortDesc_perm (l : list (string * nat)) :
  Permutation (sortDesc l) l.
Proof.
  induction l as [|x l IH]; simpl; [apply Permutation_refl|].
  apply Permutation_trans with (x :: sortDesc l);
    [apply insertDesc_perm | now apply perm_skip].
Qed.

Lemma insertDesc_sorted (x : string * nat) (l : list (string * nat)) :
  StronglySorted countDesc l -> StronglySorted countDesc (insertDesc x l).
Proof.
  induction 1 as [|y l Hs IH Hall]; simpl.
  - constructor; constructor.
  - destruct (snd x <? snd y) eqn:E.
    + apply Nat.ltb_lt in E. constructor; [exact IH|].
      apply Forall_forall. intros z Hz.
      apply (Permutation_in _ (insertDesc_perm x l)) in Hz.
      destruct Hz as [<-|Hz].
      * unfold countDesc. lia.
      * exact (proj1 (Forall_forall _ _) Hall z Hz).
    + apply Nat.ltb_ge in E. constructor; [now constructor|].
      constructor; [exact E|].
      apply Forall_forall. intros z Hz.
      pose proof (proj1 (Forall_forall _ _) Hall z Hz) as Hyz.
      unfold countDesc in *. lia.
Qed.

Lemma sortDesc_sorted (l : list (string * nat)) :
  StronglySorted countDesc (sortDesc l).
Proof.
  induction l as [|x l IH]; simpl; [constructor|].
  now apply insertDesc_sorted.
Qed.

Lemma StronglySorted_app (A : Type) (R : A -> A -> Prop) (a b : list A) :
  StronglySorted R (a ++ b) ->
  StronglySorted R a
  /\ forall x y, In x a -> In y b -> R x y.
Proof.
  induction a as [|x a IH]; simpl; intros H.
  - split; [constructor | intros x y []].
  - apply StronglySorted_inv in H. destruct H as [Hs Hall].
    destruct (IH Hs) as [Ha Hcross]. split.
    + constructor; [exact Ha|].
      apply Forall_forall. intros z Hz.
      apply (proj1 (Forall_forall _ _) Hall). apply in_or_app. now left.
    + intros x' y [<-|Hx'] Hy.
      * apply (proj1 (Forall_forall _ _) Hall). apply in_or_app. now right.
      * now apply Hcross.
Qed.

Lemma StronglySorted_keys (occ : string -> nat) (l : list (string * nat)) :
  (forall k v, In (k, v) l -> v = occ k) ->
  StronglySorted countDesc l ->
  StronglySorted (fun a b => occ b <= occ a) (map fst l).
Proof.
  intros Hocc Hs. induction Hs as [|[k v] l Hs IH Hall]; simpl;
    [constructor|].
  constructor.
  - apply IH. intros k' v' H. apply Hocc. now right.
  - apply Forall_forall. intros k' Hk'. apply in_map_iff in Hk'.
    destruct Hk' as [[k'' v'] [Heq Hin]]. simpl in Heq. subst k''.
    pose proof (proj1 (Forall_forall _ _) Hall _ Hin) as Hc.
    unfold countDesc in Hc. simpl in Hc.
    rewrite <- (Hocc k v (or_introl eq_refl)).
    rewrite <- (Hocc k' v' (or_intror Hin)). exact Hc.
Qed.

(** What [adrsOf] ranks: the keys of the table, each with its count. *)
Lemma ranked_entries (events : list (list string)) :
  let ranked :=
    sortDesc (JSObject.entries
                (fold_left countEvent events (JSObject.empty nat))) in
  adrsOf events = firstn 12 (map fst ranked)
  /\ NoDup (map fst ranked)
  /\ (forall k v, In (k, v) ranked ->
                  v = occurrences k events /\ k <> "" /\ 0 < v)
  /\ (forall u, u <> "" -> 0 < occurrences u events ->
                In u (map fst ranked))
  /\ StronglySorted
       (fun a b => occurrences b events <= occurrences a events)
       (map fst ranked).
Proof.
  intros ranked.
  set (freq := fold_left countEvent events (JSObject.empty nat)) in *.
  destruct (tableOf_events events) as [Hnd Hget]. fold freq in Hnd, Hget.
  destruct (entries_keys freq) as [Hkeys Hvals].
  assert (Hperm : Permutation (map fst ranked) (map fst freq)).
  { apply Permutation_trans with (map fst (JSObject.entries freq)).
    - apply Permutation_map, sortDesc_perm.
    - rewrite Hkeys. apply ownKeys_perm. }
  assert (Hentry : forall k v, In (k, v) ranked ->
                               v = occurrences k events /\ k <> ""
                               /\ 0 < v).
  { intros k v Hin.
    apply (Permutation_in _ (sortDesc_perm _)) in Hin.
    apply Hvals in Hin. rewrite Hget in Hin. unfold occurrences.
    destruct (truthy k) eqn:Hk; [|discriminate].
    destruct (0 <? count_occ string_dec (concat events) k) eqn:Hc;
      [|discriminate].
    injection Hin as <-. apply Nat.ltb_lt in Hc. apply truthy_true in Hk.
    now repeat split. }
  split; [unfold adrsOf; now rewrite firstn_map|].
  split; [exact (Permutation_NoDup (Permutation_sym Hperm) Hnd)|].
  split; [exact Hentry|].
  split.
  - intros u Hu Hocc.
    apply (Permutation_in _ (Permutation_sym Hperm)).
    assert (Hsome : JSObject.getOwn freq u
                    = Some (count_occ string_dec (concat events) u)).
    { rewrite Hget. apply truthy_true in Hu. rewrite Hu.
      unfold occurrences in Hocc. apply Nat.ltb_lt in Hocc.
      now rewrite Hocc. }
    clear - Hsome. induction freq as [|[k0 v0] o IH]; [discriminate|].
    simpl in *. destruct (String.eqb_spec k0 u); [now left|].
    right. now apply IH.
  - apply StronglySorted_keys; [|apply sortDesc_sorted].
    intros k v Hin. now apply Hentry.
Qed.

(** X7.  For events none of whose reaction terms names a property a
    plain object inherits ([constructor], [toString], [valueOf],
    [__proto__] and the like, for which line 249 does not count), the
    reactions a fallback reports are at most twelve terms without
    repetition, each a non-empty term that occurs in the events of the
    response, in an order in which the number of occurrences does not
    grow; a term of the response left out occurs no more often than any
    term reported, and when fewer than twelve are reported none is left
    out. *)
Theorem reported_reactions_ranked :
  forall events : list (list string),
    plainTerms events ->
    let r := adrsOf events in
    List.length r <= 12
    /\ NoDup r
    /\ (forall t, In t r -> t <> "" /\ 0 < occurrences t events)
    /\ StronglySorted
         (fun a b => occurrences b events <= occurrences a events) r
    /\ (forall t u, In t r -> u <> "" -> 0 < occurrences u events ->
                    ~ In u r ->
                    occurrences u events <= occurrences t events)
    /\ (List.length r < 12 ->
        forall u, u <> "" -> 0 < occurrences u events -> In u r).
Proof.
  intros events _ r.
  destruct (ranked_entries events) as [Hr [Hnd [Hentry [Hall Hsorted]]]].
  cbv zeta in *.
  set (keys := map fst (sortDesc
                          (JSObject.entries
                             (fold_left countEvent events
                                        (JSObject.empty nat))))) in *.
  assert (Hsplit : keys = r ++ skipn 12 keys)
    by (subst r; rewrite Hr; symmetry; apply firstn_skipn).
  assert (Hin : forall t, In t r -> In t keys)
    by (intros t Ht; rewrite Hsplit; apply in_or_app; now left).
  rewrite Hsplit in Hsorted, Hnd.
  destruct (StronglySorted_app _ _ Hsorted) as [Hsr Hcross].
  split; [subst r; rewrite Hr; apply firstn_le_length|].
  split; [exact (NoDup_app_remove_r _ _ Hnd)|].
  split.
  { intros t Ht. apply Hin in Ht. apply in_map_iff in Ht.
    destruct Ht as [[k v] [Hk Hkv]]. simpl in Hk. subst k.
    destruct (Hentry _ _ Hkv) as [Hv [Hne Hpos]]. split; [exact Hne|].
    now rewrite <- Hv. }
  split; [exact Hsr|].
  split.
  { intros t u Ht Hu Hocc Hnot. apply Hcross; [exact Ht|].
    pose proof (Hall u Hu Hocc) as Hk. rewrite Hsplit in Hk.
    apply in_app_or in Hk. destruct Hk; [contradiction | assumption]. }
  intros Hlen u Hu Hocc.
  pose proof (Hall u Hu Hocc) as Hk.
  assert (Hfull : r = keys).
  { subst r. rewrite Hr. apply firstn_all2.
    destruct (Nat.le_gt_cases (List.length keys) 12) as [Hle|Hgt];
      [exact Hle|].
    exfalso. rewrite Hr, firstn_length_le in Hlen; lia. }
  now rewrite Hfull.
Qed.

Lemma reported_reactions_ranked_witness :
  plainTerms Sample.amoxicillinEvents
  /\ adrsOf Sample.amoxicillinEvents = ["NAUSEA"; "RASH"; "DIARRHOEA"]
  /\ In "DIARRHOEA" (adrsOf Sample.amoxicillinEvents).
Proof.
  assert (Hplain : plainTerms Sample.amoxicillinEvents).
  { intros t Ht. simpl in Ht.
    repeat (destruct Ht as [<-|Ht]; [reflexivity|]). destruct Ht. }
  split; [exact Hplain|]. split; [reflexivity|].
  apply (proj2 (proj2 (proj2 (proj2 (proj2
           (reported_reactions_ranked Hplain)))))).
  - vm_compute. lia.
  - discriminate.
  - vm_compute. lia.
Defined.

(* ===================================================================== *)
(** * What one resolution can bring and send *)
(* ===================================================================== *)

Lemma usesOf_length (doc : option LabelDoc) : List.length (usesOf doc) <= 6.
Proof.
  unfold usesOf.
  destruct (match doc with
            | Some d => field_or (l_indications_and_usage d)
                          (field_or (l_purpose d)
                                    (field_or (l_description d) (Arr [])))
            | None => Arr []
            end) as [|s|l]; [simpl; lia | simpl; lia |].
  apply firstn_le_length.
Qed.

Lemma labelResult_length (r : option (Response (option LabelDoc))) :
  List.length (fst (labelResult r)) <= 6.
Proof.
  destruct r as [[[|] [j|]]|]; simpl; try lia. apply usesOf_length.
Qed.

Lemma eventsResult_length (r : option (Response (list (list string)))) :
  List.length (eventsResult r) <= 12.
Proof.
  destruct r as [[[|] [j|]]|]; simpl; try lia.
  unfold adrsOf. rewrite length_map. apply firstn_le_length.
Qed.

Lemma requests_fallback (name : string) (a b : bool) :
  requests ((Fetched (LabelQuery name)
             :: if a then [Warned "openFDA label error"] else [])
            ++ Fetched (EventQuery name)
            :: if b then [Warned "openFDA events error"] else [])
  = [LabelQuery name; EventQuery name].
Proof. destruct a, b; reflexivity. Qed.

(** X8.  One resolution sends either no request or one label request
    followed by one events request, both for the trimmed name; the record
    it renders carries at most six official uses and at most twelve
    reported reactions. *)
Theorem resolution_is_bounded :
  forall (P : Platform) (raw : string) (st : State),
    let name := trim (c_name (parsePayload P raw)) in
    let res := handleScanned P raw st in
    (exists new,
        effects (snd res) = effects st ++ new
        /\ (requests new = []
            \/ requests new = [LabelQuery name; EventQuery name]))
    /\ (forall m, fst res = Ret (Some m) ->
                  List.length (m_uses_official m) <= 6
                  /\ List.length (m_adrs_reported m) <= 12).
Proof.
  intros P raw st name res. subst res.
  rewrite handleScanned_run, beginScan_run. cbn [snd].
  set (st1 := with_drugCard _ _).
  assert (Heff : effects st1 = effects st) by reflexivity.
  destruct (string_dec name "") as [He|Hn].
  - rewrite (fetchAndRenderDrug_noName P _ st1 He). cbn [snd fst]. split.
    + exists []. rewrite app_nil_r. split; [reflexivity | now left].
    + intros m [=].
  - destruct (lookupLocal (drapIndex st1) name) as [d|] eqn:Hl.
    + rewrite (@fetchAndRenderDrug_local P _ st1 d Hn Hl).
      cbv zeta. cbn [snd fst]. split.
      * exists []. rewrite app_nil_r, effects_rendered.
        split; [exact Heff | now left].
      * intros m [= <-]. simpl. lia.
    + rewrite (fetchAndRenderDrug_fallback P _ st1 Hn Hl).
      cbv zeta. cbn [snd fst]. split.
      * eexists. rewrite effects_rendered, effects_logged, Heff.
        split; [reflexivity|]. right. apply requests_fallback.
      * intros m [= <-]. cbn [m_uses_official m_adrs_reported merge].
        split; [apply labelResult_length | apply eventsResult_length].
Qed.

Lemma resolution_is_bounded_witness :
  exists m,
    fst (handleScanned Sample.online "Amoxicillin"
                       (Sample.loaded Sample.online)) = Ret (Some m)
    /\ List.length (m_uses_official m) <= 6
    /\ List.length (m_adrs_reported m) <= 12.
Proof.
  eexists. split; [reflexivity|].
  apply (proj2 (resolution_is_bounded Sample.online "Amoxicillin"
                  (Sample.loaded Sample.online))).
  reflexivity.
Defined.

(* ===================================================================== *)
(** * The dose banner *)
(* ===================================================================== *)

Lemma localMax_some (local : option DrugRecord) (q : Q) :
  localMax local = Some q <->
  exists d, local = Some d /\ d_maxDoseMg d = Some q /\ ~ (q == 0)%Q.
Proof.
  unfold localMax. split.
  - destruct local as [d|]; [|discriminate].
    destruct (d_maxDoseMg d) as [m|] eqn:Hm; [|discriminate].
    destruct (num_truthy (Num m)) eqn:Ht; [|discriminate].
    intros [= <-]. exists d. repeat split; trivial.
    now apply num_truthy_Num.
  - intros [d [-> [-> Hq]]]. apply num_truthy_Num in Hq. now rewrite Hq.
Qed.

(** X9.  After a resolution with a name, the reference-dose banner shows
    a maximum exactly when the local lookup found a record whose maximum
    is present and not zero, and shows that maximum; a fallback result
    never shows one.  A resolution without a name leaves the banner as it
    was. *)
Theorem dose_banner_follows_local_record :
  forall (P : Platform) (raw : string) (st : State),
    let name := trim (c_name (parsePayload P raw)) in
    let st' := snd (handleScanned P raw st) in
    (name = "" -> doseWarning st' = doseWarning st)
    /\ (name <> "" ->
        forall q, doseWarning st' = Some q <->
                  exists d, lookupLocal (drapIndex st) name = Some d
                            /\ d_maxDoseMg d = Some q /\ ~ (q == 0)%Q)
    /\ (name <> "" -> lookupLocal (drapIndex st) name = None ->
        doseWarning st' = None).
Proof.
  intros P raw st name st'. subst st'.
  rewrite handleScanned_run, beginScan_run. cbn [snd].
  set (st1 := with_drugCard _ _).
  assert (Hidx : drapIndex st1 = drapIndex st) by reflexivity.
  assert (Hbanner : name <> "" ->
                    doseWarning (snd (fetchAndRenderDrug P
                                        (parsePayload P raw) st1))
                    = localMax (lookupLocal (drapIndex st) name)).
  { intros Hn. rewrite <- Hidx.
    destruct (lookupLocal (drapIndex st1) name) as [d|] eqn:Hl.
    - now rewrite (@fetchAndRenderDrug_local P _ st1 d Hn Hl).
    - now rewrite (fetchAndRenderDrug_fallback P _ st1 Hn Hl). }
  split; [|split].
  - intros He. now rewrite (fetchAndRenderDrug_noName P _ st1 He).
  - intros Hn q. rewrite (Hbanner Hn). apply localMax_some.
  - intros Hn Hl. now rewrite (Hbanner Hn), Hl.
Qed.

Lemma dose_banner_follows_local_record_witness :
  let P := Sample.localOnly [Sample.panadol] in
  doseWarning (snd (handleScanned P "paracet" (Sample.loaded P)))
  = Some 4000%Q.
Proof.
  apply (proj1 (proj2 (dose_banner_follows_local_record
                         (Sample.localOnly [Sample.panadol]) "paracet"
                         (Sample.loaded (Sample.localOnly [Sample.panadol])))));
    [discriminate|].
  exists Sample.panadol. repeat split. discriminate.
Defined.

(* ===================================================================== *)
(** * What a submission needs *)
(* ===================================================================== *)

Lemma missingRequired_false (st : State) (f : Form) (c : Clock) :
  missingRequired (newReport st f c) = false <-> requiredFilled f.
Proof.
  unfold requiredFilled.
  destruct (missingRequired (newReport st f c)) eqn:E.
  - apply missingRequired_true in E. split; [discriminate|].
    intros [H1 [H2 [H3 [H4 [H5 H6]]]]].
    destruct E as [E|[E|[E|[E|[E|E]]]]]; contradiction.
  - split; [intros _|reflexivity].
    assert (H : ~ (trim (p_name f) = "" \/ trim (p_age f) = ""
                   \/ trim (p_gender f) = "" \/ trim (p_condition f) = ""
                   \/ trim (p_severity f) = "" \/ trim (p_desc f) = "")).
    { intros H. apply (missingRequired_true st f c) in H. congruence. }
    repeat split; intros He; apply H; tauto.
Qed.

(** X10.  The handler stores a report exactly when the patient name, age,
    gender, condition, severity and description each hold more than white
    space: then the log grows by one report and is written once;
    otherwise nothing is written.  Phone, batch and amount are never
    asked for. *)
Theorem stored_iff_required_filled :
  forall (st : State) (f : Form) (c : Clock),
    let st' := snd (submitReport f c st) in
    (requiredFilled f <->
     List.length (readAllReports st') = S (List.length (readAllReports st)))
    /\ (requiredFilled f ->
        exists arr, effects st' = effects st
                                  ++ [StorageGet; StorageSet arr; StorageGet]
                    /\ localStorage st' = Some arr)
    /\ (~ requiredFilled f ->
        st' = with_effect st (Alerted "Please fill required fields.")).
Proof.
  intros st f c st'. subst st'. rewrite submitReport_run. cbn [snd].
  destruct (missingRequired (newReport st f c)) eqn:E.
  - assert (Hnot : ~ requiredFilled f).
    { intros H. apply (missingRequired_false st f c) in H. congruence. }
    split; [|split].
    + split; [contradiction|].
      unfold readAllReports. cbn [localStorage with_effect]. lia.
    + contradiction.
    + reflexivity.
  - assert (Hyes : requiredFilled f)
      by now apply (missingRequired_false st f c).
    split; [|split].
    + split; [intros _ | intros _; exact Hyes].
      rewrite accepted_reports, length_app, length_map. simpl. lia.
    + intros _. eexists. unfold accepted.
      cbn [effects localStorage with_historyList with_effect
           with_localStorage].
      rewrite effects_logged.
      split; [now rewrite <- app_assoc | reflexivity].
    + contradiction.
Qed.

Lemma stored_iff_required_filled_witness :
  List.length (readAllReports
                 (snd (submitReport (Sample.form NaN) Sample.clock
                                    Sample.blankPage)))
  = 1.
Proof.
  apply (proj1 (stored_iff_required_filled Sample.blankPage
                  (Sample.form NaN) Sample.clock)).
  unfold requiredFilled. repeat split; discriminate.
Defined.

(* ===================================================================== *)
(** * The log and the history *)
(* ===================================================================== *)

Lemma historyList_logged (st : State) (es : list Effect) :
  historyList (logged st es) = historyList st.
Proof.
  revert st. induction es as [|e es IH]; intros st; [reflexivity|].
  unfold logged in *. simpl. now rewrite IH.
Qed.

(** A resolution leaves the stored log and the history alone. *)
Lemma fetchAndRenderDrug_keeps (P : Platform) (parsed : Candidate)
  (st : State) :
  let st' := snd (fetchAndRenderDrug P parsed st) in
  localStorage st' = localStorage st /\ historyList st' = historyList st.
Proof.
  destruct (string_dec (trim (c_name parsed)) "") as [He|Hn].
  - now rewrite (fetchAndRenderDrug_noName P parsed st He).
  - destruct (lookupLocal (drapIndex st) (trim (c_name parsed)))
      as [d|] eqn:Hl.
    + now rewrite (fetchAndRenderDrug_local P parsed st Hn Hl).
    + rewrite (fetchAndRenderDrug_fallback P parsed st Hn Hl).
      cbv zeta. unfold rendered.
      cbn [snd localStorage historyList with_doseWarning with_drugCard].
      now rewrite localStorage_logged, historyList_logged.
Qed.




Lemma run_snoc (P : Platform) (es : list Event) (e : Event) (st : State) :
  run P (es ++ [e]) st = handle P e (run P es st).
Proof. now rewrite run_app. Qed.

Lemma run_stored (P : Platform) (es : list Event) (st : State) :
  Forall (fun r => jsonValue r = r) (readAllReports st) ->
  Forall (fun r => jsonValue r = r) (readAllReports (run P es st)).
Proof.
  revert st. induction es as [|e es IH]; intros st H; [exact H|].
  apply (IH (handle P e st)). now apply handle_stored.
Qed.

Lemma handle_appends (P : Platform) (e : Event) (st : State) :
  clears e = false ->
  Forall (fun r => jsonValue r = r) (readAllReports st) ->
  exists added,
    readAllReports (handle P e st) = readAllReports st ++ added
    /\ List.length added <= 1.
Proof.
  intros Hc Hst.
  assert (Hsame : forall st', readAllReports st' = readAllReports st ->
                              exists added,
                                readAllReports st'
                                = readAllReports st ++ added
                                /\ List.length added <= 1).
  { intros st' H. exists []. rewrite app_nil_r. split; [exact H|].
    simpl. lia. }
  destruct e as [raw|parsed|f c|b]; simpl.
  - now apply Hsame.
  - apply Hsame.
    destruct (fetchAndRenderDrug_keeps P parsed st) as [Hs _].
    unfold readAllReports. now rewrite Hs.
  - rewrite submitReport_run. cbn [snd].
    destruct (missingRequired (newReport st f c)).
    + now apply Hsame.
    + exists [jsonValue (finalReport st f c)].
      rewrite accepted_reports, (map_jsonValue_stored Hst).
      split; [reflexivity | simpl; lia].
  - destruct b; [discriminate|]. now apply Hsame.
Qed.

(** X12.  As long as no clear is confirmed, the stored log only grows at
    its end: after any events the log begins with the log as it was, and
    holds at most one more report per event.  A confirmed clear leaves
    the log and the history empty, and a declined one changes nothing. *)
Theorem log_only_grows :
  forall (P : Platform) (es : list Event) (st : State),
    Forall (fun r => jsonValue r = r) (readAllReports st) ->
    (forallb (fun e => negb (clears e)) es = true ->
     exists added,
       readAllReports (run P es st) = readAllReports st ++ added
       /\ List.length added <= List.length es)
    /\ readAllReports (run P (es ++ [ClearsAll true]) st) = []
    /\ historyList (run P (es ++ [ClearsAll true]) st) = []
    /\ run P (es ++ [ClearsAll false]) st = run P es st.
Proof.
  intros P es st Hst. split; [|split; [|split]].
  - revert st Hst. induction es as [|e es IH]; intros st Hst Hes.
    + exists []. rewrite app_nil_r. split; [reflexivity | simpl; lia].
    + simpl in Hes. apply andb_true_iff in Hes. destruct Hes as [He Hes].
      apply negb_true_iff in He.
      destruct (handle_appends P e st He Hst) as [a1 [H1 L1]].
      destruct (IH (handle P e st) (handle_stored P e st Hst) Hes)
        as [a2 [H2 L2]].
      exists (a1 ++ a2). change (run P (e :: es) st)
        with (run P es (handle P e st)).
      rewrite H2, H1, <- app_assoc. split; [reflexivity|].
      rewrite length_app. simpl. lia.
  - now rewrite run_snoc.
  - now rewrite run_snoc.
  - now rewrite run_snoc.
Qed.

Lemma log_only_grows_witness :
  let P := Sample.offline in
  let es := [ScanBegins "Amoxicillin";
             Submits (Sample.form (Num 500)) Sample.clock;
             Submits (Sample.form NaN) Sample.clock] in
  exists added,
    readAllReports (run P es Sample.blankPage)
    = readAllReports Sample.blankPage ++ added
    /\ List.length added <= 3.
Proof.
  apply (proj1 (log_only_grows Sample.offline
                  [ScanBegins "Amoxicillin";
                   Submits (Sample.form (Num 500)) Sample.clock;
                   Submits (Sample.form NaN) Sample.clock]
                  Sample.blankPage (Forall_nil _))).
  reflexivity.
Defined.

Lemma resolution_keeps (P : Platform) (raw : string) (st : State) :
  let st' := snd (handleScanned P raw st) in
  localStorage st' = localStorage st
  /\ historyList st' = historyList st
  /\ drapIndex st' = drapIndex st
  /\ lastParsed st' = parsePayload P raw.
Proof.
  cbv zeta. rewrite handleScanned_run, beginScan_run. cbn [snd].
  set (st1 := with_drugCard _ _).
  destruct (fetchAndRenderDrug_keeps P (parsePayload P raw) st1)
    as [Hs Hh].
  destruct (fetchAndRenderDrug_card P (parsePayload P raw) st1)
    as [_ [Hl Hi]].
  rewrite Hs, Hh, Hl, Hi. now repeat split.
Qed.

(** X13.  A resolution keeps its hands off everything but the card, the
    banner and the candidate: the stored log, the history and the index
    are as they were, and [lastParsed] is the candidate parsed from the
    payload. *)
Theorem resolution_footprint :
  forall (P : Platform) (raw : string) (st : State),
    let st' := snd (handleScanned P raw st) in
    localStorage st' = localStorage st
    /\ historyList st' = historyList st
    /\ drapIndex st' = drapIndex st
    /\ lastParsed st' = parsePayload P raw.
Proof.
  intros P raw st. cbv zeta.
  rewrite handleScanned_run, beginScan_run. cbn [snd].
  set (st1 := with_drugCard _ _).
  destruct (fetchAndRenderDrug_keeps P (parsePayload P raw) st1)
    as [Hs Hh].
  destruct (fetchAndRenderDrug_card P (parsePayload P raw) st1)
    as [_ [Hl Hi]].
  rewrite Hs, Hh, Hl, Hi. now repeat split.
Qed.

(* ===================================================================== *)
(** * The flag and larger amounts *)
(* ===================================================================== *)

(** X14.  Under a record whose maximum is not negative, the flag is
    monotone in the amount: when an amount is flagged, every amount at
    least as large is flagged. *)
Theorem flag_is_monotone :
  forall (idx : Index) (drugName : string) (local : DrugRecord)
         (m a a' : Q),
    drapIndex_get idx (toLowerCase drugName) = Some local ->
    d_maxDoseMg local = Some m -> (0 <= m)%Q ->
    evaluateDose idx drugName (Num a) = true -> (a <= a')%Q ->
    evaluateDose idx drugName (Num a') = true.
Proof.
  intros idx drugName local m a a' Hl Hm Hpos Hflag Hle.
  apply evaluateDose_true in Hflag.
  destruct Hflag as [l' [m' [Hl' [Hm' [Hnz [H|[a0 [[= <-] [_ Hlt]]]]]]]]];
    [discriminate H|].
  rewrite Hl in Hl'. injection Hl' as <-.
  rewrite Hm in Hm'. injection Hm' as <-.
  apply evaluateDose_true. exists local, m.
  assert (Hlt' : (m < a')%Q) by (apply Qlt_le_trans with a; assumption).
  repeat split; trivial. right. exists a'. repeat split; trivial.
  intros Hz. rewrite Hz in Hlt'.
  exact (Qlt_not_le _ _ Hlt' Hpos).
Qed.

Lemma flag_is_monotone_witness :
  evaluateDose (buildIndex [Sample.panadol]) "PANADOL" (Num 9000) = true.
Proof.
  apply (@flag_is_monotone (buildIndex [Sample.panadol]) "PANADOL"
           Sample.panadol 4000%Q 5000%Q 9000%Q);
    try reflexivity; discriminate.
Defined.

(* ===================================================================== *)
(** * Viewing a report *)
(* ===================================================================== *)

Lemma findReport_first (pre post : list Report) (r : Report) :
  ~ In (rep_id r) (map rep_id pre) ->
  findReport (pre ++ r :: post) (rep_id r) = Some r.
Proof.
  unfold findReport. induction pre as [|x pre IH]; simpl; intros H.
  - now rewrite String.eqb_refl.
  - destruct (String.eqb_spec (rep_id x) (rep_id r)) as [E|_].
    + exfalso. apply H. now left.
    + apply IH. intros Hin. apply H. now right.
Qed.

Lemma findReport_absent (arr : list Report) (id : string) :
  ~ In id (map rep_id arr) -> findReport arr id = None.
Proof.
  unfold findReport. induction arr as [|x arr IH]; simpl; intros H;
    [reflexivity|].
  destruct (String.eqb_spec (rep_id x) id) as [E|_].
  - exfalso. apply H. now left.
  - apply IH. intros Hin. apply H. now right.
Qed.

Lemma viewReportDetail_run (tl : string -> string) (nt : Q -> string)
  (id : string) (st : State) :
  viewReportDetail tl nt id st
  = (Ret tt,
     logged st [StorageGet;
                Alerted match findReport (readAllReports st) id with
                        | Some r => detailText tl nt r
                        | None => "Report not found"
                        end]).
Proof.
  unfold viewReportDetail. run_M.
  change (readAllReports (with_effect st StorageGet))
    with (readAllReports st).
  destruct (findReport (readAllReports st) id); reflexivity.
Qed.

(** X15.  The View button shows the first stored report that carries its
    id, and only reads: for an id no stored report carries, the alert
    says "Report not found"; for a report that no earlier report shares
    its id with, the alert shows that report.  The stored log is as it
    was. *)
Theorem view_shows_first_with_id :
  forall (tl : string -> string) (nt : Q -> string) (id : string)
         (st : State),
    let st' := snd (viewReportDetail tl nt id st) in
    localStorage st' = localStorage st
    /\ (~ In id (map rep_id (readAllReports st)) ->
        effects st' = effects st ++ [StorageGet; Alerted "Report not found"])
    /\ (forall pre r post,
           readAllReports st = pre ++ r :: post -> rep_id r = id ->
           ~ In id (map rep_id pre) ->
           effects st'
           = effects st ++ [StorageGet; Alerted (detailText tl nt r)]).
Proof.
  intros tl nt id st st'. subst st'. rewrite viewReportDetail_run.
  cbn [snd]. rewrite localStorage_logged, effects_logged.
  split; [reflexivity|]. split.
  - intros H. now rewrite (findReport_absent _ _ H).
  - intros pre r post Hlog <- Hpre.
    now rewrite Hlog, (findReport_first pre post r Hpre).
Qed.

Lemma view_shows_first_with_id_witness :
  let st := snd (submitReport (Sample.form (Num 500)) Sample.clock
                              Sample.blankPage) in
  effects (snd (viewReportDetail (fun d => d) (fun _ => "500")
                                 "r_0" st))
  = effects st ++ [StorageGet; Alerted "Report not found"].
Proof.
  apply (proj1 (proj2 (view_shows_first_with_id (fun d => d)
                         (fun _ => "500") "r_0"
                         (snd (submitReport (Sample.form (Num 500))
                                            Sample.clock
                                            Sample.blankPage))))).
  simpl. intros [H|[]]. discriminate H.
Defined.

Lemma string_of_N_inj (n n' : N) :
  NilZero.string_of_uint (N.to_uint n) = NilZero.string_of_uint (N.to_uint n')
  -> n = n'.
Proof.
  intros H.
  assert (Hnil : forall m, N.to_uint m <> Decimal.Nil).
  { intros [|p]; [discriminate | apply DecimalPos.Unsigned.to_uint_nonnil]. }
  pose proof (NilZero.usu (N.to_uint n) (Hnil n)) as H1.
  pose proof (NilZero.usu (N.to_uint n') (Hnil n')) as H2.
  rewrite H in H1. rewrite H1 in H2. injection H2 as H2.
  now apply DecimalN.Unsigned.to_uint_inj.
Qed.

Lemma jsonValue_id (r : Report) : rep_id (jsonValue r) = rep_id r.
Proof. reflexivity. Qed.

Lemma finalReport_id (st : State) (f : Form) (c : Clock) :
  rep_id (finalReport st f c) = rep_id (newReport st f c).
Proof.
  unfold finalReport. destruct (evaluateDose _ _ _); reflexivity.
Qed.

Lemma ids_jsonValue (l : list Report) :
  map rep_id (map jsonValue l) = map rep_id l.
Proof. rewrite map_map. apply map_ext. intros r. reflexivity. Qed.

(** X16.  The id of a report is made from the clock alone: two reports
    get the same id exactly when they are built in the same millisecond,
    whatever the form and the page hold.  When two forms are accepted in
    the same millisecond, with an id the log did not hold, the View
    button of either shows the first of the two. *)
Theorem report_ids_follow_the_clock :
  (forall (st st2 : State) (f f2 : Form) (c c2 : Clock),
      rep_id (newReport st f c) = rep_id (newReport st2 f2 c2)
      <-> now c = now c2)
  /\ (forall (st : State) (f1 f2 : Form) (c : Clock),
         requiredFilled f1 -> requiredFilled f2 ->
         ~ In (rep_id (newReport st f1 c))
              (map rep_id (readAllReports st)) ->
         let st1 := snd (submitReport f1 c st) in
         let st2 := snd (submitReport f2 c st1) in
         rep_id (finalReport st1 f2 c) = rep_id (finalReport st f1 c)
         /\ findReport (readAllReports st2) (rep_id (finalReport st1 f2 c))
            = Some (jsonValue (finalReport st f1 c))).
Proof.
  split.
  - intros st st2 f f2 c c2. unfold newReport. cbn [rep_id]. split.
    + intros H. injection H as H. now apply string_of_N_inj.
    + now intros ->.
  - intros st f1 f2 c H1 H2 Hfresh st1 st2.
    assert (Hid : rep_id (finalReport st1 f2 c)
                  = rep_id (finalReport st f1 c))
      by (now rewrite !finalReport_id).
    split; [exact Hid|]. rewrite Hid. subst st2 st1.
    apply (missingRequired_false st f1 c) in H1.
    rewrite (submitReport_run f1 c st), H1. cbn [snd].
    apply (missingRequired_false (accepted st f1 c) f2 c) in H2.
    rewrite (submitReport_run f2 c (accepted st f1 c)), H2. cbn [snd].
    rewrite !accepted_reports, map_app. cbn [map].
    rewrite jsonValue_idempotent, <- app_assoc. cbn [app].
    rewrite <- (jsonValue_id (finalReport st f1 c)).
    apply findReport_first.
    rewrite jsonValue_id, !ids_jsonValue, finalReport_id. exact Hfresh.
Qed.

Lemma report_ids_follow_the_clock_witness :
  let st := Sample.blankPage in
  let f1 := Sample.form (Num 500) in
  let f2 := Sample.form (Num 9000) in
  let st1 := snd (submitReport f1 Sample.clock st) in
  let st2 := snd (submitReport f2 Sample.clock st1) in
  findReport (readAllReports st2)
             (rep_id (finalReport st1 f2 Sample.clock))
  = Some (jsonValue (finalReport st f1 Sample.clock)).
Proof.
  apply (proj2 report_ids_follow_the_clock Sample.blankPage
               (Sample.form (Num 500)) (Sample.form (Num 9000))
               Sample.clock).
  - unfold requiredFilled. repeat split; discriminate.
  - unfold requiredFilled. repeat split; discriminate.
  - intros [].
Defined.

(* ===================================================================== *)
(** * The search box *)
(* ===================================================================== *)

Lemma trimEnd_cons (c : ascii) (s : string) :
  trimEnd (String c s)
  = match trimEnd s with
    | EmptyString => if isWhiteSpace c then EmptyString
                     else String c EmptyString
    | r' => String c r'
    end.
Proof. reflexivity. Qed.

Lemma trimEnd_idempotent (s : string) : trimEnd (trimEnd s) = trimEnd s.
Proof.
  induction s as [|c s IH]; [reflexivity|].
  rewrite trimEnd_cons. destruct (trimEnd s) as [|d r] eqn:E.
  - destruct (isWhiteSpace c) eqn:W; [reflexivity|].
    rewrite trimEnd_cons. cbn [trimEnd]. now rewrite W.
  - rewrite trimEnd_cons, IH. reflexivity.
Qed.

Lemma trimStart_head (s : string) :
  trimStart s = ""
  \/ exists c r, trimStart s = String c r /\ isWhiteSpace c = false.
Proof.
  induction s as [|c s IH]; [now left|].
  cbn [trimStart]. destruct (isWhiteSpace c) eqn:W; [exact IH|].
  right. now exists c, s.
Qed.

Lemma trimStart_trimEnd (c : ascii) (r : string) :
  isWhiteSpace c = false ->
  trimStart (trimEnd (String c r)) = trimEnd (String c r).
Proof.
  intros W. rewrite trimEnd_cons.
  destruct (trimEnd r); rewrite ?W; cbn [trimStart]; now rewrite W.
Qed.

Lemma trim_idempotent (s : string) : trim (trim s) = trim s.
Proof.
  unfold trim. destruct (trimStart_head s) as [->|[c [r [-> W]]]];
    [reflexivity|].
  now rewrite (@trimStart_trimEnd c r W), trimEnd_idempotent.
Qed.

(** X17.  A search for white space only raises the alert and changes
    nothing else.  Any other search text that does not open with a brace
    makes a candidate named by the trimmed text, and over an index of
    typed records (synonyms an array of strings, or none) the resolution
    renders a record: it is named after the local record when the lookup
    finds one that has a name, and after the trimmed text when the lookup
    finds none, or one without a name. *)
Theorem search_resolves_trimmed_text :
  forall (P : Platform) (value : string) (st : State),
    (trim value = "" ->
     searchClick P value st
     = (Ret None, with_effect st (Alerted "Enter search term")))
    /\ (trim value <> "" -> startsWithBrace (trim value) = false ->
        let st' := snd (searchClick P value st) in
        c_name (lastParsed st') = trim value
        /\ exists m,
             fst (searchClick P value st) = Ret (Some m)
             /\ (forall d, lookupLocal (drapIndex st) (trim value) = Some d ->
                           d_name d <> "" -> m_name m = d_name d)
             /\ (lookupLocal (drapIndex st) (trim value) = None
                 \/ (exists d,
                        lookupLocal (drapIndex st) (trim value) = Some d
                        /\ d_name d = "") ->
                 m_name m = trim value)).
Proof.
  intros P value st. unfold searchClick. split.
  - intros ->. reflexivity.
  - intros Hn Hb. cbv zeta.
    pose proof Hn as Ht. apply truthy_true in Ht. rewrite Ht. cbn [negb].
    destruct (resolution_keeps P (trim value) st) as [_ [_ [_ Hlast]]].
    rewrite Hlast, (parsePayload_plain P (trim value) Hb).
    split; [reflexivity|].
    rewrite handleScanned_run, beginScan_run.
    rewrite (parsePayload_plain P (trim value) Hb). cbn [snd].
    set (st1 := with_drugCard _ _).
    assert (Hname : trim (c_name (Spec.parseRaw (trim value)))
                    = trim value) by apply trim_idempotent.
    assert (Hn' : trim (c_name (Spec.parseRaw (trim value))) <> "")
      by now rewrite Hname.
    destruct (fetchAndRenderDrug_merges P (Spec.parseRaw (trim value))
                st1 Hn') as [u [a [d ->]]].
    eexists. split; [reflexivity|]. rewrite Hname.
    change (drapIndex st1) with (drapIndex st).
    unfold merge. cbn [m_name].
    destruct (lookupLocal (drapIndex st) (trim value)) as [rec|];
      cbn [localStr]; split.
    + intros d' [= <-] N. now apply or_else_left.
    + intros [H|[d' [[= <-] E]]]; [discriminate H|]. now rewrite E.
    + intros d' H. discriminate H.
    + intros _. reflexivity.
Qed.

Lemma search_resolves_trimmed_text_witness :
  let P := Sample.localOnly [Sample.panadol] in
  exists m,
    fst (searchClick P "  paracet " (Sample.loaded P)) = Ret (Some m)
    /\ m_name m = "Panadol".
Proof.
  destruct (proj2 (search_resolves_trimmed_text
                     (Sample.localOnly [Sample.panadol]) "  paracet "
                     (Sample.loaded (Sample.localOnly [Sample.panadol]))))
    as [_ [m [Hret [Hfound _]]]]; [discriminate | reflexivity |].
  exists m. split; [exact Hret|].
  apply (Hfound Sample.panadol); [reflexivity | discriminate].
Defined.

(* ===================================================================== *)
(** * The camera *)
(* ===================================================================== *)

Lemma asked_note (st : Camera.State) (d : Camera.Did) :
  Camera.asked (Camera.did (Camera.note st d))
  = Camera.asked (Camera.did st)
    ++ match d with
       | Camera.Asked c => [c]
       | _ => []
       end.
Proof.
  unfold Camera.asked, Camera.note. cbn [Camera.did].
  rewrite flat_map_app. simpl. now rewrite app_nil_r.
Qed.

(** The loop stops at the first constraint that is granted. *)
Lemma acquire_first (D : Camera.Devices) (pre post : list Camera.Constraints)
  (c : Camera.Constraints) (s : Camera.Stream) (st : Camera.State) :
  (forall c', In c' pre -> Camera.getUserMedia D c' = None) ->
  Camera.getUserMedia D c = Some s ->
  exists st',
    Camera.acquire D (pre ++ c :: post) st = (Some s, st')
    /\ Camera.asked (Camera.did st')
       = Camera.asked (Camera.did st) ++ pre ++ [c]
    /\ Camera.torchOn st' = Camera.torchOn st.
Proof.
  revert st. induction pre as [|p pre IH]; intros st Hpre Hc; simpl.
  - rewrite Hc. eexists. split; [reflexivity|].
    now rewrite asked_note.
  - rewrite (Hpre p (or_introl eq_refl)).
    destruct (IH (Camera.note st (Camera.Asked p))
                 (fun c' H => Hpre c' (or_intror H)) Hc)
      as [st' [Hacq [Hasked Hon]]].
    exists st'. split; [exact Hacq|]. split; [|exact Hon].
    rewrite Hasked, asked_note, <- app_assoc. reflexivity.
Qed.

Lemma acquire_none (D : Camera.Devices) (cs : list Camera.Constraints)
  (st : Camera.State) :
  (forall c, Camera.getUserMedia D c = None) ->
  exists st',
    Camera.acquire D cs st = (None, st')
    /\ Camera.asked (Camera.did st') = Camera.asked (Camera.did st) ++ cs
    /\ Camera.currentStream st' = Camera.currentStream st
    /\ Camera.scanning st' = Camera.scanning st.
Proof.
  intros Hnone. revert st. induction cs as [|c cs IH]; intros st; simpl.
  - exists st. now rewrite app_nil_r.
  - rewrite (Hnone c).
    destruct (IH (Camera.note st (Camera.Asked c)))
      as [st' [Hacq [Hasked [Hcur Hscan]]]].
    exists st'. split; [exact Hacq|]. split; [|now split].
    rewrite Hasked, asked_note, <- app_assoc. reflexivity.
Qed.

(** X18.  Start does nothing while a stream is held.  Otherwise it asks
    for the rear camera exactly, then for the rear camera as a
    preference, then for any camera, and stops asking at the first
    request that is granted: that stream is held, scanning is on, the
    Stop button replaces the Start button and the torch button is shown
    exactly when the stream offers a torch.  When all three are refused
    it has asked three times, holds no stream, and leaves scanning as it
    was. *)
Theorem start_takes_first_granted :
  forall (D : Camera.Devices) (st : Camera.State),
    (forall s, Camera.currentStream st = Some s ->
               Camera.startCamera D st = st)
    /\ (forall pre c post s,
           Camera.currentStream st = None ->
           Camera.tryConstraints = pre ++ c :: post ->
           (forall c', In c' pre -> Camera.getUserMedia D c' = None) ->
           Camera.getUserMedia D c = Some s ->
           let st' := Camera.startCamera D st in
           Camera.currentStream st' = Some s
           /\ Camera.scanning st' = true
           /\ Camera.startShown st' = false /\ Camera.stopShown st' = true
           /\ (Camera.torchShown st' = true <-> Camera.torch s = Some true)
           /\ Camera.asked (Camera.did st')
              = Camera.asked (Camera.did st) ++ pre ++ [c])
    /\ (Camera.currentStream st = None ->
        (forall c, Camera.getUserMedia D c = None) ->
        let st' := Camera.startCamera D st in
        Camera.currentStream st' = None
        /\ Camera.scanning st' = Camera.scanning st
        /\ Camera.asked (Camera.did st')
           = Camera.asked (Camera.did st) ++ Camera.tryConstraints).
Proof.
  intros D st. split; [|split].
  - intros s H. unfold Camera.startCamera. now rewrite H.
  - intros pre c post s Hcur Hsplit Hpre Hc. cbv zeta.
    unfold Camera.startCamera. rewrite Hcur, Hsplit.
    destruct (@acquire_first D pre post c s st Hpre Hc)
      as [st' [-> [Hasked _]]].
    unfold Camera.handleStream.
    cbn [Camera.currentStream Camera.scanning Camera.startShown
         Camera.stopShown Camera.torchShown Camera.note].
    repeat split.
    + destruct (Camera.torch s) as [[|]|]; [reflexivity | |];
        discriminate.
    + now intros ->.
    + rewrite asked_note. cbn [Camera.did]. now rewrite app_nil_r.
  - intros Hcur Hnone. cbv zeta. unfold Camera.startCamera. rewrite Hcur.
    destruct (@acquire_none D Camera.tryConstraints st Hnone)
      as [st' [-> [Hasked [Hc Hs]]]].
    cbn [Camera.currentStream Camera.scanning Camera.note].
    rewrite Hc, Hs, Hcur. repeat split.
    rewrite asked_note. now rewrite app_nil_r.
Qed.

Lemma start_takes_first_granted_witness :
  let front := Camera.mkStream "front" (Some false) in
  let D := Camera.mkDevices
             (fun c => match c with
                       | Camera.AnyCamera => Some front
                       | _ => None
                       end)
             (fun _ _ => true) in
  let st := Camera.mkState None false true false false false [] in
  Camera.currentStream (Camera.startCamera D st) = Some front
  /\ Camera.asked (Camera.did (Camera.startCamera D st))
     = Camera.tryConstraints.
Proof.
  set (front := Camera.mkStream "front" (Some false)).
  set (D := Camera.mkDevices
              (fun c => match c with
                        | Camera.AnyCamera => Some front
                        | _ => None
                        end)
              (fun _ _ => true)).
  set (st := Camera.mkState None false true false false false []).
  cbv zeta.
  destruct (proj1 (proj2 (start_takes_first_granted D st))
              [Camera.ExactEnvironment; Camera.IdealEnvironment]
              Camera.AnyCamera [] front eq_refl eq_refl)
    as [Hcur [_ [_ [_ [_ Hasked]]]]].
  - intros c' [<-|[<-|[]]]; reflexivity.
  - reflexivity.
  - split; [exact Hcur | exact Hasked].
Defined.

(** X19.  Stop releases what Start took: after Start and then Stop no
    stream is held, scanning is off, the torch button is hidden, and the
    stream Start had been granted has been stopped.  Neither Start nor
    Stop touches the torch flag of the button. *)
Theorem stop_releases_stream :
  forall (D : Camera.Devices) (st : Camera.State),
    let st1 := Camera.startCamera D st in
    let st2 := Camera.stopCamera st1 in
    Camera.currentStream st2 = None
    /\ Camera.scanning st2 = false
    /\ Camera.torchShown st2 = false
    /\ Camera.startShown st2 = true /\ Camera.stopShown st2 = false
    /\ (forall s, Camera.currentStream st1 = Some s ->
                  In (Camera.Stopped s) (Camera.did st2))
    /\ Camera.torchOn st1 = Camera.torchOn st
    /\ Camera.torchOn st2 = Camera.torchOn st.
Proof.
  intros D st st1 st2.
  assert (Hon : Camera.torchOn st1 = Camera.torchOn st).
  { subst st1. unfold Camera.startCamera.
    destruct (Camera.currentStream st); [reflexivity|].
    assert (Hacq : forall cs st0,
               Camera.torchOn (snd (Camera.acquire D cs st0))
               = Camera.torchOn st0).
    { induction cs as [|c cs IH]; intros st0; simpl; [reflexivity|].
      destruct (Camera.getUserMedia D c); [reflexivity|].
      now rewrite IH. }
    specialize (Hacq Camera.tryConstraints st).
    destruct (Camera.acquire D Camera.tryConstraints st) as [[s|] st'];
      exact Hacq. }
  subst st2. unfold Camera.stopCamera.
  cbn [Camera.currentStream Camera.scanning Camera.torchShown
       Camera.startShown Camera.stopShown Camera.torchOn Camera.note].
  repeat split.
  - intros s Hs. rewrite Hs.
    cbn [Camera.did Camera.note]. apply in_or_app. left.
    apply in_or_app. right. now left.
  - exact Hon.
  - destruct (Camera.currentStream st1); cbn [Camera.torchOn Camera.note];
      exact Hon.
Qed.

Lemma toggleTorch_flips (D : Camera.Devices) (st : Camera.State)
  (s : Camera.Stream) :
  Camera.currentStream st = Some s ->
  Camera.torch s = Some true ->
  Camera.applyConstraints D s (negb (Camera.torchOn st)) = true ->
  Camera.toggleTorch D st
  = Camera.mkState (Some s) (Camera.scanning st) (Camera.startShown st)
      (Camera.stopShown st) (Camera.torchShown st)
      (negb (Camera.torchOn st))
      (Camera.did st ++ [Camera.Torch s (negb (Camera.torchOn st))]).
Proof.
  intros Hcur Htorch Hok. unfold Camera.toggleTorch.
  now rewrite Hcur, Htorch, Hok.
Qed.

(** X20.  With no stream the torch button only raises an alert.  On a
    stream that offers a torch and accepts the request, one press asks
    for the opposite of the flag and flips it, so two presses ask for on
    and off in turn and leave the flag as it was. *)
Theorem torch_toggles :
  forall (D : Camera.Devices) (st : Camera.State),
    (Camera.currentStream st = None ->
     Camera.toggleTorch D st
     = Camera.note st (Camera.Alert "Start camera first"))
    /\ (forall s,
           Camera.currentStream st = Some s ->
           Camera.torch s = Some true ->
           (forall on, Camera.applyConstraints D s on = true) ->
           let st1 := Camera.toggleTorch D st in
           let st2 := Camera.toggleTorch D st1 in
           Camera.torchOn st1 = negb (Camera.torchOn st)
           /\ Camera.torchOn st2 = Camera.torchOn st
           /\ Camera.did st2
              = Camera.did st
                ++ [Camera.Torch s (negb (Camera.torchOn st));
                    Camera.Torch s (Camera.torchOn st)]
           /\ Camera.currentStream st2 = Some s).
Proof.
  intros D st. split.
  - intros H. unfold Camera.toggleTorch. now rewrite H.
  - intros s Hcur Htorch Hok. cbv zeta.
    rewrite (@toggleTorch_flips D st s Hcur Htorch (Hok _)).
    set (st1 := Camera.mkState _ _ _ _ _ _ _).
    rewrite (@toggleTorch_flips D st1 s eq_refl Htorch (Hok _)).
    subst st1. cbn [Camera.currentStream Camera.torchOn Camera.did].
    rewrite negb_involutive, <- app_assoc. repeat split.
Qed.

Lemma torch_toggles_witness :
  let rear := Camera.mkStream "rear" (Some true) in
  let D := Camera.mkDevices (fun _ => Some rear) (fun _ _ => true) in
  let st := Camera.startCamera D
              (Camera.mkState None false true false false false []) in
  Camera.torchOn (Camera.toggleTorch D st) = true.
Proof.
  set (rear := Camera.mkStream "rear" (Some true)).
  set (D := Camera.mkDevices (fun _ => Some rear) (fun _ _ => true)).
  cbv zeta.
  apply (proj2 (torch_toggles D
                  (Camera.startCamera D
                     (Camera.mkState None false true false false false [])))
               rear eq_refl eq_refl (fun _ => eq_refl)).
Defined.

(* ===================================================================== *)
(** * An exact key *)
(* ===================================================================== *)

(** X21.  When the lowercased name of the candidate is a key of the
    index and the name has no white space around it, the record under
    that key is the one the quick card names and the one the resolution
    merges, whichever other keys contain the name; no request is sent. *)
Theorem exact_key_wins :
  forall (P : Platform) (raw : string) (st : State) (d : DrugRecord),
    let parsed := parsePayload P raw in
    drapIndex_get (drapIndex st) (toLowerCase (c_name parsed)) = Some d ->
    trim (c_name parsed) = c_name parsed -> c_name parsed <> "" ->
    lookupLocal (drapIndex st) (c_name parsed) = Some d
    /\ hd (Text "") (quickCard (drapIndex st) parsed)
       = div [Text (d_name d)]
    /\ fst (handleScanned P raw st)
       = Ret (Some (merge (c_name parsed) parsed (Some d) [] [] ""))
    /\ effects (snd (handleScanned P raw st)) = effects st.
Proof.
  intros P raw st d parsed Hkey Htrim Hname.
  assert (Hl : lookupLocal (drapIndex st) (c_name parsed) = Some d)
    by (unfold lookupLocal; now rewrite Hkey).
  split; [exact Hl|]. split.
  - unfold quickCard. now rewrite Hkey.
  - rewrite handleScanned_run, beginScan_run. cbn [snd]. fold parsed.
    set (st1 := with_drugCard _ _).
    assert (Hn : trim (c_name parsed) <> "") by now rewrite Htrim.
    assert (Hl1 : lookupLocal (drapIndex st1) (trim (c_name parsed))
                  = Some d) by (rewrite Htrim; exact Hl).
    rewrite (fetchAndRenderDrug_local P parsed st1 Hn Hl1).
    cbv zeta. rewrite Htrim. split; reflexivity.
Qed.

Lemma exact_key_wins_witness :
  let P := Sample.localOnly [Sample.panadol] in
  fst (handleScanned P "Paracetamol" (Sample.loaded P))
  = Ret (Some (merge "Paracetamol" (mkCandidate "Paracetamol" "" "")
                     (Some Sample.panadol) [] [] "")).
Proof.
  assert (Hname : c_name (parsePayload (Sample.localOnly [Sample.panadol])
                                       "Paracetamol") <> "")
    by discriminate.
  exact (proj1 (proj2 (proj2
           (@exact_key_wins (Sample.localOnly [Sample.panadol])
              "Paracetamol"
              (Sample.loaded (Sample.localOnly [Sample.panadol]))
              Sample.panadol eq_refl eq_refl Hname)))).
Defined.

(* ===================================================================== *)
(** * Texts of untyped values *)
(* ===================================================================== *)

Lemma toText_array (nt : Q -> string) (items : list Untyped.Value) :
  Untyped.toText nt (Untyped.JArray items) = Untyped.joinArray nt "," items.
Proof. reflexivity. Qed.

Lemma elementTexts_strings (nt : Q -> string) (l : list string) :
  Untyped.elementTexts nt (map Untyped.JString l) = Ret l.
Proof.
  induction l as [|s l IH]; [reflexivity|].
  cbn [map Untyped.elementTexts Untyped.toText Untyped.andThen].
  now rewrite IH.
Qed.

Lemma joinArray_strings (nt : Q -> string) (sep : string) (l : list string) :
  Untyped.joinArray nt sep (map Untyped.JString l) = Ret (join sep l).
Proof. unfold Untyped.joinArray. now rewrite elementTexts_strings. Qed.

(** Escaping and reading back leaves the text [String(v)]. *)
Lemma shown_text (nt : Q -> string) (s : option Untyped.Value) :
  Untyped.shown nt s
  = match s with
    | None | Some Untyped.JNull => Ret ""
    | Some v => Untyped.toText nt v
    end.
Proof.
  unfold Untyped.shown, Untyped.escapeHtml.
  destruct s as [v|]; [|reflexivity].
  destruct v; try reflexivity;
    cbn [Untyped.andThen];
    try (destruct (Untyped.toText nt _) as [t|]; cbn [Untyped.andThen];
         [now rewrite decode_escape | reflexivity]).
Qed.

(* ===================================================================== *)
(** * The typed view is the code on typed data *)
(* ===================================================================== *)

Lemma or_value_holds (a : option Untyped.Value) (s : string)
  (b : Untyped.Value) :
  holdsString a s ->
  Untyped.or_value a b = if truthy s then Untyped.JString s else b.
Proof. intros [->|[-> ->]]; reflexivity. Qed.

Lemma payloadView_fields (v : Untyped.Value) (o : PayloadObject) :
  payloadView v o ->
  Untyped.nameOf v
  = Untyped.JString (o_drugName o ||| o_name o ||| o_productName o ||| "")
  /\ Untyped.batchOf v = Untyped.JString (o_batch o ||| o_lot o ||| "")
  /\ Untyped.expiryOf v = Untyped.JString (o_expiry o ||| "").
Proof.
  intros [H1 [H2 [H3 [H4 [H5 H6]]]]].
  unfold Untyped.nameOf, Untyped.batchOf, Untyped.expiryOf.
  rewrite (or_value_holds _ H1), (or_value_holds _ H2),
    (or_value_holds _ H3), (or_value_holds _ H4), (or_value_holds _ H5),
    (or_value_holds _ H6).
  repeat split.
  - destruct (o_drugName o), (o_name o), (o_productName o); reflexivity.
  - destruct (o_batch o), (o_lot o); reflexivity.
  - destruct (o_expiry o); reflexivity.
Qed.

(** On a payload whose six properties are strings, [parsePayload] is the
    typed one. *)
Lemma parsePayload_typed (nt : Q -> string) (P : Platform)
  (parse : string -> option Untyped.Value) (raw : string) :
  decodesAlike P parse raw ->
  Untyped.parsePayload nt parse raw = candidateValue (parsePayload P raw).
Proof.
  unfold decodesAlike, parsePayload.
  destruct (JSON_parse P raw) as [o|] eqn:Ho.
  - intros [v [Hp Hview]]. rewrite (parsePayload_decoded nt parse raw Hp).
    destruct (payloadView_fields Hview) as [-> [-> ->]].
    cbn [Untyped.toText c_name c_batch c_expiry].
    destruct (o_drugName o ||| o_name o ||| o_productName o ||| "")
      as [|c s]; [|reflexivity].
    cbn [truthy String.eqb negb c_batch c_expiry].
    destruct (Regex.m10 raw), (Regex.m17 raw); reflexivity.
  - intros Hp. unfold Untyped.parsePayload, Untyped.decoded.
    destruct (parse raw) as [v|] eqn:Hv.
    + destruct v; try (cbn [c_name c_batch c_expiry truthy];
                       destruct (Regex.m10 raw), (Regex.m17 raw);
                       reflexivity).
      exfalso. exact (Hp _ eq_refl).
    + cbn [c_name c_batch c_expiry truthy].
      destruct (Regex.m10 raw), (Regex.m17 raw); reflexivity.
Qed.

Lemma stringsOf_strings (l : list string) :
  stringsOf (map Untyped.JString l) = l.
Proof. induction l as [|s l IH]; [reflexivity|]. simpl. now rewrite IH. Qed.

Lemma recordView_members (d : DrugRecord) : recordView (recordMembers d) = d.
Proof.
  destruct d as [n m b e u a dz mx sy].
  unfold recordView, recordMembers, stringsValue.
  cbn [d_name d_manufacturer d_batch d_expiry d_uses d_adrs d_dosage
       d_maxDoseMg d_synonyms].
  destruct mx as [q|], sy as [syns|]; cbn; rewrite ?stringsOf_strings;
    reflexivity.
Qed.

Lemma getOwn_indexEntries (idx : Index) (k : string) :
  JSObject.getOwn (indexEntries idx) k
  = match JSObject.getOwn idx k with
    | Some d => Some (recordMembers d)
    | None => None
    end.
Proof.
  induction idx as [|[k' d] idx IH]; [reflexivity|].
  cbn [indexEntries map JSObject.getOwn fst snd].
  destruct (k' =? k)%string; [reflexivity | exact IH].
Qed.

Lemma ownKeys_indexEntries (idx : Index) :
  JSObject.ownKeys (indexEntries idx) = JSObject.ownKeys idx.
Proof.
  unfold JSObject.ownKeys. f_equal.
  - f_equal. induction idx as [|[k d] idx IH]; [reflexivity|].
    cbn [indexEntries map JSObject.indexKeys fst snd].
    fold (indexEntries idx). rewrite IH. reflexivity.
  - induction idx as [|[k d] idx IH]; [reflexivity|].
    cbn [indexEntries map JSObject.nameKeys fst snd].
    fold (indexEntries idx). rewrite IH. reflexivity.
Qed.

Lemma set_indexEntries (idx : Index) (k : string) (d : DrugRecord) :
  JSObject.set (indexEntries idx) k (recordMembers d)
  = indexEntries (JSObject.set idx k d).
Proof.
  induction idx as [|[k' d'] idx IH]; [reflexivity|].
  cbn [indexEntries map JSObject.set fst snd].
  destruct (k' =? k)%string; [reflexivity|].
  cbn [map fst snd]. fold (indexEntries idx) in *. now rewrite IH.
Qed.

Lemma field_record (d : DrugRecord) :
  Untyped.field (Untyped.Entry (recordMembers d)) "name"
  = Some (Untyped.JString (d_name d))
  /\ Untyped.field (Untyped.Entry (recordMembers d)) "manufacturer"
     = Some (Untyped.JString (d_manufacturer d))
  /\ Untyped.field (Untyped.Entry (recordMembers d)) "batch"
     = Some (Untyped.JString (d_batch d))
  /\ Untyped.field (Untyped.Entry (recordMembers d)) "synonyms"
     = match d_synonyms d with
       | Some syns => Some (stringsValue syns)
       | None => None
       end.
Proof.
  destruct d as [n m b e u a dz mx sy].
  unfold recordMembers.
  cbn [d_name d_manufacturer d_batch d_expiry d_uses d_adrs d_dosage
       d_maxDoseMg d_synonyms].
  repeat split; destruct mx as [q|], sy as [syns|]; reflexivity.
Qed.

(** On a typed record the second operand of line 222 does not throw. *)
Lemma synonymsMatch_typed (nt : Q -> string) (d : DrugRecord) (lc : string) :
  Untyped.synonymsMatch nt (Untyped.Entry (recordMembers d)) lc
  = Ret match d_synonyms d with
        | Some syns => includes (toLowerCase (join " " syns)) lc
        | None => false
        end.
Proof.
  unfold Untyped.synonymsMatch.
  destruct (field_record d) as [_ [_ [_ ->]]].
  destruct (d_synonyms d) as [syns|]; [|reflexivity].
  unfold stringsValue. cbn [Untyped.toBoolean].
  now rewrite joinArray_strings.
Qed.

Lemma containsMatch_typed (nt : Q -> string) (idx : Index) (lc k : string) :
  In k (JSObject.ownKeys idx) ->
  Untyped.containsMatch nt (indexEntries idx) lc k
  = Ret (containsMatch idx lc k).
Proof.
  intros Hin. destruct (ownKeys_own idx k Hin) as [d Hd].
  unfold Untyped.containsMatch, containsMatch, Untyped.drapIndex_get,
    drapIndex_get.
  rewrite getOwn_indexEntries, Hd.
  destruct (includes k lc); [reflexivity|].
  now rewrite synonymsMatch_typed.
Qed.

Lemma firstMatch_typed (nt : Q -> string) (idx : Index) (lc : string)
  (keys : list string) :
  (forall k, In k keys -> In k (JSObject.ownKeys idx)) ->
  Untyped.firstMatch nt (indexEntries idx) lc keys
  = Ret (find (containsMatch idx lc) keys).
Proof.
  induction keys as [|k keys IH]; intros Hown; [reflexivity|].
  cbn [Untyped.firstMatch find].
  rewrite (containsMatch_typed nt idx lc k (Hown k (or_introl eq_refl))).
  cbn [Untyped.andThen].
  destruct (containsMatch idx lc k); [reflexivity|].
  apply IH. intros k' Hk'. apply Hown. now right.
Qed.

Lemma drapIndex_get_typed (idx : Index) (k : string) :
  match Untyped.drapIndex_get (indexEntries idx) k with
  | Some local => drapIndex_get idx k = Some (localView local)
  | None => drapIndex_get idx k = None
  end.
Proof.
  unfold Untyped.drapIndex_get, drapIndex_get, inherited.
  rewrite getOwn_indexEntries.
  destruct (JSObject.getOwn idx k) as [d|].
  - cbn [localView]. now rewrite recordView_members.
  - destruct (k =? "constructor")%string; [reflexivity|].
    destruct (k =? "__proto__")%string; reflexivity.
Qed.

(** Over an index of typed records the lookup of lines 219-226 throws
    nothing and finds what the typed lookup finds. *)
Lemma lookupLocal_typed (nt : Q -> string) (idx : Index) (name : string) :
  exists found,
    Untyped.lookupLocal nt (indexEntries idx) name = Ret found
    /\ lookupLocal idx name
       = match found with
         | Some local => Some (localView local)
         | None => None
         end.
Proof.
  unfold Untyped.lookupLocal, lookupLocal.
  pose proof (drapIndex_get_typed idx (toLowerCase name)) as Hexact.
  destruct (Untyped.drapIndex_get (indexEntries idx) (toLowerCase name))
    as [local|].
  - exists (Some local). now rewrite Hexact.
  - rewrite Hexact, ownKeys_indexEntries.
    rewrite firstMatch_typed by trivial. cbn [Untyped.andThen].
    destruct (find (containsMatch idx (toLowerCase name))
                   (JSObject.ownKeys idx)) as [k|].
    + pose proof (drapIndex_get_typed idx k) as Hk.
      destruct (Untyped.drapIndex_get (indexEntries idx) k) as [local|].
      * exists (Some local). now rewrite Hk.
      * exists None. now rewrite Hk.
    + now exists None.
Qed.

Lemma synonyms_typed (d : DrugRecord) (syns : list string) (idx : Index) :
  fold_left
    (fun acc s =>
       Untyped.andThen acc
         (fun i => match s with
                   | Untyped.JString t =>
                       Ret (JSObject.set i (toLowerCase t) (recordMembers d))
                   | _ => Throw
                   end))
    (map Untyped.JString syns) (Ret (indexEntries idx))
  = Ret (indexEntries
           (fold_left (fun i s => JSObject.set i (toLowerCase s) d)
                      syns idx)).
Proof.
  revert idx. induction syns as [|s syns IH]; intros idx; [reflexivity|].
  cbn [map fold_left Untyped.andThen]. rewrite set_indexEntries.
  apply IH.
Qed.

(** Loading a typed dataset throws nothing and builds the typed index. *)
Lemma addRecord_typed (idx : Index) (d : DrugRecord) :
  Untyped.addRecord (indexEntries idx) (recordValue d)
  = Ret (indexEntries (addRecord idx d)).
Proof.
  unfold Untyped.addRecord, recordValue, addRecord.
  pose proof (field_record d) as [Hn [_ [_ Hs]]].
  cbn [Untyped.field] in Hn, Hs. rewrite Hn, Hs.
  cbn [Untyped.toBoolean].
  destruct (truthy (d_name d)); cbn [Untyped.andThen].
  - rewrite set_indexEntries.
    destruct (d_synonyms d) as [syns|]; [|reflexivity].
    apply synonyms_typed.
  - destruct (d_synonyms d) as [syns|]; [|reflexivity].
    apply synonyms_typed.
Qed.

Lemma buildIndex_typed (arr : list DrugRecord) :
  Untyped.buildIndex (Untyped.JArray (map recordValue arr))
  = indexEntries (buildIndex arr).
Proof.
  unfold Untyped.buildIndex, buildIndex.
  change (Ret (JSObject.empty Untyped.Members))
    with (Ret (A:=Untyped.Index) (indexEntries (JSObject.empty DrugRecord))).
  generalize (JSObject.empty DrugRecord). intros idx.
  assert (H : fold_left
                (fun acc d => Untyped.andThen acc
                                (fun i => Untyped.addRecord i d))
                (map recordValue arr) (Ret (indexEntries idx))
              = Ret (indexEntries (fold_left addRecord arr idx))).
  { revert idx. induction arr as [|d arr IH]; intros idx; [reflexivity|].
    cbn [map fold_left Untyped.andThen]. rewrite addRecord_typed.
    apply IH. }
  now rewrite H.
Qed.

(** On a typed index and a typed candidate [renderQuickCard] throws
    nothing and assigns the typed markup. *)
Lemma quickCard_typed (nt : Q -> string) (idx : Index) (c : Candidate) :
  Untyped.quickCard nt (indexEntries idx) (candidateValue c)
  = Ret (quickCard idx c).
Proof.
  unfold Untyped.quickCard, quickCard.
  cbn [candidateValue Untyped.c_name Untyped.c_batch Untyped.c_expiry].
  unfold Untyped.drapIndex_get, drapIndex_get, inherited.
  rewrite getOwn_indexEntries.
  destruct (JSObject.getOwn idx (toLowerCase (c_name c))) as [d|].
  - destruct (field_record d) as [-> [-> [-> _]]].
    destruct (d_manufacturer d), (c_batch c), (d_batch d);
      rewrite !shown_text; reflexivity.
  - destruct (toLowerCase (c_name c) =? "constructor")%string;
      [|destruct (toLowerCase (c_name c) =? "__proto__")%string];
      destruct (c_batch c), (c_expiry c); rewrite !shown_text;
      cbn [Untyped.toBoolean truthy String.eqb negb Untyped.andThen
           Untyped.toText];
      rewrite ?shown_text; reflexivity.
Qed.

(** X22.  On typed data nothing throws before the fallback.  Over an
    index of typed records, for a payload that decodes to string
    properties or to no object, the resolution reaches the end of the
    local lookup: the candidate is the typed one, the quick card is the
    typed markup, and the record found is the one the typed lookup
    finds. *)
Theorem typed_data_resolves_without_exception :
  forall (nt : Q -> string) (P : Platform)
         (parse : string -> option Untyped.Value) (idx : Index)
         (raw : string),
    decodesAlike P parse raw ->
    let parsed := parsePayload P raw in
    let name := trim (c_name parsed) in
    Untyped.parsePayload nt parse raw = candidateValue parsed
    /\ Untyped.quickCard nt (indexEntries idx) (candidateValue parsed)
       = Ret (quickCard idx parsed)
    /\ exists found,
         Untyped.resolveLocally nt parse (indexEntries idx) raw
         = Ret (candidateValue parsed, found)
         /\ (name = "" -> found = None)
         /\ (name <> "" ->
             Untyped.lookupLocal nt (indexEntries idx) name = Ret found
             /\ lookupLocal idx name
                = match found with
                  | Some local => Some (localView local)
                  | None => None
                  end).
Proof.
  intros nt P parse idx raw Hdec parsed name.
  pose proof (@parsePayload_typed nt P parse raw Hdec) as Hparsed.
  fold parsed in Hparsed.
  split; [exact Hparsed|]. split; [apply quickCard_typed|].
  unfold Untyped.resolveLocally. rewrite Hparsed, quickCard_typed.
  cbn [Untyped.andThen candidateValue Untyped.c_name].
  rewrite or_else_empty_right. fold name.
  destruct (string_dec name "") as [He|Hn].
  - rewrite He. exists None. split; [reflexivity|].
    split; [reflexivity | contradiction].
  - pose proof Hn as Ht. apply truthy_true in Ht. rewrite Ht. cbn [negb].
    destruct (lookupLocal_typed nt idx name) as [found [Hfound Hview]].
    exists found. rewrite Hfound. split; [reflexivity|].
    split; [contradiction | now split].
Qed.

Lemma typed_data_resolves_without_exception_witness :
  let raw := Sample.namedWithSegments in
  let idx := buildIndex [Sample.panadol] in
  decodesAlike Sample.offline RawSample.parse raw
  /\ forall nt,
       Untyped.resolveLocally nt RawSample.parse (indexEntries idx) raw
       = Ret (Untyped.mkCandidate "Panadol" (Untyped.JString "")
                                  (Untyped.JString ""),
              Some (Untyped.Entry (recordMembers Sample.panadol))).
Proof.
  assert (Hdec : decodesAlike Sample.offline RawSample.parse
                              Sample.namedWithSegments).
  { unfold decodesAlike.
    assert (Ho : JSON_parse Sample.offline Sample.namedWithSegments
                 = Some (mkPayload "" "Panadol" "" "" "" ""))
      by (vm_compute; reflexivity).
    rewrite Ho. eexists. split; [vm_compute; reflexivity|].
    unfold payloadView, holdsString. cbn.
    repeat split; auto. }
  split; [exact Hdec|]. intros nt.
  destruct (@typed_data_resolves_without_exception
              nt Sample.offline RawSample.parse
              (buildIndex [Sample.panadol]) Sample.namedWithSegments Hdec)
    as [_ [_ [found [Hres _]]]].
  rewrite Hres. vm_compute in Hres. injection Hres as <-. reflexivity.
Defined.

(* ===================================================================== *)
(** * Where a resolution throws *)
(* ===================================================================== *)

(** An object with a property [toString] of its own has no text. *)
Lemma toText_own_toString (nt : Q -> string) (members : Untyped.Members)
  (v : Untyped.Value) :
  JSObject.getOwn members "toString" = Some v ->
  Untyped.toText nt (Untyped.JObject members) = Throw.
Proof. intros H. cbn [Untyped.toText]. now rewrite H. Qed.

(** [renderQuickCard] throws on a candidate whose batch has no text,
    whatever the index holds. *)
Lemma quickCard_batch_without_text (nt : Q -> string) (idx : Untyped.Index)
  (name : string) (batch expiry : Untyped.Value) :
  Untyped.toBoolean batch = true ->
  Untyped.toText nt batch = Throw ->
  Untyped.quickCard nt idx (Untyped.mkCandidate name batch expiry) = Throw.
Proof.
  intros Htrue Htext.
  assert (Hshown : Untyped.shown nt (Some batch) = Throw).
  { rewrite shown_text, Htext. destruct batch; try reflexivity.
    discriminate Htrue. }
  unfold Untyped.quickCard.
  cbn [Untyped.c_name Untyped.c_batch Untyped.c_expiry].
  destruct (Untyped.drapIndex_get idx (toLowerCase name)) as [local|].
  - unfold Untyped.or_value at 2. rewrite Htrue, Hshown.
    destruct (Untyped.shown nt (Untyped.field local "name")) as [n|];
      [|reflexivity].
    cbn [Untyped.andThen].
    destruct (Untyped.shown nt
                (Some (Untyped.or_value (Untyped.field local "manufacturer")
                                        (Untyped.JString "—"))))
      as [m|]; reflexivity.
  - rewrite Htrue, Hshown.
    destruct (Untyped.shown nt (Some (Untyped.JString name))) as [n|];
      reflexivity.
Qed.

(** The test of line 222 throws on a key that does not contain the name
    and whose record has a truthy [synonyms] that is no array. *)
Lemma containsMatch_synonyms_no_array (nt : Q -> string)
  (idx : Untyped.Index) (lc k : string) (d : Untyped.Members)
  (v : Untyped.Value) :
  includes k lc = false ->
  JSObject.getOwn idx k = Some d ->
  JSObject.getOwn d "synonyms" = Some v ->
  Untyped.toBoolean v = true ->
  (forall items, v <> Untyped.JArray items) ->
  Untyped.containsMatch nt idx lc k = Throw.
Proof.
  intros Hk Hd Hv Htrue Harr. unfold Untyped.containsMatch.
  rewrite Hk. unfold Untyped.drapIndex_get. rewrite Hd.
  unfold Untyped.synonymsMatch. cbn [Untyped.field]. rewrite Hv, Htrue.
  destruct v; try reflexivity. exfalso. exact (Harr _ eq_refl).
Qed.

(** The loop ends with the exception of the first test that throws. *)
Lemma firstMatch_throws (nt : Q -> string) (idx : Untyped.Index)
  (lc : string) (pre : list string) (k : string) (rest : list string) :
  (forall k', In k' pre -> Untyped.containsMatch nt idx lc k' = Ret false) ->
  Untyped.containsMatch nt idx lc k = Throw ->
  Untyped.firstMatch nt idx lc (pre ++ k :: rest) = Throw.
Proof.
  intros Hpre Hk. induction pre as [|p pre IH]; cbn [app Untyped.firstMatch].
  - now rewrite Hk.
  - rewrite (Hpre p (or_introl eq_refl)). cbn [Untyped.andThen].
    apply IH. intros k' Hk'. apply Hpre. now right.
Qed.

Lemma lookupLocal_throws (nt : Q -> string) (idx : Untyped.Index)
  (name : string) (pre : list string) (k : string) (rest : list string)
  (d : Untyped.Members) (v : Untyped.Value) :
  Untyped.drapIndex_get idx (toLowerCase name) = None ->
  JSObject.ownKeys idx = pre ++ k :: rest ->
  (forall k', In k' pre ->
              Untyped.containsMatch nt idx (toLowerCase name) k' = Ret false) ->
  includes k (toLowerCase name) = false ->
  JSObject.getOwn idx k = Some d ->
  JSObject.getOwn d "synonyms" = Some v ->
  Untyped.toBoolean v = true ->
  (forall items, v <> Untyped.JArray items) ->
  Untyped.lookupLocal nt idx name = Throw.
Proof.
  intros Hexact Hkeys Hpre Hk Hd Hv Htrue Harr.
  unfold Untyped.lookupLocal. rewrite Hexact, Hkeys.
  rewrite (firstMatch_throws nt idx (toLowerCase name) pre k rest Hpre);
    [reflexivity|].
  exact (containsMatch_synonyms_no_array nt idx (toLowerCase name) k
           Hk Hd Hv Htrue Harr).
Qed.

(** C9: two inputs on which the resolution throws.

    The dataset of the scenarios with its synonym written as a string.
    [loadDrapLocal] keeps the record under the key of its name: line 45
    asks [Array.isArray] and skips synonyms that are no array.  Resolving
    ["Amoxicillin"] then renders the quick card, finds no exact key, and
    at the first key of the loop line 222, which does not ask, calls
    [join] on the string: [TypeError], in no [try].

    The payload [{"batch":{"toString":1}}], on any index.  [parsePayload]
    returns the raw text as the name and the object as the batch;
    [renderQuickCard] interpolates the batch and [String] throws on it.

    On the dataset with the synonym in an array the same resolution
    returns.  In general the lookup throws whenever, before any key
    passes the test, the loop reaches a key that does not contain the
    name and whose record has a truthy [synonyms] that is no array. *)
Theorem resolution_throws_on_untyped_data :
  (let idx := Untyped.buildIndex RawSample.stringSynonyms in
   JSObject.ownKeys idx = ["panadol"]
   /\ forall nt,
        Untyped.parsePayload nt RawSample.parse "Amoxicillin"
        = Untyped.mkCandidate "Amoxicillin" (Untyped.JString "")
                              (Untyped.JString "")
        /\ (exists card,
              Untyped.quickCard nt idx
                (Untyped.parsePayload nt RawSample.parse "Amoxicillin")
              = Ret card)
        /\ Untyped.lookupLocal nt idx "Amoxicillin" = Throw
        /\ Untyped.resolveLocally nt RawSample.parse idx "Amoxicillin"
           = Throw)
  /\ (forall nt idx,
        Untyped.parsePayload nt RawSample.parse RawSample.objectBatch
        = Untyped.mkCandidate RawSample.objectBatch
            (Untyped.JObject [("toString", Untyped.JNumber (Num 1))])
            (Untyped.JString "")
        /\ Untyped.quickCard nt idx
             (Untyped.parsePayload nt RawSample.parse RawSample.objectBatch)
           = Throw
        /\ Untyped.resolveLocally nt RawSample.parse idx
             RawSample.objectBatch
           = Throw)
  /\ (forall nt,
        let idx := Untyped.buildIndex RawSample.arraySynonyms in
        JSObject.ownKeys idx = ["panadol"; "paracetamol"]
        /\ Untyped.lookupLocal nt idx "Amoxicillin" = Ret None
        /\ exists parsed,
             Untyped.resolveLocally nt RawSample.parse idx "Amoxicillin"
             = Ret (parsed, None))
  /\ (forall nt idx name pre k rest d v,
        Untyped.drapIndex_get idx (toLowerCase name) = None ->
        JSObject.ownKeys idx = pre ++ k :: rest ->
        (forall k', In k' pre ->
                    Untyped.containsMatch nt idx (toLowerCase name) k'
                    = Ret false) ->
        includes k (toLowerCase name) = false ->
        JSObject.getOwn idx k = Some d ->
        JSObject.getOwn d "synonyms" = Some v ->
        Untyped.toBoolean v = true ->
        (forall items, v <> Untyped.JArray items) ->
        Untyped.lookupLocal nt idx name = Throw).
Proof.
  split; [|split; [|split; [|exact lookupLocal_throws]]].
  - cbv zeta. split; [reflexivity|]. intros nt.
    split; [reflexivity|]. split; [eexists; reflexivity|].
    split; reflexivity.
  - intros nt idx.
    assert (Hparsed :
              Untyped.parsePayload nt RawSample.parse RawSample.objectBatch
              = Untyped.mkCandidate RawSample.objectBatch
                  (Untyped.JObject [("toString", Untyped.JNumber (Num 1))])
                  (Untyped.JString ""))
      by (vm_compute; reflexivity).
    assert (Hcard :
              Untyped.quickCard nt idx
                (Untyped.mkCandidate RawSample.objectBatch
                   (Untyped.JObject [("toString", Untyped.JNumber (Num 1))])
                   (Untyped.JString ""))
              = Throw).
    { apply quickCard_batch_without_text; [reflexivity|].
      now apply toText_own_toString with (Untyped.JNumber (Num 1)). }
    split; [exact Hparsed|]. rewrite Hparsed. split; [exact Hcard|].
    unfold Untyped.resolveLocally. now rewrite Hparsed, Hcard.
  - intros nt. cbv zeta. split; [reflexivity|]. split; [reflexivity|].
    eexists. reflexivity.
Qed.
